(** * anvi'o: KEGG pathway-map colouring and the inversions sanity check

    A shallow embedding of the parts of [anvio/keggmapping.py] (class
    [Mapper]) and [anvio/inversions.py] (class [Inversions]) that decide how
    colours, priorities, grid dimensions, output files and configuration
    errors are computed, together with the properties proved about them.

    Conventions of the embedding:
    - Python exceptions are values of [Py.exn]; a computation that may raise
      returns [Py.result].  Code that touches the output directory threads
      the file system explicitly and returns it next to the result.
    - Python dictionaries whose iteration order the code relies on
      ([color_priority], [project_names], the [drawn] tables) are insertion
      ordered association lists ([Py.odict]); dictionaries and stores only
      looked up by key are [gmap]s.
    - Floating-point sample points and priorities are exact rationals ([Q]). *)

From Stdlib Require Import ZArith QArith Qround Lia Lqa.
From stdpp Require Import base option list sorting strings pretty gmap.

Local Open Scope Z_scope.

(** ** Python values, exceptions and ordered dictionaries *)
Module Py.

(** The exception classes the embedded code can raise. *)
Inductive exn : Type :=
| AssertionError
| ConfigError (msg : string)
| FilesNPathsError
| KeyError
| IndexError
| ValueError
| TypeError
| ZeroDivisionError.

Inductive result (A : Type) : Type :=
| Ok (a : A)
| Raise (e : exn).
Arguments Ok {A} a.
Arguments Raise {A} e.

Definition bind {A B} (r : result A) (k : A -> result B) : result B :=
  match r with
  | Ok a => k a
  | Raise e => Raise e
  end.

Definition is_raise {A} (r : result A) : Prop :=
  match r with Ok _ => False | Raise _ => True end.

(** [assert cond] *)
Definition assert (cond : bool) : result unit :=
  if cond then Ok tt else Raise AssertionError.

(** [xs[i]] on a list with a non-negative index. *)
Definition getitem {A} (xs : list A) (i : nat) : result A :=
  match xs !! i with
  | Some x => Ok x
  | None => Raise IndexError
  end.

(** A subscript as Python sees it at run time: an integer or a string. *)
Inductive subscript : Type :=
| SubInt (i : nat)
| SubStr (s : string).

(** [xs[key]] on a list: a string subscript is a [TypeError] ("list indices
    must be integers or slices, not str"). *)
Definition list_subscript {A} (xs : list A) (key : subscript) : result A :=
  match key with
  | SubInt i => getitem xs i
  | SubStr _ => Raise TypeError
  end.

(** [xs.index(x)]: the first position holding [x], [ValueError] if none. *)
Fixpoint index {A} `{EqDecision A} (x : A) (xs : list A) : result nat :=
  match xs with
  | [] => Raise ValueError
  | y :: ys => if decide (x = y) then Ok O
               else match index x ys with
                    | Ok i => Ok (S i)
                    | Raise e => Raise e
                    end
  end.

(** Insertion-ordered dictionaries.  [od_set k v d] is [d[k] = v]: the value
    of a key already present is overwritten in place, a new key goes last.
    [od_keys d] is [list(d)]. *)
Definition odict (K V : Type) : Type := list (K * V).

Fixpoint od_set {K V} `{EqDecision K} (k : K) (v : V) (d : list (K * V)) : list (K * V) :=
  match d with
  | [] => [(k, v)]
  | (k', v') :: d' =>
      if decide (k = k') then (k', v) :: d' else (k', v') :: od_set k v d'
  end.

Fixpoint od_get {K V} `{EqDecision K} (k : K) (d : list (K * V)) : option V :=
  match d with
  | [] => None
  | (k', v') :: d' => if decide (k = k') then Some v' else od_get k d'
  end.

Definition od_keys {K V} (d : list (K * V)) : list K := d.*1.

(** [d[k]] as an expression. *)
Definition od_lookup {K V} `{EqDecision K} (k : K) (d : list (K * V)) : result V :=
  match od_get k d with
  | Some v => Ok v
  | None => Raise KeyError
  end.

(** [for k, v in items: d[k] = v] *)
Definition od_update {K V} `{EqDecision K} (d : list (K * V)) (items : list (K * V))
  : list (K * V) :=
  foldl (fun acc kv => od_set kv.1 kv.2 acc) d items.

(** The idiom [seen = set(); [x for x in xs if not (x in seen or seen.add(x))]]:
    duplicates dropped, first occurrences kept in order. *)
Fixpoint unique_from {A} `{EqDecision A} (seen : list A) (xs : list A) : list A :=
  match xs with
  | [] => []
  | x :: rest =>
      if decide (x ∈ seen) then unique_from seen rest
      else x :: unique_from (x :: seen) rest
  end.

Definition unique {A} `{EqDecision A} (xs : list A) : list A := unique_from [] xs.

End Py.

#[global] Instance result_ret : MRet Py.result := @Py.Ok.
#[global] Instance result_bind : MBind Py.result := fun A B k r => Py.bind r k.

(** ** Python's ordering of strings and [sorted(set(...))] *)
Module StrOrd.

(** [a <= b] on Python strings: lexicographic by code point. *)
Definition str_le (a b : string) : Prop := Is_true (String.leb a b).

#[global] Instance str_le_dec a b : Decision (str_le a b) := _.

(** [sorted(set(xs))]: duplicates removed, then sorted. *)
Definition sorted_set (xs : list string) : list string :=
  merge_sort str_le (remove_dups xs).

(** [sorted(xs)] *)
Definition sorted (xs : list string) : list string := merge_sort str_le xs.

End StrOrd.

(** ** Grid layout of [Mapper._make_grid] *)
Module Grid.

(** [math.ceil(math.sqrt(n))] on a non-negative integer, computed exactly:
    the least integer whose square is at least [n]. *)
Definition ceil_sqrt (n : Z) : Z := Z.sqrt_up n.

(** [math.ceil(a / b)] for integers [a], [b] with true division. *)
Definition ceil_div (a b : Z) : Z := Qceiling (inject_Z a / inject_Z b).

(** The first two assignments of [_make_grid]:
    [cols = math.ceil(math.sqrt(len(in_paths)))],
    [rows = math.ceil(len(in_paths) / cols)].
    With no input the division is by zero. *)
Definition grid_dims (in_paths : list string) : Py.result (Z * Z) :=
  let n := Z.of_nat (length in_paths) in
  let cols := ceil_sqrt n in
  if cols =? 0 then Py.Raise Py.ZeroDivisionError
  else Py.Ok (ceil_div n cols, cols).

(** Position of the [i]-th input in the grid: [row = i // cols],
    [col = i % cols]. *)
Definition cell_of (cols i : Z) : Z * Z := (i / cols, i mod cols).

End Grid.

(** ** Source combinations of the [by_database] scheme *)
Module Combos.

(** [itertools.combinations(pool, r)]: the [r]-element subsequences of
    [pool], emitted in lexicographic order of the positions they take. *)
Fixpoint combinations {A} (pool : list A) (r : nat) {struct pool} : list (list A) :=
  match r with
  | O => [[]]
  | S r' =>
      match pool with
      | [] => []
      | x :: rest => map (cons x) (combinations rest r') ++ combinations rest r
      end
  end.

(** The loop of [map_contigs_databases_kos]:
    [db_combos = []]
    [for db_count in range(1, len(contigs_dbs) + 1):]
    [    db_combos += list(combinations(project_names, db_count))] *)
Definition db_combos {A} (n : nat) (project_names : list A) : list (list A) :=
  foldl (fun acc db_count => acc ++ combinations project_names db_count) [] (seq 1 n).

(** Lexicographic comparison of two tuples of equal length. *)
Inductive lex_lt {A} (lt : A → A → Prop) : list A → list A → Prop :=
| lex_head x y xs ys : lt x y → lex_lt lt (x :: xs) (y :: ys)
| lex_tail x xs ys : lex_lt lt xs ys → lex_lt lt (x :: xs) (x :: ys).

(** Order of the enumeration: smaller tuples first, tuples of one size in
    lexicographic order. *)
Definition combo_lt {A} (lt : A → A → Prop) (c1 c2 : list A) : Prop :=
  (length c1 < length c2)%nat ∨ (length c1 = length c2 ∧ lex_lt lt c1 c2).

(** [pos_lt names a b]: [a] comes before [b] in the list of sources. *)
Definition pos_lt {A} (names : list A) (a b : A) : Prop :=
  ∃ i j, names !! i = Some a ∧ names !! j = Some b ∧ (i < j)%nat.

(** Counting: sizes [0 .. m-1] together. *)
Definition count_below {A} (pool : list A) (m : nat) : nat :=
  length (mjoin (combinations pool <$> seq 0 m)).

End Combos.

(** ** Pathway objects of [anvio.kgml] as the mapper uses them *)
Module Kgml.

(** A [Graphics] element: the attributes the mapper writes. *)
Record Graphics : Type := mkGraphics {
  fgcolor : string;
  bgcolor : string;
  width : Q;
}.

Definition set_fgcolor (c : string) (g : Graphics) : Graphics :=
  {| fgcolor := c; bgcolor := bgcolor g; width := width g |}.
Definition set_bgcolor (c : string) (g : Graphics) : Graphics :=
  {| fgcolor := fgcolor g; bgcolor := c; width := width g |}.
Definition set_width (w : Q) (g : Graphics) : Graphics :=
  {| fgcolor := fgcolor g; bgcolor := bgcolor g; width := w |}.

(** An [Entry].  [name] is [entry.name.split()] with every KEGG name already
    cut at its colons ([kegg_name.split(':')]), so ["ko:K00001 ko:K00002"]
    is [[["ko"; "K00001"]; ["ko"; "K00002"]]].  [children_graphics] is
    [entry.children['graphics']], the keys of its Graphics elements. *)
Record Entry : Type := mkEntry {
  uuid : string;
  type : string;
  name : list (list string);
  children_graphics : list string;
}.

(** A [Pathway]: its entries in the order of the KGML file, the store of
    Graphics elements addressed by key, and the kind of map. *)
Record Pathway : Type := mkPathway {
  entries : list Entry;
  uuid_element_lookup : gmap string Graphics;
  is_global_map : bool;
  is_overview_map : bool;
}.

Definition with_lookup (p : Pathway) (store : gmap string Graphics) : Pathway :=
  {| entries := entries p; uuid_element_lookup := store;
     is_global_map := is_global_map p; is_overview_map := is_overview_map p |}.

(** Modelled from the spec: the test [Pathway.get_entries] of
    [anvio/kgml.py] (not among the sources) applies to an entry: it is of
    the requested type (any type when none is requested) and one of its
    identifiers is among [kegg_ids] (any entry when no identifiers are
    given). *)
Definition entry_matches (entry_type : option string) (ids : option (string → bool))
    (e : Entry) : bool :=
  match entry_type with
  | Some t => bool_decide (type e = t)
  | None => true
  end &&
  match ids with
  | Some sel =>
      existsb (fun split_kegg_name =>
                 match split_kegg_name !! 1%nat with
                 | Some id => sel id
                 | None => false
                 end) (name e)
  | None => true
  end.

(** Modelled from the spec: [Pathway.get_entries] of [anvio/kgml.py], which
    is not among the sources.  It returns the matching entries in the order
    of the file. *)
Definition get_entries (p : Pathway) (entry_type : option string)
    (ids : option (string → bool)) : list Entry :=
  List.filter (entry_matches entry_type ids) (entries p).

End Kgml.

(** ** The mapper of [anvio/keggmapping.py] *)
Module Mapper.
Import Kgml.

(** *** Colormaps and priorities *)

(** A matplotlib colormap as the mapper calls it: [cmap.N], and the hex code
    [mcolors.rgb2hex(cmap(x))] for an integer index and for a float. *)
Record Colormap : Type := mkColormap {
  cmap_name : string;
  cmap_N : nat;
  cmap_int : nat → string;
  cmap_float : Q → string;
}.

(** [np.linspace(0, 1, n)], in exact arithmetic. *)
Definition linspace01 (n : nat) : list Q :=
  match n with
  | 1%nat => [0%Q]
  | _ => (fun i => (inject_Z (Z.of_nat i) / inject_Z (Z.of_nat n - 1))%Q) <$> seq 0 n
  end.

(** [color_priority] of the scheme [by_count]:
    [for sample_point in np.linspace(0, 1, n):]
    [    color_priority[rgb2hex(cmap(sample_point))] =]
    [        1 - sample_point if reverse_overlay else sample_point] *)
Definition by_count_priority (cmap : Colormap) (reverse_overlay : bool) (n : nat)
  : list (string * Q) :=
  Py.od_update []
    ((fun sample_point =>
        (cmap_float cmap sample_point,
         if reverse_overlay then (1 - sample_point)%Q else sample_point))
       <$> linspace01 n).

(** [db_combos] and [color_priority] of the scheme [by_database]:
    [assert len(db_combos) <= cmap.N]
    [for sample_point in range(len(db_combos)):]
    [    color_priority[rgb2hex(cmap(sample_point))] =]
    [        1 - sample_point / cmap.N if reverse_overlay]
    [        else (sample_point + 1) / cmap.N] *)
Definition by_database_priority (cmap : Colormap) (reverse_overlay : bool) (n : nat)
    (project_names : list string)
  : Py.result (list (list string) * list (string * Q)) :=
  let db_combos := Combos.db_combos n project_names in
  _ ← Py.assert (bool_decide (length db_combos ≤ cmap_N cmap)%nat);
  mret (db_combos,
        Py.od_update []
          ((fun sample_point =>
              (cmap_int cmap sample_point,
               if reverse_overlay
               then (1 - inject_Z (Z.of_nat sample_point) / inject_Z (Z.of_nat (cmap_N cmap)))%Q
               else ((inject_Z (Z.of_nat sample_point) + 1)
                       / inject_Z (Z.of_nat (cmap_N cmap)))%Q))
             <$> seq 0 (length db_combos))).

(** *** Colouring the entries of a map *)

(** [combo_lookup[tuple(sorted(combo))] = combo] for every combination. *)
Definition make_combo_lookup (source_combos : option (list (list string)))
  : list (list string * list string) :=
  match source_combos with
  | None => []
  | Some combos => Py.od_update [] ((fun combo => (StrOrd.sorted combo, combo)) <$> combos)
  end.

(** The inner loop over [entry.name.split()]: the sources of every KO of the
    entry that is in [ko_membership], concatenated. *)
Fixpoint collect_sources (ko_membership : gmap string (list string))
    (kegg_names : list (list string)) (source_names : list string)
  : Py.result (list string) :=
  match kegg_names with
  | [] => Py.Ok source_names
  | split_kegg_name :: rest =>
      kegg_id ← Py.getitem split_kegg_name 1;
      collect_sources ko_membership rest
        (match ko_membership !! kegg_id with
         | Some sources => source_names ++ sources
         | None => source_names
         end)
  end.

(** The colour of an entry with the given sources:
    [color_hexcodes[len(set(source_names)) - 1]] by count, else
    [color_hexcodes[source_combos.index(combo_lookup[tuple(sorted(set(source_names)))])]]. *)
Definition resolve_color (color_hexcodes : list string)
    (source_combos : option (list (list string)))
    (combo_lookup : list (list string * list string))
    (source_names : list string) : Py.result string :=
  _ ← Py.assert (negb (Nat.eqb (length source_names) 0));
  match source_combos with
  | None => Py.getitem color_hexcodes (length (remove_dups source_names) - 1)
  | Some combos =>
      source_combo ← Py.od_lookup (StrOrd.sorted_set source_names) combo_lookup;
      i ← Py.index source_combo combos;
      Py.getitem color_hexcodes i
  end.

(** What a selected entry's Graphics element is set to, by kind of map. *)
Definition color_selected (global overview : bool) (color_hexcode : string)
    (g : Graphics) : Graphics :=
  if global then set_bgcolor "#FFFFFF" (set_fgcolor color_hexcode g)
  else if overview then set_width 5 (set_bgcolor "#FFFFFF" (set_fgcolor color_hexcode g))
  else set_bgcolor color_hexcode (set_fgcolor "#000000" g).

(** What the fixed-colour methods set on the Graphics of the other ortholog
    entries: the nonsense foreground ['0']. *)
Definition mark_unselected (g : Graphics) : Graphics := set_fgcolor "0" g.

(** [for uuid in entry.children['graphics']:]
    [    graphics = pathway.uuid_element_lookup[uuid]; ...] *)
Fixpoint update_graphics (f : Graphics → Graphics) (uuids : list string)
    (store : gmap string Graphics) : Py.result (gmap string Graphics) :=
  match uuids with
  | [] => Py.Ok store
  | u :: rest =>
      match store !! u with
      | Some g => update_graphics f rest (<[u := f g]> store)
      | None => Py.Raise Py.KeyError
      end
  end.

(** The loop [for entry in entries] of [_draw_map_kos_membership]. *)
Fixpoint color_entries_membership (global overview : bool)
    (ko_membership : gmap string (list string)) (color_hexcodes : list string)
    (source_combos : option (list (list string)))
    (combo_lookup : list (list string * list string))
    (selected : list Entry) (store : gmap string Graphics)
  : Py.result (gmap string Graphics) :=
  match selected with
  | [] => Py.Ok store
  | entry :: rest =>
      source_names ← collect_sources ko_membership (name entry) [];
      color_hexcode ← resolve_color color_hexcodes source_combos combo_lookup source_names;
      store' ← update_graphics (color_selected global overview color_hexcode)
                 (children_graphics entry) store;
      color_entries_membership global overview ko_membership color_hexcodes
        source_combos combo_lookup rest store'
  end.

(** The loop [for entry in all_entries] of [_draw_map_kos_single_color]:
    selected entries are coloured, the other ortholog entries are marked. *)
Fixpoint color_entries_single (global overview : bool) (color_hexcode : string)
    (select_uuids : list string) (all_entries : list Entry)
    (store : gmap string Graphics) : Py.result (gmap string Graphics) :=
  match all_entries with
  | [] => Py.Ok store
  | entry :: rest =>
      store' ← update_graphics
                 (if bool_decide (uuid entry ∈ select_uuids)
                  then color_selected global overview color_hexcode
                  else mark_unselected)
                 (children_graphics entry) store;
      color_entries_single global overview color_hexcode select_uuids rest store'
  end.

(** *** The output directory *)

(** What the mapper leaves in the file system: directories, drawn maps (the
    pathway object handed to the drawer), colorbars and grids. *)
Inductive File : Type :=
| Directory
| MapPdf (pathway : Pathway)
| ColorbarPdf (colors : list string) (color_labels : list string)
| GridPdf (rows cols : Z) (in_paths : list string) (labels : list string)
    (landscape : bool).

(** Computations over the file system that may raise; the file system at the
    moment of the exception is kept. *)
Definition M (A : Type) : Type := gmap string File → Py.result A * gmap string File.

#[global] Instance M_ret : MRet M := fun A a fs => (Py.Ok a, fs).
#[global] Instance M_bind : MBind M := fun A B k m fs =>
  match m fs with
  | (Py.Ok a, fs') => k a fs'
  | (Py.Raise e, fs') => (Py.Raise e, fs')
  end.

Definition lift {A} (r : Py.result A) : M A := fun fs => (r, fs).
Definition raise {A} (e : Py.exn) : M A := fun fs => (Py.Raise e, fs).

(** [os.path.exists(path)] *)
Definition path_exists (path : string) : M bool :=
  fun fs => (Py.Ok (bool_decide (is_Some (fs !! path))), fs).

(** [os.remove(path)] *)
Definition os_remove (path : string) : M unit :=
  fun fs => (Py.Ok tt, delete path fs).

(** [filesnpaths.gen_output_directory(output_dir)]: the directory is made
    when it is not there. *)
Definition gen_output_directory (output_dir : string) : M unit :=
  fun fs => (Py.Ok tt, match fs !! output_dir with
                       | Some _ => fs
                       | None => <[output_dir := Directory]> fs
                       end).

(** [filesnpaths.is_output_file_writable(path, ok_if_exists=False)] *)
Definition is_output_file_writable (path : string) : M unit :=
  fun fs => (match fs !! path with
             | Some _ => Py.Raise Py.FilesNPathsError
             | None => Py.Ok tt
             end, fs).

Definition write_file (path : string) (f : File) : M unit :=
  fun fs => (Py.Ok tt, <[path := f]> fs).

(** [shutil.rmtree(dir)]: the directory and everything below it. *)
Definition rmtree (dir : string) : M unit :=
  fun fs => (Py.Ok tt,
             filter (fun kv => ¬ (kv.1 = dir ∨ String.prefix (dir +:+ "/") kv.1 = true)) fs).

Definition ends_with_sep (path : string) : bool :=
  match String.get (String.length path - 1) path with
  | Some c => bool_decide (String c EmptyString = "/")
  | None => false
  end.

(** [os.path.join(a, b)] on POSIX. *)
Definition path_join (a b : string) : string :=
  if String.prefix "/" b then b
  else if bool_decide (a = "") || ends_with_sep a then a +:+ b
  else a +:+ "/" +:+ b.

(** [f'{prefix}_{pathway_number}.pdf'] *)
Definition pdf_name (prefix pathway_number : string) : string :=
  prefix +:+ "_" +:+ pathway_number +:+ ".pdf".

(** *** The mapper object and its collaborators *)

(** The attributes of a [Mapper] and the collaborators it calls: regular
    expressions, the KGML loader behind [_get_pathway], the pathway's
    [set_color_priority], matplotlib's colormap registry and truncation, the
    databases read for KO annotations (contigs databases, the genomes
    storage, the pan database with its genome names, consensus KOs per gene
    cluster and genes per genome of a cluster), and the orientation of a
    drawn page. *)
Record Env : Type := mkEnv {
  available_pathway_numbers : list string;
  overwrite_output : bool;
  re_match : string → string → bool;
  get_pathway : string → Pathway;
  set_color_priority :
    list (string * string * Q) → string → option string → option Colormap →
    Pathway → Pathway;
  get_cmap : string → Colormap;
  truncate_cmap : Colormap → Q → Q → Colormap;
  project_name_of : string → string;
  has_kofam : string → bool;
  contigs_db_kos : string → list string;
  genome_kos : string → string → list string;
  known_cmap : string → bool;
  pan_genome_names : string → list string;
  pan_consensus : string → string → list (string * string);
  pan_gene_clusters : string → string → string → list (string * list Z);
  page_landscape : File → bool;
}.

(** [_get_pathway_numbers_from_patterns] *)
Definition _get_pathway_numbers_from_patterns (env : Env) (patterns : list string)
  : list string :=
  Py.unique
    (mjoin ((fun pattern =>
               List.filter (re_match env pattern) (available_pathway_numbers env))
              <$> patterns)).

Definition overwrite_msg (output_dir : string) : string :=
  "Output files would be overwritten in the output directory, " +:+ output_dir +:+
  ". Either delete the contents of the directory, or use the option to overwrite output destinations.".

(** The loop of [_find_maps] run when [overwrite_output] is off. *)
Fixpoint check_outputs (output_dir prefix : string) (pathway_numbers : list string)
  : M unit :=
  match pathway_numbers with
  | [] => mret tt
  | pathway_number :: rest =>
      found ← path_exists (path_join output_dir (pdf_name prefix pathway_number));
      if (found : bool) then raise (Py.ConfigError (overwrite_msg output_dir))
      else check_outputs output_dir prefix rest
  end.

(** [_find_maps] *)
Definition _find_maps (env : Env) (output_dir prefix : string)
    (patterns : option (list string)) : M (list string) :=
  let pathway_numbers :=
    match patterns with
    | None => available_pathway_numbers env
    | Some patterns => _get_pathway_numbers_from_patterns env patterns
    end in
  _ ← (if overwrite_output env then mret tt
       else check_outputs output_dir prefix pathway_numbers);
  mret pathway_numbers.

(** The end of every [_draw_map_kos_*] method: the old file is removed when
    overwriting, else the path must be free; then the map is drawn. *)
Definition draw_to (env : Env) (pathway : Pathway) (out_path : string) : M unit :=
  found ← path_exists out_path;
  _ ← (if (found : bool) && overwrite_output env then os_remove out_path
       else is_output_file_writable out_path);
  write_file out_path (MapPdf pathway).

(** *** Drawing one map *)

Definition is_nil {A} (xs : list A) : bool :=
  match xs with [] => true | _ => false end.

Definition out_path_of (output_dir pathway_number : string) : string :=
  path_join output_dir (pdf_name "kos" pathway_number).

(** [_draw_map_kos_single_color].  The result is paired with the pathway
    object as the call leaves it. *)
Definition _draw_map_kos_single_color (env : Env) (pathway_number : string)
    (ko_ids : list string) (color_hexcode output_dir : string)
    (draw_map_lacking_kos : bool) : M (bool * Pathway) :=
  let pathway := get_pathway env pathway_number in
  let select_entries :=
    get_entries pathway None (Some (fun id => bool_decide (id ∈ ko_ids))) in
  if is_nil select_entries && negb draw_map_lacking_kos then mret (false, pathway)
  else
    let all_entries := get_entries pathway (Some "ortholog") None in
    let select_uuids := uuid <$> select_entries in
    let global := is_global_map pathway in
    let overview := is_overview_map pathway in
    store ← lift (color_entries_single global overview color_hexcode select_uuids
                    all_entries (uuid_element_lookup pathway));
    let pathway := with_lookup pathway store in
    let pathway :=
      if global then
        set_color_priority env [((color_hexcode, "#FFFFFF"), 1%Q)] "g" (Some "high") None
          pathway
      else if overview then
        set_color_priority env [((color_hexcode, "#FFFFFF"), 1%Q)] "w" (Some "high") None
          pathway
      else
        set_color_priority env [(("#000000", color_hexcode), 1%Q)] "w" None None pathway in
    _ ← draw_to env pathway (out_path_of output_dir pathway_number);
    mret (true, pathway).

(** The loop [for entry in all_entries] of [_draw_map_kos_original_color]:
    selected entries keep their main colour and get the secondary one, and
    their colour pairs are collected; the other entries are marked. *)
Fixpoint original_graphics (global overview : bool) (uuids : list string)
    (store : gmap string Graphics) (prioritized_colors : list (string * string))
  : Py.result (gmap string Graphics * list (string * string)) :=
  match uuids with
  | [] => Py.Ok (store, prioritized_colors)
  | u :: rest =>
      match store !! u with
      | Some g =>
          let g' := if global then set_bgcolor "#FFFFFF" g
                    else if overview then set_width 5 (set_bgcolor "#FFFFFF" g)
                    else set_fgcolor "#000000" g in
          original_graphics global overview rest (<[u := g']> store)
            (prioritized_colors ++ [(fgcolor g', bgcolor g')])
      | None => Py.Raise Py.KeyError
      end
  end.

Fixpoint color_entries_original (global overview : bool) (select_uuids : list string)
    (all_entries : list Entry) (store : gmap string Graphics)
    (prioritized_colors : list (string * string))
  : Py.result (gmap string Graphics * list (string * string)) :=
  match all_entries with
  | [] => Py.Ok (store, prioritized_colors)
  | entry :: rest =>
      '(store', colors') ←
        (if bool_decide (uuid entry ∈ select_uuids)
         then original_graphics global overview (children_graphics entry) store
                prioritized_colors
         else store' ← update_graphics mark_unselected (children_graphics entry) store;
              mret (store', prioritized_colors));
      color_entries_original global overview select_uuids rest store' colors'
  end.

(** [_draw_map_kos_original_color] *)
Definition _draw_map_kos_original_color (env : Env) (pathway_number : string)
    (ko_ids : list string) (output_dir : string)
    (draw_map_lacking_kos : bool) : M (bool * Pathway) :=
  let pathway := get_pathway env pathway_number in
  let select_entries :=
    get_entries pathway None (Some (fun id => bool_decide (id ∈ ko_ids))) in
  if is_nil select_entries && negb draw_map_lacking_kos then mret (false, pathway)
  else
    let all_entries := get_entries pathway (Some "ortholog") None in
    let select_uuids := uuid <$> select_entries in
    let global := is_global_map pathway in
    let overview := is_overview_map pathway in
    '(store, prioritized_colors) ←
      lift (color_entries_original global overview select_uuids all_entries
              (uuid_element_lookup pathway) []);
    let pathway := with_lookup pathway store in
    let prioritized_colors := Py.unique prioritized_colors in
    let priorities := drop 1 (linspace01 (length prioritized_colors + 1)) in
    let ortholog_color_priority := Py.od_update [] (zip prioritized_colors priorities) in
    let pathway :=
      if global then set_color_priority env ortholog_color_priority "g" (Some "high") None pathway
      else if overview then
        set_color_priority env ortholog_color_priority "w" (Some "high") None pathway
      else set_color_priority env ortholog_color_priority "w" None None pathway in
    _ ← draw_to env pathway (out_path_of output_dir pathway_number);
    mret (true, pathway).

(** [_draw_map_kos_membership] *)
Definition _draw_map_kos_membership (env : Env) (pathway_number : string)
    (ko_membership : gmap string (list string)) (color_priority : list (string * Q))
    (output_dir : string) (colormap : Colormap)
    (source_combos : option (list (list string)))
    (draw_map_lacking_kos : bool) : M (bool * Pathway) :=
  let pathway := get_pathway env pathway_number in
  let combo_lookup := make_combo_lookup source_combos in
  let entries :=
    get_entries pathway None
      (Some (fun id => bool_decide (is_Some (ko_membership !! id)))) in
  if is_nil entries && negb draw_map_lacking_kos then mret (false, pathway)
  else
    let color_hexcodes := Py.od_keys color_priority in
    let global := is_global_map pathway in
    let overview := is_overview_map pathway in
    store ← lift (color_entries_membership global overview ko_membership color_hexcodes
                    source_combos combo_lookup entries (uuid_element_lookup pathway));
    let pathway := with_lookup pathway store in
    let pathway :=
      if global then
        set_color_priority env
          (Py.od_update [] ((fun cp => ((cp.1, "#FFFFFF"), cp.2)) <$> color_priority))
          "g" (Some "high") (Some colormap) pathway
      else if overview then
        set_color_priority env
          (Py.od_update [] ((fun cp => ((cp.1, "#FFFFFF"), cp.2)) <$> color_priority))
          "w" (Some "high") (Some colormap) pathway
      else
        set_color_priority env
          (Py.od_update [] ((fun cp => (("#000000", cp.1), cp.2)) <$> color_priority))
          "w" None None pathway in
    _ ← draw_to env pathway (out_path_of output_dir pathway_number);
    mret (true, pathway).

(** *** Drawing the maps of one source *)

(** [for pathway_number in pathway_numbers: drawn[pathway_number] = draw(...)] *)
Fixpoint draw_loop (draw : string → M (bool * Pathway)) (pathway_numbers : list string)
    (drawn : list (string * bool)) : M (list (string * bool)) :=
  match pathway_numbers with
  | [] => mret drawn
  | pathway_number :: rest =>
      r ← draw pathway_number;
      draw_loop draw rest (Py.od_set pathway_number r.1 drawn)
  end.

(** The choice made for every map by the fixed-colour methods. *)
Definition draw_fixed (env : Env) (ko_ids : list string) (color_hexcode output_dir : string)
    (draw_maps_lacking_kos : bool) (pathway_number : string) : M (bool * Pathway) :=
  if bool_decide (color_hexcode = "original") then
    _draw_map_kos_original_color env pathway_number ko_ids output_dir draw_maps_lacking_kos
  else
    _draw_map_kos_single_color env pathway_number ko_ids color_hexcode output_dir
      draw_maps_lacking_kos.

(** [_map_kos_fixed_colors] *)
Definition _map_kos_fixed_colors (env : Env) (ko_ids : list string) (output_dir : string)
    (pathway_numbers : option (list string)) (color_hexcode : string)
    (draw_maps_lacking_kos : bool) : M (list (string * bool)) :=
  pathway_numbers ← _find_maps env output_dir "kos" pathway_numbers;
  _ ← gen_output_directory output_dir;
  draw_loop (draw_fixed env ko_ids color_hexcode output_dir draw_maps_lacking_kos)
    pathway_numbers [].

(** [map_contigs_database_kos] *)
Definition map_contigs_database_kos (env : Env) (contigs_db output_dir : string)
    (pathway_numbers : option (list string)) (color_hexcode : string)
    (draw_maps_lacking_kos : bool) : M (list (string * bool)) :=
  _map_kos_fixed_colors env (contigs_db_kos env contigs_db) output_dir pathway_numbers
    color_hexcode draw_maps_lacking_kos.

(** [map_genomes_storage_genome_kos] *)
Definition map_genomes_storage_genome_kos (env : Env)
    (genomes_storage_db genome_name output_dir : string)
    (pathway_numbers : option (list string)) (color_hexcode : string)
    (draw_maps_lacking_kos : bool) : M (list (string * bool)) :=
  _map_kos_fixed_colors env (genome_kos env genomes_storage_db genome_name) output_dir
    pathway_numbers color_hexcode draw_maps_lacking_kos.

(** *** Maps of several sources *)

(** An argument that is a bool or names ([Union[Iterable[str], bool]]). *)
Inductive names_or_bool : Type :=
| ArgBool (b : bool)
| ArgNames (names : list string).

(** The [colormap] argument of [map_contigs_databases_kos]. *)
Inductive colormap_arg : Type :=
| CmapBool (b : bool)
| CmapName (cmap_name : string)
| CmapObject (cmap : Colormap).

Inductive scheme : Type := Static | ByCount | ByDatabase.

(** The tables returned by the multi-source methods. *)
Record Drawn : Type := mkDrawn {
  unified : list (string * bool);
  individual : list (string * list (string * bool));
  grid : list (string * bool);
}.

(** [x is False] for such an argument. *)
Definition is_False (a : names_or_bool) : bool :=
  match a with ArgBool false => true | _ => false end.

(** "Set the colormap scheme." *)
Definition set_scheme (colormap : colormap_arg) (colormap_scheme : option string)
    (n_dbs : nat) : Py.result scheme :=
  match colormap with
  | CmapBool false => Py.Ok Static
  | _ =>
      match colormap_scheme with
      | None => Py.Ok (if bool_decide (n_dbs < 4)%nat then ByDatabase else ByCount)
      | Some s =>
          if bool_decide (s = "by_count") then Py.Ok ByCount
          else if bool_decide (s = "by_database") then Py.Ok ByDatabase
          else Py.Raise Py.AssertionError
      end
  end.

(** "Set the colormap." *)
Definition set_colormap (env : Env) (colormap : colormap_arg) (sch : scheme)
    (colormap_limits : option (Q * Q)) : Py.result (option Colormap * option (Q * Q)) :=
  match colormap with
  | CmapBool true =>
      match sch with
      | ByCount =>
          Py.Ok (Some (get_cmap env "plasma_r"),
                 Some (default ((1 # 10)%Q, (9 # 10)%Q) colormap_limits))
      | ByDatabase =>
          Py.Ok (Some (get_cmap env "tab10"), Some (default (0%Q, 1%Q) colormap_limits))
      | Static => Py.Raise Py.AssertionError
      end
  | CmapBool false => Py.Ok (None, colormap_limits)
  | CmapName cmap_name => Py.Ok (Some (get_cmap env cmap_name), colormap_limits)
  | CmapObject cmap => Py.Ok (Some cmap, colormap_limits)
  end.

(** "Trim the colormap." *)
Definition trim_colormap (env : Env) (cmap : option Colormap)
    (colormap_limits : option (Q * Q)) : Py.result (option Colormap) :=
  match cmap, colormap_limits with
  | Some c, Some (lo, hi) =>
      if Qeq_bool lo 0 && Qeq_bool hi 1 then Py.Ok cmap
      else
        _ ← Py.assert (Qle_bool 0 lo && Qle_bool lo hi && Qle_bool hi 1);
        mret (Some (truncate_cmap env c lo hi))
  | _, _ => Py.Ok cmap
  end.

(** "Load contigs database metadata." *)
Fixpoint load_project_names (env : Env) (contigs_dbs : list string)
    (project_names : list (string * string)) : Py.result (list (string * string)) :=
  match contigs_dbs with
  | [] => Py.Ok project_names
  | contigs_db :: rest =>
      _ ← Py.assert (has_kofam env contigs_db);
      let project_name := project_name_of env contigs_db in
      _ ← Py.assert (negb (bool_decide (project_name ∈ Py.od_keys project_names)));
      load_project_names env rest (Py.od_set project_name contigs_db project_names)
  end.

(** [try: d[k].append(x) except KeyError: d[k] = [x]] *)
Definition append_at (k x : string) (d : gmap string (list string))
  : gmap string (list string) :=
  match d !! k with
  | Some xs => <[k := xs ++ [x]]> d
  | None => <[k := [x]]> d
  end.

(** "Find which contigs databases contain each KO." *)
Definition find_ko_dbs (env : Env) (project_names : list (string * string))
  : gmap string (list string) :=
  foldl (fun ko_dbs pn =>
           foldl (fun ko_dbs ko_id => append_at ko_id pn.1 ko_dbs) ko_dbs
                 (contigs_db_kos env pn.2))
        ∅ project_names.

(** [_draw_colorbar] *)
Definition _draw_colorbar (env : Env) (colors : list string) (out_path : string)
    (color_labels : list string) : M unit :=
  _ ← lift (Py.assert (Nat.eqb (length colors) (length color_labels)));
  found ← path_exists out_path;
  _ ← (if (found : bool) && overwrite_output env then os_remove out_path
       else is_output_file_writable out_path);
  write_file out_path (ColorbarPdf colors color_labels).

(** [', '.join(db_combo)] *)
Fixpoint join_names (names : list string) : string :=
  match names with
  | [] => ""
  | [x] => x
  | x :: rest => x +:+ ", " +:+ join_names rest
  end.

(** The keys of a dictionary handed over as [ko_ids]. *)
Definition dict_keys (d : gmap string (list string)) : list string :=
  (map_to_list d).*1.

(** The unified maps of [map_contigs_databases_kos], from
    ["Drawing 'unified' map ..."] to the end of that loop. *)
Definition draw_unified_dbs (env : Env) (sch : scheme) (cmap : option Colormap)
    (n_dbs : nat) (project_names : list (string * string))
    (ko_dbs : gmap string (list string)) (output_dir : string)
    (pathway_numbers : list string) (reverse_overlay : bool) (color_hexcode : string)
    (colorbar draw_maps_lacking_kos : bool) : M (list (string * bool)) :=
  match sch with
  | Static =>
      draw_loop (draw_fixed env (dict_keys ko_dbs) color_hexcode output_dir
                   draw_maps_lacking_kos) pathway_numbers []
  | _ =>
      match cmap with
      | None => raise Py.TypeError
      | Some cmap =>
          '(db_combos, color_priority) ←
            lift (match sch with
                  | ByCount =>
                      Py.Ok (None, by_count_priority cmap reverse_overlay n_dbs)
                  | _ =>
                      cp ← by_database_priority cmap reverse_overlay n_dbs
                             (Py.od_keys project_names);
                      mret (Some cp.1, cp.2)
                  end);
          _ ← (if colorbar then
                 _draw_colorbar env (Py.od_keys color_priority)
                   (path_join output_dir "colorbar.pdf")
                   (match db_combos with
                    | None => pretty <$> seq 1 n_dbs
                    | Some combos => join_names <$> combos
                    end)
               else mret tt);
          draw_loop (fun pathway_number =>
                       _draw_map_kos_membership env pathway_number ko_dbs color_priority
                         output_dir cmap db_combos draw_maps_lacking_kos)
                    pathway_numbers []
      end
  end.

(** The names selected by [draw_contigs_db_files] or [draw_grid], without
    repeats. *)
Definition select_names (arg : names_or_bool) (all_names : list string)
  : Py.result (list string) :=
  match arg with
  | ArgBool true => Py.Ok (Py.unique all_names)
  | ArgBool false => Py.Ok []
  | ArgNames names =>
      _ ← Py.assert (forallb (fun name => bool_decide (name ∈ all_names)) names);
      mret (Py.unique names)
  end.

(** "Draw individual database maps needed as final outputs or for grids." *)
Fixpoint draw_individual (draw_one : string → M (list (string * bool)))
    (names : list string) (acc : list (string * list (string * bool)))
  : M (list (string * list (string * bool))) :=
  match names with
  | [] => mret acc
  | name :: rest =>
      d ← draw_one name;
      draw_individual draw_one rest (Py.od_set name d acc)
  end.

(** [drawn_pathway_number]: the [individual] table turned inside out. *)
Definition by_pathway_number (individual : list (string * list (string * bool)))
  : list (string * list (string * bool)) :=
  foldl (fun acc src =>
           foldl (fun acc pd =>
                    match Py.od_get pd.1 acc with
                    | Some inner => Py.od_set pd.1 (Py.od_set src.1 pd.2 inner) acc
                    | None => Py.od_set pd.1 [(src.1, pd.2)] acc
                    end)
                 acc src.2)
        [] individual.

(** [set(d.values()) != set([True, False])] *)
Definition not_mixed (d : list (string * bool)) : bool :=
  negb (existsb id d.*2 && existsb negb d.*2).

(** [_make_grid]: the checks and the grid dimensions; then the file is
    saved. *)
Definition _make_grid (in_paths : list string) (out_path : string) (labels : list string)
    (landscape : bool) : M unit :=
  _ ← lift (if is_nil labels then Py.Ok tt
            else Py.assert (Nat.eqb (length in_paths) (length labels)));
  dims ← lift (Grid.grid_dims in_paths);
  write_file out_path (GridPdf dims.1 dims.2 in_paths labels landscape).

(** "Draw empty maps as needed, for pathways with some but not all maps
    drawn": the inner loop over the sources of one pathway. *)
Fixpoint fill_sources (draw_missing : string → string → M unit) (output_dir : string)
    (pathway_number : string) (drawn_source : list (string * bool))
    (paths_to_remove : list string) : M (list string) :=
  match drawn_source with
  | [] => mret paths_to_remove
  | (source, drawn_map) :: rest =>
      if (drawn_map : bool) then
        fill_sources draw_missing output_dir pathway_number rest paths_to_remove
      else
        _ ← draw_missing source pathway_number;
        fill_sources draw_missing output_dir pathway_number rest
          (paths_to_remove
             ++ [path_join (path_join output_dir source) (pdf_name "kos" pathway_number)])
  end.

(** The outer loop over [drawn_pathway_number.items()]. *)
Fixpoint fill_in (draw_missing : string → string → M unit) (output_dir : string)
    (drawn_pathway_number : list (string * list (string * bool)))
    (paths_to_remove : list string) : M (list string) :=
  match drawn_pathway_number with
  | [] => mret paths_to_remove
  | (pathway_number, drawn_source) :: rest =>
      if not_mixed drawn_source then fill_in draw_missing output_dir rest paths_to_remove
      else
        paths ← fill_sources draw_missing output_dir pathway_number drawn_source
                  paths_to_remove;
        fill_in draw_missing output_dir rest paths
  end.

(** The [for ... else] over the grid's sources: [None] is the [break]. *)
Fixpoint gather_grid_inputs (output_dir pathway_number : string) (names : list string)
    (in_paths labels : list string) : M (option (list string * list string)) :=
  match names with
  | [] => mret (Some (in_paths, labels))
  | name :: rest =>
      let individual_map_path :=
        path_join (path_join output_dir name) (pdf_name "kos" pathway_number) in
      found ← path_exists individual_map_path;
      if (found : bool) then
        gather_grid_inputs output_dir pathway_number rest
          (in_paths ++ [individual_map_path]) (labels ++ [name])
      else mret None
  end.

(** The orientation read from the first page of a drawn map. *)
Definition read_landscape (env : Env) (path : string) : M bool :=
  fun fs => (match fs !! path with
             | Some f => Py.Ok (page_landscape env f)
             | None => Py.Raise Py.FilesNPathsError
             end, fs).

(** "Draw map grids." *)
Fixpoint draw_grids (env : Env) (output_dir grid_dir first_label : string)
    (grid_names pathway_numbers : list string) (grid : list (string * bool))
  : M (list (string * bool)) :=
  match pathway_numbers with
  | [] => mret grid
  | pathway_number :: rest =>
      let unified_map_path := out_path_of output_dir pathway_number in
      found ← path_exists unified_map_path;
      if negb found then
        draw_grids env output_dir grid_dir first_label grid_names rest grid
      else
        landscape ← read_landscape env unified_map_path;
        inputs ← gather_grid_inputs output_dir pathway_number grid_names
                   [unified_map_path] [first_label];
        match inputs with
        | None => draw_grids env output_dir grid_dir first_label grid_names rest grid
        | Some (in_paths, labels) =>
            _ ← _make_grid in_paths (path_join grid_dir (pdf_name "kos" pathway_number))
                  labels landscape;
            draw_grids env output_dir grid_dir first_label grid_names rest
              (Py.od_set pathway_number true grid)
        end
  end.

Fixpoint remove_all (paths : list string) : M unit :=
  match paths with
  | [] => mret tt
  | path :: rest => _ ← os_remove path; remove_all rest
  end.

(** "Remove individual ... maps that were only needed for map grids." *)
Fixpoint remove_sources (output_dir : string) (names : list string)
    (individual : list (string * list (string * bool)))
  : M (list (string * list (string * bool))) :=
  match names with
  | [] => mret individual
  | name :: rest =>
      _ ← rmtree (path_join output_dir name);
      remove_sources output_dir rest
        (List.filter (fun kv => negb (bool_decide (kv.1 = name))) individual)
  end.

(** "Determine the individual ... maps to draw", "Determine the map grids
    to draw" and "Draw individual ... maps needed as final outputs or for
    grids": the names chosen for files, for grids and for drawing, and the
    [individual] table. *)
Definition individual_phase (all_names : list string)
    (draw_one : string → M (list (string * bool)))
    (draw_files draw_grid : names_or_bool)
  : M (list string * list string * list string * list (string * list (string * bool))) :=
  files_names ← lift (select_names draw_files all_names);
  grid_names ← lift (select_names draw_grid all_names);
  let draw_names := Py.unique (files_names ++ grid_names) in
  individual ← draw_individual draw_one draw_names [];
  mret (files_names, grid_names, draw_names, individual).

(** From "Drawing map grid" to the final [return drawn]. *)
Definition grid_phase (env : Env) (draw_missing : string → string → M unit)
    (output_dir first_label : string) (pathway_numbers : list string)
    (files_names grid_names draw_names : list string) (draw_maps_lacking_kos : bool)
    (unified : list (string * bool))
    (individual : list (string * list (string * bool))) : M (option Drawn) :=
  paths_to_remove ←
    (if draw_maps_lacking_kos then mret []
     else fill_in draw_missing output_dir (by_pathway_number individual) []);
  let grid_dir := path_join output_dir "grid" in
  _ ← gen_output_directory grid_dir;
  grid ← draw_grids env output_dir grid_dir first_label grid_names pathway_numbers [];
  _ ← remove_all paths_to_remove;
  individual ←
    remove_sources output_dir
      (List.filter (fun name => negb (bool_decide (name ∈ files_names))) draw_names)
      individual;
  mret (Some {| unified := unified; individual := individual; grid := grid |}).

(** Everything after the unified maps, shared by both methods up to the way
    an individual map and a missing map are drawn.  [None] is the bare
    [return] of the two early exits. *)
Definition draw_rest (env : Env) (all_names : list string)
    (draw_one : string → M (list (string * bool)))
    (draw_missing : string → string → M unit)
    (output_dir first_label : string) (pathway_numbers : list string)
    (draw_files draw_grid : names_or_bool) (draw_maps_lacking_kos : bool)
    (unified : list (string * bool)) : M (option Drawn) :=
  if is_False draw_files && is_False draw_grid then mret None
  else
    ind ← individual_phase all_names draw_one draw_files draw_grid;
    if is_False draw_grid then mret None
    else
      grid_phase env draw_missing output_dir first_label pathway_numbers
        ind.1.1.1 ind.1.1.2 ind.1.2 draw_maps_lacking_kos unified ind.2.

(** [map_contigs_databases_kos] up to the end of the unified maps: the
    project names, the pathway numbers found and the [unified] table. *)
Definition unified_phase_dbs (env : Env) (contigs_dbs : list string)
    (output_dir : string) (pathway_numbers : option (list string))
    (colormap : colormap_arg) (colormap_limits : option (Q * Q))
    (colormap_scheme : option string) (reverse_overlay : bool) (color_hexcode : string)
    (colorbar draw_maps_lacking_kos : bool)
  : M (list (string * string) * list string * list (string * bool)) :=
  sch ← lift (set_scheme colormap colormap_scheme (length contigs_dbs));
  cl ← lift (set_colormap env colormap sch colormap_limits);
  cmap ← lift (trim_colormap env cl.1 cl.2);
  project_names ← lift (load_project_names env contigs_dbs []);
  let ko_dbs := find_ko_dbs env project_names in
  pathway_numbers ← _find_maps env output_dir "kos" pathway_numbers;
  _ ← gen_output_directory output_dir;
  unified ← draw_unified_dbs env sch cmap (length contigs_dbs) project_names ko_dbs
              output_dir pathway_numbers reverse_overlay color_hexcode colorbar
              draw_maps_lacking_kos;
  mret (project_names, pathway_numbers, unified).

(** How [map_contigs_databases_kos] draws the maps of one database. *)
Definition draw_one_db (env : Env) (project_names : list (string * string))
    (output_dir : string) (pathway_numbers : list string) (color_hexcode : string)
    (draw_maps_lacking_kos : bool) (project_name : string) : M (list (string * bool)) :=
  contigs_db ← lift (Py.od_lookup project_name project_names);
  map_contigs_database_kos env contigs_db (path_join output_dir project_name)
    (Some pathway_numbers) color_hexcode draw_maps_lacking_kos.

(** How it draws an empty map missing from a grid. *)
Definition draw_missing_db (env : Env) (project_names : list (string * string))
    (output_dir color_hexcode : string) (project_name pathway_number : string) : M unit :=
  contigs_db ← lift (Py.od_lookup project_name project_names);
  _ ← map_contigs_database_kos env contigs_db (path_join output_dir project_name)
        (Some [pathway_number]) color_hexcode true;
  mret tt.

(** [map_contigs_databases_kos] *)
Definition map_contigs_databases_kos (env : Env) (contigs_dbs : list string)
    (output_dir : string) (pathway_numbers : option (list string))
    (draw_contigs_db_files draw_grid : names_or_bool) (colormap : colormap_arg)
    (colormap_limits : option (Q * Q)) (colormap_scheme : option string)
    (reverse_overlay : bool) (color_hexcode : string)
    (colorbar draw_maps_lacking_kos : bool) : M (option Drawn) :=
  u ← unified_phase_dbs env contigs_dbs output_dir pathway_numbers colormap
        colormap_limits colormap_scheme reverse_overlay color_hexcode colorbar
        draw_maps_lacking_kos;
  draw_rest env (Py.od_keys u.1.1)
    (draw_one_db env u.1.1 output_dir u.1.2 color_hexcode draw_maps_lacking_kos)
    (draw_missing_db env u.1.1 output_dir color_hexcode)
    output_dir "all" u.1.2 draw_contigs_db_files draw_grid draw_maps_lacking_kos u.2.

(** The [colormap] argument of [map_pan_database_kos]. *)
Inductive pan_colormap_arg : Type :=
| PanCmapNone
| PanCmapName (cmap_name : string)
| PanCmapObject (cmap : Colormap).

(** "For each consensus KO ... find which genomes contribute genes to
    clusters represented by the KO." *)
Definition find_ko_genomes (env : Env) (pan_db genomes_storage_db : string)
    (consensus : list (string * string)) : gmap string (list string) :=
  remove_dups <$>
    foldl (fun ko_genomes ck =>
             foldl (fun ko_genomes gg =>
                      if is_nil gg.2 then ko_genomes
                      else append_at ck.2 gg.1 ko_genomes)
                   ko_genomes (pan_gene_clusters env pan_db genomes_storage_db ck.1))
          ∅ consensus.

(** "Draw pangenomic maps with dynamic coloring by number of genomes." *)
Definition draw_unified_pan_dynamic (env : Env) (pan_db genomes_storage_db : string)
    (cmap : Colormap) (colormap_limits : option (Q * Q))
    (genome_names : list string) (consensus : list (string * string))
    (output_dir : string) (pathway_numbers : list string) (reverse_overlay : bool)
    (colorbar draw_maps_lacking_kos : bool) : M (list (string * bool)) :=
  cmap ← lift (trim_colormap env (Some cmap) colormap_limits);
  match cmap with
  | None => raise Py.TypeError
  | Some cmap =>
      let ko_genomes := find_ko_genomes env pan_db genomes_storage_db consensus in
      let color_priority := by_count_priority cmap reverse_overlay (length genome_names) in
      _ ← (if colorbar then
             _draw_colorbar env (Py.od_keys color_priority)
               (path_join output_dir "colorbar.pdf")
               (pretty <$> seq 1 (length genome_names))
           else mret tt);
      draw_loop (fun pathway_number =>
                   _draw_map_kos_membership env pathway_number ko_genomes color_priority
                     output_dir cmap None draw_maps_lacking_kos)
                pathway_numbers []
  end.

(** The unified maps of [map_pan_database_kos]. *)
Definition draw_unified_pan (env : Env) (pan_db genomes_storage_db : string)
    (colormap : pan_colormap_arg) (colormap_limits : option (Q * Q))
    (genome_names : list string) (consensus : list (string * string))
    (output_dir : string) (pathway_numbers : list string) (reverse_overlay : bool)
    (color_hexcode : string) (colorbar draw_maps_lacking_kos : bool)
  : M (list (string * bool)) :=
  match colormap with
  | PanCmapNone =>
      draw_loop (draw_fixed env (remove_dups consensus.*2) color_hexcode output_dir
                   draw_maps_lacking_kos) pathway_numbers []
  | PanCmapName cmap_name =>
      draw_unified_pan_dynamic env pan_db genomes_storage_db (get_cmap env cmap_name)
        (Some (default ((1 # 10)%Q, (9 # 10)%Q) colormap_limits))
        genome_names consensus output_dir pathway_numbers reverse_overlay colorbar
        draw_maps_lacking_kos
  | PanCmapObject cmap =>
      draw_unified_pan_dynamic env pan_db genomes_storage_db cmap colormap_limits
        genome_names consensus output_dir pathway_numbers reverse_overlay colorbar
        draw_maps_lacking_kos
  end.

(** [map_pan_database_kos] up to the end of the unified maps: the pathway
    numbers found and the [unified] table. *)
Definition unified_phase_pan (env : Env) (pan_db genomes_storage_db output_dir : string)
    (pathway_numbers : option (list string)) (colormap : pan_colormap_arg)
    (colormap_limits : option (Q * Q)) (reverse_overlay : bool) (color_hexcode : string)
    (colorbar draw_maps_lacking_kos : bool) : M (list string * list (string * bool)) :=
  _ ← lift (match colormap with
            | PanCmapName cmap_name => Py.assert (known_cmap env cmap_name)
            | _ => Py.Ok tt
            end);
  let consensus := pan_consensus env pan_db genomes_storage_db in
  pathway_numbers ← _find_maps env output_dir "kos" pathway_numbers;
  _ ← gen_output_directory output_dir;
  let genome_names := pan_genome_names env pan_db in
  unified ← draw_unified_pan env pan_db genomes_storage_db colormap colormap_limits
              genome_names consensus output_dir pathway_numbers reverse_overlay
              color_hexcode colorbar draw_maps_lacking_kos;
  mret (pathway_numbers, unified).

(** How [map_pan_database_kos] draws the maps of one genome. *)
Definition draw_one_genome (env : Env) (genomes_storage_db output_dir : string)
    (pathway_numbers : list string) (color_hexcode : string)
    (draw_maps_lacking_kos : bool) (genome_name : string) : M (list (string * bool)) :=
  map_genomes_storage_genome_kos env genomes_storage_db genome_name
    (path_join output_dir genome_name) (Some pathway_numbers) color_hexcode
    draw_maps_lacking_kos.

(** How it asks for an empty map missing from a grid:
    [self.map_contigs_database_kos(genome_names[genome_name], ...)], where
    [genome_names] is a list and [genome_name] one of its strings. *)
Definition draw_missing_genome (env : Env) (genome_names : list string)
    (output_dir color_hexcode : string) (genome_name pathway_number : string) : M unit :=
  contigs_db ← lift (Py.list_subscript genome_names (Py.SubStr genome_name));
  _ ← map_contigs_database_kos env contigs_db (path_join output_dir genome_name)
        (Some [pathway_number]) color_hexcode true;
  mret tt.

(** [map_pan_database_kos] *)
Definition map_pan_database_kos (env : Env) (pan_db genomes_storage_db output_dir : string)
    (pathway_numbers : option (list string))
    (draw_genome_files draw_grid : names_or_bool) (colormap : pan_colormap_arg)
    (colormap_limits : option (Q * Q)) (reverse_overlay : bool) (color_hexcode : string)
    (colorbar draw_maps_lacking_kos : bool) : M (option Drawn) :=
  u ← unified_phase_pan env pan_db genomes_storage_db output_dir pathway_numbers colormap
        colormap_limits reverse_overlay color_hexcode colorbar draw_maps_lacking_kos;
  draw_rest env (pan_genome_names env pan_db)
    (draw_one_genome env genomes_storage_db output_dir u.1 color_hexcode
       draw_maps_lacking_kos)
    (draw_missing_genome env (pan_genome_names env pan_db) output_dir color_hexcode)
    output_dir "pangenome" u.1 draw_genome_files draw_grid draw_maps_lacking_kos u.2.

End Mapper.

(** ** The sanity check of [anvio/inversions.py] *)
Module Inversions.

(** The collaborators of [Inversions.sanity_check]: [os.path.abspath], the
    two checks of [anvio.utils] (which raise or return), the [variant] of a
    database as [dbi.DBInfo] reports it, and [terminal.pluralize]. *)
Record Env : Type := mkEnv {
  abspath : string → string;
  is_contigs_db : string → Py.result unit;
  is_profile_db_and_contigs_db_compatible : string → string → Py.result unit;
  variant : string → option string;
  pluralize : string → nat → string;
  pluralize_alt : string → nat → string → string;
}.

Definition redundant_msg : string :=
  "We don't like redundant profile databases. Every database should appear only once in the list of databases to be processed. RULES, yo.".

(** The three ways the [summary] of the variant error is worded. *)
Definition summary (env : Env) (n_bad n_all : nat) : string :=
  if Nat.eqb n_bad n_all then
    if Nat.eqb n_bad 1 then
      "The only profile database you have here is also the one with the wrong variant :( CONGRATULATIONS."
    else
      "But none of the " +:+ pluralize env "database" n_all +:+
      " here have the right variant :("
  else
    "Of the total of " +:+ pluralize env "database" n_all +:+ " you are working with, " +:+
    pretty n_bad +:+ " " +:+ pluralize_alt env "does not" n_bad "do not" +:+
    " have the right variant :/".

Definition variant_msg (env : Env) (n_bad n_all : nat) : string :=
  "To report inversions, you must provide this program with one or more profile databases that are of variant 'inversions'. "
  +:+ summary env n_bad n_all +:+
  " PRO TIP: a given profile database is of variant type 'inversions' only if it was generated by `anvi-profile` with the additional flag `--fetch-filter inversions`. PLUS, you can always use the program `anvi-db-info` to learn about the variant of any anvi'o database. BYE NOW.".

(** [dbi.DBInfo(p).variant != 'inversions'] *)
Definition wrong_variant (env : Env) (p : string) : bool :=
  negb (bool_decide (variant env p = Some "inversions")).

(** [Inversions.sanity_check] *)
Definition sanity_check (env : Env) (contigs_db_path : string)
    (profile_db_paths : list string) : Py.result unit :=
  _ ← is_contigs_db env contigs_db_path;
  _ ← (if negb (Nat.eqb (length (remove_dups (abspath env <$> profile_db_paths)))
                        (length profile_db_paths))
       then Py.Raise (Py.ConfigError redundant_msg)
       else Py.Ok tt);
  _ ← mapM (fun p => is_profile_db_and_contigs_db_compatible env p contigs_db_path)
        profile_db_paths;
  let bad_profile_dbs := List.filter (wrong_variant env) profile_db_paths in
  if negb (Nat.eqb (length bad_profile_dbs) 0) then
    Py.Raise (Py.ConfigError
                (variant_msg env (length bad_profile_dbs) (length profile_db_paths)))
  else Py.Ok tt.

End Inversions.

(** ** Notions used to state the properties

    The items the two schemes write into [color_priority], the priority an
    entry ends up with when colouring by count, the pathway numbers
    [_find_maps] selects, and the reading and writing of the table
    [drawn_pathway_number]. *)
Module Derived.
Import Mapper.

(** The items written into [color_priority] by the scheme [by_database]. *)
Definition by_database_items (cmap : Colormap) (reverse_overlay : bool) (k : nat)
  : list (string * Q) :=
  (fun sample_point =>
     (cmap_int cmap sample_point,
      if reverse_overlay
      then (1 - inject_Z (Z.of_nat sample_point) / inject_Z (Z.of_nat (cmap_N cmap)))%Q
      else ((inject_Z (Z.of_nat sample_point) + 1) / inject_Z (Z.of_nat (cmap_N cmap)))%Q))
    <$> seq 0 k.



(** The [i]-th of [n] evenly spaced points of [0, 1]. *)
Definition point (n i : nat) : Q := (inject_Z (Z.of_nat i) / inject_Z (Z.of_nat n - 1))%Q.

(** The pathway numbers [_find_maps] selects. *)
Definition selected_numbers (env : Env) (patterns : option (list string)) : list string :=
  match patterns with
  | None => available_pathway_numbers env
  | Some patterns => _get_pathway_numbers_from_patterns env patterns
  end.

(** [drawn_pathway_number[pathway_number][source]], if there. *)
Definition table_get (table : list (string * list (string * bool)))
    (pathway_number source : string) : option bool :=
  Py.od_get pathway_number table ≫= Py.od_get source.

(** One assignment [drawn_pathway_number[pathway_number][source] = drawn_map]
    (with the [KeyError] branch making the inner dictionary). *)
Definition table_set (source : string) (table : list (string * list (string * bool)))
    (pd : string * bool) : list (string * list (string * bool)) :=
  match Py.od_get pd.1 table with
  | Some inner => Py.od_set pd.1 (Py.od_set source pd.2 inner) table
  | None => Py.od_set pd.1 [(source, pd.2)] table
  end.

End Derived.

(** ** A small KEGG data directory, two contigs databases and a pangenome *)
Module Example.
Import Kgml Mapper.

(** The qualitative colormap [tab10]. *)
Definition tab10_colors : list string :=
  ["#1f77b4"; "#ff7f0e"; "#2ca02c"; "#d62728"; "#9467bd";
   "#8c564b"; "#e377c2"; "#7f7f7f"; "#bcbd22"; "#17becf"].

Definition tab10 : Colormap :=
  {| cmap_name := "tab10";
     cmap_N := 10;
     cmap_int := fun i => default "#17becf" (tab10_colors !! i);
     cmap_float := fun x =>
       default "#17becf" (tab10_colors !! Z.to_nat (Qfloor (x * 10))) |}.

(** A sequential colormap with five colours of [plasma_r], sampled like a
    matplotlib colormap: [cmap(x)] is the colour of index [int(x * N)],
    capped at the last one. *)
Definition plasma_r5_colors : list string :=
  ["#f0f921"; "#f89540"; "#cc4778"; "#7e03a8"; "#0d0887"].

Definition plasma_r5 : Colormap :=
  {| cmap_name := "plasma_r";
     cmap_N := 5;
     cmap_int := fun i => default "#0d0887" (plasma_r5_colors !! i);
     cmap_float := fun x =>
       default "#0d0887" (plasma_r5_colors !! Z.to_nat (Qfloor (x * 5))) |}.

Definition box (fg bg : string) : Graphics :=
  {| fgcolor := fg; bgcolor := bg; width := 1 |}.

(** Map [00010], a standard map: one box for [K00001], one for [K00002] and
    [K00003], and a compound. *)
Definition map_00010 : Pathway :=
  {| entries :=
       [ {| uuid := "e1"; type := "ortholog"; name := [["ko"; "K00001"]];
            children_graphics := ["g1"] |};
         {| uuid := "e2"; type := "ortholog";
            name := [["ko"; "K00002"]; ["ko"; "K00003"]];
            children_graphics := ["g2"] |};
         {| uuid := "e3"; type := "compound"; name := [["cpd"; "C00022"]];
            children_graphics := ["g3"] |} ];
     uuid_element_lookup :=
       {[ "g1" := box "#000000" "#BFBFFF"; "g2" := box "#000000" "#BFBFFF";
          "g3" := box "#000000" "#FFFFFF" ]};
     is_global_map := false;
     is_overview_map := false |}.

(** Map [00020], a standard map with a single box, for [K00009]. *)
Definition map_00020 : Pathway :=
  {| entries :=
       [ {| uuid := "e1"; type := "ortholog"; name := [["ko"; "K00009"]];
            children_graphics := ["g1"] |} ];
     uuid_element_lookup := {[ "g1" := box "#000000" "#BFBFFF" ]};
     is_global_map := false;
     is_overview_map := false |}.

(** The databases [A.db] (project [A], with [K00001]) and [B.db] (project
    [B], with [K00009]); the pangenome of the genomes [G1] (with [K00001])
    and [G2] (with [K00009]). *)
Definition env : Env :=
  {| available_pathway_numbers := ["00010"; "00020"];
     overwrite_output := false;
     re_match := fun pattern s => bool_decide (pattern = s);
     get_pathway := fun n => if bool_decide (n = "00010") then map_00010 else map_00020;
     set_color_priority := fun _ _ _ _ pathway => pathway;
     get_cmap := fun cmap_name =>
       if bool_decide (cmap_name = "tab10") then tab10
       else plasma_r5;
     truncate_cmap := fun cmap _ _ => cmap;
     project_name_of := fun db => if bool_decide (db = "A.db") then "A" else "B";
     has_kofam := fun _ => true;
     contigs_db_kos := fun db => if bool_decide (db = "A.db") then ["K00001"] else ["K00009"];
     genome_kos := fun _ genome =>
       if bool_decide (genome = "G1") then ["K00001"] else ["K00009"];
     known_cmap := fun _ => true;
     pan_genome_names := fun _ => ["G1"; "G2"];
     pan_consensus := fun _ _ => [("GC1", "K00001"); ("GC2", "K00009")];
     pan_gene_clusters := fun _ _ cluster =>
       if bool_decide (cluster = "GC1") then [("G1", [1]); ("G2", [])]
       else [("G1", []); ("G2", [7])];
     page_landscape := fun _ => true |}.

(** Reading the outcome of a run. *)
Definition is_Ok {A} (r : Py.result A) : bool :=
  match r with Py.Ok _ => true | Py.Raise _ => false end.

Definition value {A} (d : A) (r : Py.result A) : A :=
  match r with Py.Ok a => a | Py.Raise _ => d end.

End Example.

(** ** Profile databases for the sanity check *)
Module InversionsExample.
Import Inversions.

(** A concrete run: two profile databases given through different relative
    paths of one file, and a pair with one database of the wrong variant. *)
Definition example_env : Env :=
  {| abspath := fun p => if bool_decide (p = "./a.db") then "/w/a.db"
                         else if bool_decide (p = "a.db") then "/w/a.db"
                         else "/w/" +:+ p;
     is_contigs_db := fun _ => Py.Ok tt;
     is_profile_db_and_contigs_db_compatible := fun _ _ => Py.Ok tt;
     variant := fun p => if bool_decide (p = "b.db") then None else Some "inversions";
     pluralize := fun w n => pretty n +:+ " " +:+ w +:+ "s";
     pluralize_alt := fun w n alt => if Nat.eqb n 1 then w else alt |}.

End InversionsExample.

(** ** Notions used to state the properties of whole runs

    What a single map-drawing call may do to the output directory, the
    sources a table lists for a KO, names given by the caller that are not
    sources, and the priorities and attributes of the original-colour
    method. *)
Module Outcomes.
Import Kgml Mapper.

(** Whether a map-drawing method goes on to draw the map: some entry was
    selected, or maps lacking KOs are drawn too
    ([if not select_entries and not draw_map_lacking_kos: return False]). *)
Definition draws_map (env : Env) (sel : string → bool) (draw_map_lacking_kos : bool)
    (pathway_number : string) : bool :=
  negb (is_nil (get_entries (get_pathway env pathway_number) None (Some sel))
        && negb draw_map_lacking_kos).

(** What one call of a map-drawing method does, starting from the file
    system [fs]: it returns [False] exactly when the map is not to be drawn,
    and then, as when it raises, the file system is as before; when it
    returns [True] the only change is that [out_path] holds the drawn
    pathway object. *)
Definition draw_outcome (out_path : string) (will_draw : bool) (fs : gmap string File)
    (res : Py.result (bool * Pathway) * gmap string File) : Prop :=
  match res with
  | (Py.Ok (b, pathway), fs') =>
      b = will_draw ∧
      if b then fs' = <[out_path := MapPdf pathway]> fs else fs' = fs
  | (Py.Raise _, fs') => fs' = fs ∧ will_draw = true
  end.

(** The invariant of the loop [for pathway_number in pathway_numbers] that
    fills a table [drawn], over outputs [P n] and started on [fs0]: a value
    says whether the map was to be drawn, the output of a map recorded as
    drawn holds a map, and the other outputs are as they were. *)
Definition loop_inv (P : string → string) (wd : string → bool) (fs0 : gmap string File)
    (drawn : list (string * bool)) (fs : gmap string File) : Prop :=
  (∀ n b, Py.od_get n drawn = Some b → b = wd n) ∧
  (∀ n, Py.od_get n drawn = Some true → ∃ p, fs !! P n = Some (MapPdf p)) ∧
  (∀ n, Py.od_get n drawn ≠ Some true → fs !! P n = fs0 !! P n).

(** [path] holds a drawn map. *)
Definition holds_map (fs : gmap string File) (path : string) : Prop :=
  ∃ pathway, fs !! path = Some (MapPdf pathway).

(** The sources listed for a KO in [ko_dbs] or [ko_genomes], none when the
    KO is not a key. *)
Definition sources_of (table : gmap string (list string)) (ko : string) : list string :=
  default [] (table !! ko).

(** A list of names given for [draw_contigs_db_files], [draw_genome_files]
    or [draw_grid] that holds a name which is not one of the sources. *)
Definition names_unknown (arg : names_or_bool) (all_names : list string) : Prop :=
  match arg with
  | ArgBool _ => False
  | ArgNames names => ∃ name, name ∈ names ∧ name ∉ all_names
  end.

(** The priorities [_draw_map_kos_original_color] gives to the colour pairs
    it collected:
    [seen = set(); prioritized_colors = [... if not (colors in seen or seen.add(colors))]]
    [priorities = np.linspace(0, 1, len(prioritized_colors) + 1)[1: ]]
    [ortholog_color_priority = {colors: priority for colors, priority in zip(...)}] *)
Definition original_color_priority (prioritized_colors : list (string * string))
  : list (string * string * Q) :=
  let prioritized_colors := Py.unique prioritized_colors in
  let priorities := drop 1 (linspace01 (length prioritized_colors + 1)) in
  Py.od_update [] (zip prioritized_colors priorities).

(** What [_draw_map_kos_original_color] sets on a Graphics element of a
    selected entry: the secondary colour, the main one being kept. *)
Definition keep_original (global overview : bool) (g : Graphics) : Graphics :=
  if global then set_bgcolor "#FFFFFF" g
  else if overview then set_width 5 (set_bgcolor "#FFFFFF" g)
  else set_fgcolor "#000000" g.

End Outcomes.

(** ** The page layout of [Mapper._make_grid] *)
Module GridLayout.

(** [a / b] on floats: division by zero raises. *)
Definition truediv (a b : Q) : Py.result Q :=
  if Qeq_bool b 0 then Py.Raise Py.ZeroDivisionError else Py.Ok (a / b)%Q.

(** [a > b] *)
Definition gt (a b : Q) : bool := negb (Qle_bool a b).

(** "Find the width and height of each cell":
    [cell_width = (width - (cols + 1) * margin) / cols],
    [cell_height = (height - (rows + 1) * margin) / rows]. *)
Definition cell_size (width height margin : Q) (rows cols : Z) : Py.result (Q * Q) :=
  cell_width ← truediv (width - (inject_Z cols + 1) * margin) (inject_Z cols);
  cell_height ← truediv (height - (inject_Z rows + 1) * margin) (inject_Z rows);
  mret (cell_width, cell_height).

(** "Calculate position in the grid": [row = i // cols], [col = i % cols],
    [x = margin + col * (cell_width + margin)],
    [y = margin + row * (cell_height + margin)]. *)
Definition cell_position (margin cell_width cell_height : Q) (cols i : Z) : Q * Q :=
  let '(row, col) := Grid.cell_of cols i in
  ((margin + inject_Z col * (cell_width + margin))%Q,
   (margin + inject_Z row * (cell_height + margin))%Q).

(** "Resize the input PDF to the cell by the longest dimension, maintaining
    aspect ratio" and "If the resized shorter side still exceeds the cell
    size, resize by the shorter side": [(draw_width, draw_height)]. *)
Definition draw_size (cell_width cell_height input_aspect_ratio : Q) : Py.result (Q * Q) :=
  '(draw_width, draw_height) ←
    (if gt input_aspect_ratio 1 then
       draw_height ← truediv cell_width input_aspect_ratio;
       mret (cell_width, draw_height)
     else Py.Ok ((cell_height * input_aspect_ratio)%Q, cell_height));
  '(draw_width, draw_height) ←
    (if gt draw_width cell_width then
       draw_height ← truediv cell_width input_aspect_ratio;
       mret (cell_width, draw_height)
     else Py.Ok (draw_width, draw_height));
  if gt draw_height cell_height then
    Py.Ok ((cell_height * input_aspect_ratio)%Q, cell_height)
  else Py.Ok (draw_width, draw_height).

(** "Find upper left drawing coordinates" and the rectangle
    [fitz.Rect(draw_x, draw_y, draw_x + draw_width, draw_y + draw_height)]. *)
Definition draw_rect (x y cell_width cell_height draw_width draw_height : Q)
  : Q * Q * Q * Q :=
  let draw_x := (x + (cell_width - draw_width) / 2)%Q in
  let draw_y := (y + (cell_height - draw_height) / 2)%Q in
  (draw_x, draw_y, (draw_x + draw_width)%Q, (draw_y + draw_height)%Q).

End GridLayout.

(** ** The constructor of [Mapper] *)
Module MapperInit.

(** A row of the table [kegg_map_image_kgml_file] as [itertuples] yields
    it: the index label and the numbers of KO, EC and RN KGML files. *)
Record MapRow : Type := mkMapRow {
  Index : string;
  KO : Z;
  EC : Z;
  RN : Z;
}.

(** [s[n:]] for a non-negative [n]. *)
Fixpoint string_drop (n : nat) (s : string) : string :=
  match n, s with
  | O, _ => s
  | S n', String _ s' => string_drop n' s'
  | S _, EmptyString => EmptyString
  end.

(** [s[-5:]]: the last five characters, the whole of a shorter string. *)
Definition last_five (s : string) : string := string_drop (String.length s - 5) s.

(** [for row in ...itertuples():]
    [    if row.KO + row.EC + row.RN == 0: continue]
    [    available_pathway_numbers.append(row.Index[-5:])] *)
Definition read_available_pathway_numbers (rows : list MapRow) : list string :=
  foldl (fun available_pathway_numbers row =>
           if KO row + EC row + RN row =? 0 then available_pathway_numbers
           else available_pathway_numbers ++ [last_five (Index row)])
        [] rows.

(** [Mapper.__init__]: the attributes the embedding reads, set from the rows
    of the table and the argument [overwrite_output]; the collaborators are
    those of [collaborators]. *)
Definition __init__ (collaborators : Mapper.Env) (rows : list MapRow)
    (overwrite_output : bool) : Mapper.Env :=
  {| Mapper.available_pathway_numbers := read_available_pathway_numbers rows;
     Mapper.overwrite_output := overwrite_output;
     Mapper.re_match := Mapper.re_match collaborators;
     Mapper.get_pathway := Mapper.get_pathway collaborators;
     Mapper.set_color_priority := Mapper.set_color_priority collaborators;
     Mapper.get_cmap := Mapper.get_cmap collaborators;
     Mapper.truncate_cmap := Mapper.truncate_cmap collaborators;
     Mapper.project_name_of := Mapper.project_name_of collaborators;
     Mapper.has_kofam := Mapper.has_kofam collaborators;
     Mapper.contigs_db_kos := Mapper.contigs_db_kos collaborators;
     Mapper.genome_kos := Mapper.genome_kos collaborators;
     Mapper.known_cmap := Mapper.known_cmap collaborators;
     Mapper.pan_genome_names := Mapper.pan_genome_names collaborators;
     Mapper.pan_consensus := Mapper.pan_consensus collaborators;
     Mapper.pan_gene_clusters := Mapper.pan_gene_clusters collaborators;
     Mapper.page_landscape := Mapper.page_landscape collaborators |}.

End MapperInit.

(** ** The constructor of [Inversions] *)
Module InversionsInit.

(** The collaborators of [Inversions.__init__] besides those of the sanity
    check: [utils.get_all_item_names_from_the_database] and the table of
    split information of the contigs database as [smart_get] returns it for
    the given split names, reduced to the field ['parent'] the constructor
    reads (opening the database may raise). *)
Record Env : Type := mkEnv {
  checks : Inversions.Env;
  get_all_item_names_from_the_database : string → list string;
  smart_get_splits_info : string → list string → Py.result (gmap string string);
}.

(** The attributes the constructor sets. *)
Record State : Type := mkState {
  contigs_db_path : string;
  profile_db_paths : list string;
  splits_basic_info : gmap string string;
  contig_name_to_split_names : gmap string (list string);
  contig_names : list string;
}.

(** [for split_name in sorted(self.splits_basic_info.keys()):]
    [    contig_name = self.splits_basic_info[split_name]['parent']]
    [    if contig_name not in self.contig_name_to_split_names:]
    [        self.contig_name_to_split_names[contig_name] = []]
    [    self.contig_name_to_split_names[contig_name].append(split_name)] *)
Fixpoint group_splits (splits_basic_info : gmap string string) (split_names : list string)
    (table : gmap string (list string)) : Py.result (gmap string (list string)) :=
  match split_names with
  | [] => Py.Ok table
  | split_name :: rest =>
      match splits_basic_info !! split_name with
      | None => Py.Raise Py.KeyError
      | Some contig_name =>
          let table :=
            if bool_decide (is_Some (table !! contig_name)) then table
            else <[contig_name := []]> table in
          match table !! contig_name with
          | None => Py.Raise Py.KeyError
          | Some splits =>
              group_splits splits_basic_info rest
                (<[contig_name := splits ++ [split_name]]> table)
          end
      end
  end.

(** [dict.keys()] *)
Definition keys {V} (d : gmap string V) : list string := (map_to_list d).*1.

(** [Inversions.__init__], for [args] that carry [contigs_db] and
    [profile_dbs]. *)
Definition __init__ (env : Env) (contigs_db : string) (profile_dbs : list string)
    (skip_sanity_check : bool) : Py.result State :=
  _ ← (if skip_sanity_check then Py.Ok tt
       else Inversions.sanity_check (checks env) contigs_db profile_dbs);
  first ← Py.getitem profile_dbs 0;
  let split_names := get_all_item_names_from_the_database env first in
  splits_basic_info ← smart_get_splits_info env contigs_db split_names;
  table ← group_splits splits_basic_info (StrOrd.sorted (keys splits_basic_info)) ∅;
  mret {| contigs_db_path := contigs_db;
          profile_db_paths := profile_dbs;
          splits_basic_info := splits_basic_info;
          contig_name_to_split_names := table;
          contig_names := StrOrd.sorted (keys table) |}.

(** [Inversions.report] *)
Definition report : Py.result unit := Py.Raise (Py.ConfigError "Nothing to report yet :(").

End InversionsInit.

(** ** Reading the tables of a run, and a contigs database with splits *)
Module ExampleRuns.
Import Kgml Mapper.

(** Whether a run returned the tables of what was drawn. *)
Definition returned_tables (r : Py.result (option Drawn)) : bool :=
  match r with Py.Ok (Some _) => true | _ => false end.

(** The tables a run returned, empty ones if it returned none. *)
Definition tables (r : Py.result (option Drawn)) : Drawn :=
  match r with
  | Py.Ok (Some drawn) => drawn
  | _ => {| unified := []; individual := []; grid := [] |}
  end.

End ExampleRuns.

Module InversionsInitExample.
Import InversionsInit.

(** One profile database of the right variant and a contigs database with
    two splits of contig [c1] and one of contig [c2]. *)
Definition example_env : Env :=
  {| checks := InversionsExample.example_env;
     get_all_item_names_from_the_database := fun _ =>
       ["c1_split_00002"; "c2_split_00001"; "c1_split_00001"];
     smart_get_splits_info := fun _ _ =>
       Py.Ok {[ "c1_split_00002" := "c1"; "c2_split_00001" := "c2";
                "c1_split_00001" := "c1" ]} |}.

Definition state_of (r : Py.result State) : State :=
  match r with
  | Py.Ok st => st
  | Py.Raise _ =>
      {| contigs_db_path := ""; profile_db_paths := []; splits_basic_info := ∅;
         contig_name_to_split_names := ∅; contig_names := [] |}
  end.

End InversionsInitExample.

(** * Properties *)

Lemma result_bind_ok {A B} (a : A) (k : A → Py.result B) : (Py.Ok a ≫= k) = k a.
Proof. reflexivity. Qed.

Lemma result_bind_raise {A B} (e : Py.exn) (k : A → Py.result B) :
  (Py.Raise e ≫= k) = Py.Raise e.
Proof. reflexivity. Qed.

(** ** Ordered dictionaries and list positions *)
Module PyFacts.
Import Py.

Section odict_facts.
Context {K V : Type} `{EqDecision K}.
Implicit Types (d : list (K * V)) (k : K) (v : V).

Lemma od_get_set_eq k v d : od_get k (od_set k v d) = Some v.
Proof.
  induction d as [|[k' v'] d IH]; simpl.
  - by rewrite decide_True.
  - destruct (decide (k = k')) as [->|Hne]; simpl.
    + by rewrite decide_True.
    + by rewrite decide_False.
Qed.

Lemma od_get_set_ne k k' v d : k ≠ k' → od_get k' (od_set k v d) = od_get k' d.
Proof.
  intros Hne. induction d as [|[k0 v0] d IH]; simpl.
  - by rewrite decide_False.
  - destruct (decide (k = k0)) as [->|Hne0]; simpl.
    + by rewrite !decide_False.
    + destruct (decide (k' = k0)); done.
Qed.

Lemma od_keys_set_new k v d : k ∉ od_keys d → od_set k v d = d ++ [(k, v)].
Proof.
  unfold od_keys. induction d as [|[k' v'] d IH]; simpl; [done|].
  intros Hnotin. apply not_elem_of_cons in Hnotin as [Hne Hnotin].
  rewrite decide_False by done. by rewrite IH.
Qed.

Lemma od_update_fresh d items :
  NoDup (od_keys d ++ items.*1) → od_update d items = d ++ items.
Proof.
  unfold od_update, od_keys. revert d.
  induction items as [|[k v] items IH]; intros d Hnd; simpl.
  - by rewrite app_nil_r.
  - rewrite od_keys_set_new.
    + rewrite IH; [by rewrite <- app_assoc|].
      rewrite fmap_app; simpl. by rewrite <- app_assoc.
    + simpl in Hnd. apply NoDup_app in Hnd as (_ & Hdisj & _).
      intros Hin. apply (Hdisj k Hin). left.
Qed.

Lemma od_get_lookup d i k v :
  NoDup (od_keys d) → d !! i = Some (k, v) → od_get k d = Some v.
Proof.
  unfold od_keys. revert i. induction d as [|[k' v'] d IH]; intros i Hnd Hi; [done|].
  apply NoDup_cons in Hnd as [Hnotin Hnd]. destruct i as [|i]; simpl in *.
  - injection Hi as -> ->. by rewrite decide_True.
  - destruct (decide (k = k')) as [->|Hne]; [|by eapply IH].
    exfalso. apply Hnotin. apply list_elem_of_fmap. exists (k', v). split; [done|].
    by eapply list_elem_of_lookup_2.
Qed.

End odict_facts.

Lemma index_lookup {A} `{EqDecision A} (x : A) (xs : list A) (i : nat) :
  index x xs = Ok i → xs !! i = Some x.
Proof.
  revert i. induction xs as [|y ys IH]; intros i; simpl; [done|].
  destruct (decide (x = y)) as [->|Hne].
  - by intros [= <-].
  - destruct (index x ys) as [j|e]; [|done]. intros [= <-]. by apply IH.
Qed.

Lemma index_of_lookup {A} `{EqDecision A} (xs : list A) (i : nat) (x : A) :
  NoDup xs → xs !! i = Some x → index x xs = Ok i.
Proof.
  revert i. induction xs as [|y ys IH]; intros i Hnd Hi; [done|].
  apply NoDup_cons in Hnd as [Hnotin Hnd]. destruct i as [|i]; simpl in *.
  - injection Hi as ->. by rewrite decide_True.
  - destruct (decide (x = y)) as [->|Hne].
    + exfalso. apply Hnotin. by eapply list_elem_of_lookup_2.
    + by rewrite (IH i).
Qed.

Lemma index_elem_of {A} `{EqDecision A} (x : A) (xs : list A) :
  x ∈ xs → ∃ i, index x xs = Ok i.
Proof.
  induction xs as [|y ys IH]; intros Hin; [by apply elem_of_nil in Hin|].
  simpl. destruct (decide (x = y)) as [->|Hne]; [by exists O|].
  apply elem_of_cons in Hin as [?|Hin]; [done|].
  destruct (IH Hin) as [i ->]. by exists (S i).
Qed.

End PyFacts.

(** ** The ordering of strings *)
Module StrOrdFacts.
Import StrOrd.

Lemma ascii_compare_refl (a : Ascii.ascii) : Ascii.compare a a = Eq.
Proof. unfold Ascii.compare. apply N.compare_refl. Qed.

Lemma compare_refl (s : string) : String.compare s s = Eq.
Proof. induction s as [|a s IH]; simpl; [done|]. by rewrite ascii_compare_refl. Qed.

Lemma compare_lt_trans (s1 s2 s3 : string) :
  String.compare s1 s2 = Lt → String.compare s2 s3 = Lt → String.compare s1 s3 = Lt.
Proof.
  revert s2 s3. induction s1 as [|a1 s1 IH]; intros [|a2 s2] [|a3 s3]; simpl; try done.
  unfold Ascii.compare.
  destruct (N.compare_spec (Ascii.N_of_ascii a1) (Ascii.N_of_ascii a2)) as [H12|H12|H12];
    destruct (N.compare_spec (Ascii.N_of_ascii a2) (Ascii.N_of_ascii a3)) as [H23|H23|H23];
    try done; intros Hc1 Hc2.
  - rewrite H12, H23, N.compare_refl. by eapply IH.
  - rewrite H12. by apply N.compare_lt_iff in H23 as ->.
  - rewrite <- H23. by apply N.compare_lt_iff in H12 as ->.
  - assert (Hlt : (Ascii.N_of_ascii a1 < Ascii.N_of_ascii a3)%N) by lia.
    by apply N.compare_lt_iff in Hlt as ->.
Qed.

#[global] Instance str_le_total : Total str_le.
Proof.
  intros a b. unfold str_le. destruct (String.leb_total a b) as [->| ->]; [by left|by right].
Qed.

#[global] Instance str_le_antisym : AntiSymm (=) str_le.
Proof.
  intros a b Hab Hba. unfold str_le in *.
  apply String.leb_antisym; by apply Is_true_true.
Qed.

#[global] Instance str_le_trans : Transitive str_le.
Proof.
  intros a b c. unfold str_le, String.leb.
  destruct (String.compare a b) eqn:Hab; [| |done];
    destruct (String.compare b c) eqn:Hbc; try done; intros _ _.
  - apply String.compare_eq_iff in Hab as ->. by rewrite Hbc.
  - apply String.compare_eq_iff in Hab as ->. by rewrite Hbc.
  - apply String.compare_eq_iff in Hbc as <-. by rewrite Hab.
  - by rewrite (compare_lt_trans a b c).
Qed.

(** Sorting only depends on the elements. *)
Lemma sorted_perm (xs ys : list string) : xs ≡ₚ ys → sorted xs = sorted ys.
Proof.
  intros Hp. unfold sorted. apply (Sorted_unique str_le).
  - apply Sorted_merge_sort, _.
  - apply Sorted_merge_sort, _.
  - by rewrite !merge_sort_Permutation.
Qed.

Lemma sorted_set_perm (xs ys : list string) :
  NoDup ys → (∀ x, x ∈ xs ↔ x ∈ ys) → sorted_set xs = sorted ys.
Proof.
  intros Hnd Helem. unfold sorted_set. apply sorted_perm.
  apply NoDup_Permutation; [apply NoDup_remove_dups|done|].
  intros x. by rewrite elem_of_remove_dups.
Qed.

End StrOrdFacts.

(** ** Grid dimensions *)
Module GridProps.
Import Grid.

Lemma ceil_div_pos (a b : Z) : 0 < b -> ceil_div a b = - ((- a) / b).
Proof.
  intros Hb. unfold ceil_div, Qceiling, Qfloor.
  destruct b as [|p|p]; try lia.
  unfold Qdiv, Qinv, inject_Z, Qopp, Qmult; simpl.
  rewrite Z.mul_1_r, Pos.mul_1_l. reflexivity.
Qed.

Lemma ceil_div_spec (a b : Z) :
  0 < b -> (ceil_div a b - 1) * b < a <= ceil_div a b * b.
Proof.
  intros Hb. rewrite ceil_div_pos by assumption.
  pose proof (Z.div_mod (- a) b ltac:(lia)) as Hdm.
  pose proof (Z.mod_pos_bound (- a) b Hb) as Hm.
  nia.
Qed.

Lemma ceil_sqrt_spec (n : Z) :
  0 < n -> (ceil_sqrt n - 1) * (ceil_sqrt n - 1) < n <= ceil_sqrt n * ceil_sqrt n.
Proof.
  intros Hn. unfold ceil_sqrt.
  pose proof (Z.sqrt_up_spec n Hn) as H.
  unfold Z.square in H. rewrite <- Z.sub_1_r in H. exact H.
Qed.

(** [ceil_sqrt n] really is the ceiling of the square root: no smaller
    non-negative integer has a square reaching [n]. *)
Lemma ceil_sqrt_least (n c : Z) :
  0 < n -> 0 <= c -> n <= c * c -> ceil_sqrt n <= c.
Proof.
  intros Hn Hc Hle. pose proof (ceil_sqrt_spec n Hn) as [Hlo _].
  assert (0 < ceil_sqrt n) by (unfold ceil_sqrt; apply Z.sqrt_up_pos; lia).
  nia.
Qed.

(** C7.  For every number [N >= 1] of input single-page documents the grid
    has [cols = ceil(sqrt(N))] columns and [rows = ceil(N / cols)] rows (the
    two ceilings characterised by their bounds), and
    [rows * cols >= N > rows * (cols - 1)]. *)
Theorem grid_dims_cover (in_paths : list string) :
  let n := Z.of_nat (length in_paths) in
  1 <= n →
  ∃ rows cols,
    grid_dims in_paths = Py.Ok (rows, cols) ∧
    cols = ceil_sqrt n ∧ rows = ceil_div n cols ∧
    (cols - 1) * (cols - 1) < n <= cols * cols ∧
    (rows - 1) * cols < n <= rows * cols ∧
    rows * cols >= n ∧ n > rows * (cols - 1).
Proof.
  intros n Hn. exists (ceil_div n (ceil_sqrt n)), (ceil_sqrt n).
  pose proof (ceil_sqrt_spec n ltac:(lia)) as Hc.
  assert (Hcpos : 0 < ceil_sqrt n) by nia.
  pose proof (ceil_div_spec n (ceil_sqrt n) Hcpos) as Hr.
  split_and!; try done; try lia.
  - unfold grid_dims. fold n. destruct (Z.eqb_spec (ceil_sqrt n) 0); [lia|done].
  - set (c := ceil_sqrt n) in *. set (r := ceil_div n c) in *.
    assert (r <= c) by nia.
    destruct (Z.eq_dec r c) as [->|Hne]; nia.
Qed.

Lemma grid_dims_cover_witness :
  let in_paths := ["a.pdf"; "b.pdf"; "c.pdf"; "d.pdf"; "e.pdf"] in
  1 <= Z.of_nat (length in_paths) ∧
  ∃ rows cols,
    grid_dims in_paths = Py.Ok (rows, cols) ∧
    cols = ceil_sqrt 5 ∧ rows = ceil_div 5 cols ∧
    (cols - 1) * (cols - 1) < 5 <= cols * cols ∧
    (rows - 1) * cols < 5 <= rows * cols ∧
    rows * cols >= 5 ∧ 5 > rows * (cols - 1).
Proof.
  split; [simpl; lia|].
  apply (grid_dims_cover ["a.pdf"; "b.pdf"; "c.pdf"; "d.pdf"; "e.pdf"]). simpl. lia.
Defined.

(** Five documents are laid out in three columns and two rows. *)
Example grid_dims_five :
  grid_dims ["a.pdf"; "b.pdf"; "c.pdf"; "d.pdf"; "e.pdf"] = Py.Ok (2, 3).
Proof. reflexivity. Qed.

End GridProps.

(** ** Combinations of sources *)
Module CombosFacts.
Import Combos.

Section combinations_facts.
Context {A : Type}.
Implicit Types (pool names c : list A) (r n : nat).

Lemma combinations_0 pool : combinations pool 0 = [[]].
Proof. by destruct pool. Qed.

Lemma db_combos_flat n names :
  db_combos n names = mjoin (combinations names <$> seq 1 n).
Proof.
  unfold db_combos.
  assert (Hgen : ∀ ks acc,
    foldl (fun acc k => acc ++ combinations names k) acc ks
    = acc ++ mjoin (combinations names <$> ks)).
  { induction ks as [|k ks IH]; intros acc; simpl.
    - by rewrite app_nil_r.
    - by rewrite IH, app_assoc. }
  by rewrite Hgen.
Qed.

Lemma elem_of_combinations pool r c :
  c ∈ combinations pool r ↔ c `sublist_of` pool ∧ length c = r.
Proof.
  revert r c. induction pool as [|x rest IH]; intros r c.
  - destruct r as [|r]; simpl.
    + rewrite list_elem_of_singleton, sublist_nil_r. split.
      * by intros ->.
      * by intros [-> _].
    + rewrite elem_of_nil, sublist_nil_r. split; [done|]. by intros [-> ?].
  - destruct r as [|r]; simpl.
    + rewrite list_elem_of_singleton. split.
      * intros ->. split; [apply sublist_nil_l|done].
      * intros [_ Hlen]. by apply nil_length_inv.
    + rewrite elem_of_app, list_elem_of_fmap, sublist_cons_r. split.
      * intros [(c' & -> & Hc')|Hc].
        -- apply IH in Hc' as [Hsub <-]. split; [|done]. right. by exists c'.
        -- apply IH in Hc as [Hsub Hlen]. split; [by left|done].
      * intros [[Hsub|(c' & -> & Hsub)] Hlen].
        -- right. by apply IH.
        -- left. exists c'. split; [done|]. apply IH. split; [done|].
           simpl in Hlen. lia.
Qed.

Lemma combinations_too_long pool r :
  (length pool < r)%nat → combinations pool r = [].
Proof.
  intros Hlt. destruct (combinations pool r) as [|c cs] eqn:Heq; [done|].
  assert (Hc : c ∈ combinations pool r) by (rewrite Heq; left).
  apply elem_of_combinations in Hc as [Hsub Hlen].
  apply sublist_length in Hsub. lia.
Qed.

(** Membership in the table: exactly the non-empty subsequences. *)
Lemma elem_of_db_combos names c :
  c ∈ db_combos (length names) names ↔ c ≠ [] ∧ c `sublist_of` names.
Proof.
  rewrite db_combos_flat, list_elem_of_join. split.
  - intros (cs & Hc & Hcs). apply list_elem_of_fmap in Hcs as (k & -> & Hk).
    apply elem_of_seq in Hk. apply elem_of_combinations in Hc as [Hsub Hlen].
    split; [|done]. intros ->. simpl in Hlen. lia.
  - intros [Hne Hsub]. exists (combinations names (length c)). split.
    + by apply elem_of_combinations.
    + apply list_elem_of_fmap. exists (length c). split; [done|].
      apply elem_of_seq. apply sublist_length in Hsub.
      destruct c; [done|]. simpl in *. lia.
Qed.

Lemma combinations_NoDup pool r : NoDup pool → NoDup (combinations pool r).
Proof.
  revert r. induction pool as [|x rest IH]; intros r Hnd.
  - destruct r; simpl; [apply NoDup_singleton|apply NoDup_nil_2].
  - apply NoDup_cons in Hnd as [Hx Hnd]. destruct r as [|r]; simpl.
    + apply NoDup_singleton.
    + apply NoDup_app. split_and!.
      * apply NoDup_fmap_2; [|by apply IH]. by intros ?? [= ->].
      * intros c Hc1 Hc2. apply list_elem_of_fmap in Hc1 as (c' & -> & _).
        apply elem_of_combinations in Hc2 as [Hsub _].
        apply Hx. apply (sublist_subseteq _ _ Hsub). left.
      * by apply IH.
Qed.

Lemma db_combos_NoDup names : NoDup names → NoDup (db_combos (length names) names).
Proof.
  intros Hnd. rewrite db_combos_flat.
  assert (Hgen : ∀ ks, NoDup ks → NoDup (mjoin (combinations names <$> ks))).
  { induction ks as [|k ks IH]; intros Hks; simpl; [apply NoDup_nil_2|].
    apply NoDup_cons in Hks as [Hk Hks]. apply NoDup_app. split_and!.
    - by apply combinations_NoDup.
    - intros c Hc1 Hc2. apply list_elem_of_join in Hc2 as (cs & Hc2 & Hcs).
      apply list_elem_of_fmap in Hcs as (k' & -> & Hk').
      apply elem_of_combinations in Hc1 as [_ Hl1].
      apply elem_of_combinations in Hc2 as [_ Hl2]. congruence.
    - by apply IH. }
  apply Hgen, NoDup_seq.
Qed.

Lemma count_below_S pool m :
  count_below pool (S m) = (count_below pool m + length (combinations pool m))%nat.
Proof.
  unfold count_below. rewrite seq_S, fmap_app, join_app, length_app. simpl.
  by rewrite app_nil_r.
Qed.

Lemma count_below_cons (x : A) (rest : list A) m :
  count_below (x :: rest) (S m) = (count_below rest m + count_below rest (S m))%nat.
Proof.
  induction m as [|m IH].
  - unfold count_below; simpl. by rewrite combinations_0.
  - rewrite count_below_S, IH, !(count_below_S rest). simpl.
    rewrite length_app, length_map. lia.
Qed.

Lemma count_below_all pool : count_below pool (S (length pool)) = (2 ^ length pool)%nat.
Proof.
  induction pool as [|x rest IH].
  - by unfold count_below.
  - cbn [length]. rewrite count_below_cons, IH.
    rewrite (count_below_S rest (S (length rest))), IH.
    rewrite combinations_too_long by lia. rewrite Nat.pow_succ_r'. simpl. lia.
Qed.

(** With [n] sources there are [2^n - 1] combinations. *)
Lemma length_db_combos names :
  (length (db_combos (length names) names) + 1 = 2 ^ length names)%nat.
Proof.
  rewrite <- count_below_all, db_combos_flat. unfold count_below.
  rewrite <- cons_seq. rewrite fmap_cons, combinations_0. simpl. lia.
Qed.

Lemma combinations_head pool r c :
  c ∈ combinations pool (S r) → ∃ y c', c = y :: c' ∧ y ∈ pool.
Proof.
  intros [Hsub Hlen]%elem_of_combinations. destruct c as [|y c']; [done|].
  exists y, c'. split; [done|]. apply (sublist_subseteq _ _ Hsub). left.
Qed.

Lemma combinations_sorted (lt : A → A → Prop) pool r :
  StronglySorted lt pool → StronglySorted (lex_lt lt) (combinations pool r).
Proof.
  revert r. induction pool as [|x rest IH]; intros r Hs.
  - destruct r; simpl; repeat constructor.
  - apply StronglySorted_cons in Hs as [Hx Hs]. destruct r as [|r]; simpl.
    + repeat constructor.
    + apply StronglySorted_app_2.
      * intros c1 c2 Hc1 Hc2. apply list_elem_of_fmap in Hc1 as (c1' & -> & _).
        apply combinations_head in Hc2 as (y & c2' & -> & Hy).
        apply lex_head. rewrite Forall_forall in Hx. by apply Hx.
      * apply (StronglySorted_fmap _ (lex_lt lt)); [|by apply IH].
        intros ???. by apply lex_tail.
      * by apply IH.
Qed.

Lemma pos_lt_sorted names : StronglySorted (pos_lt names) names.
Proof.
  assert (Hgen : ∀ suf pre, names = pre ++ suf → StronglySorted (pos_lt names) suf).
  { induction suf as [|x suf IH]; intros pre Heq; [constructor|].
    apply StronglySorted_cons. split.
    - apply Forall_forall. intros y Hy.
      apply list_elem_of_lookup in Hy as [j Hj].
      exists (length pre), (length pre + S j)%nat. subst names. split_and!.
      + by rewrite list_lookup_middle.
      + rewrite lookup_app_r by lia.
        by replace (length pre + S j - length pre)%nat with (S j) by lia.
      + lia.
    - apply (IH (pre ++ [x])). by rewrite <- app_assoc. }
  by apply (Hgen names []).
Qed.

(** The table is ordered by size, then lexicographically by position. *)
Lemma db_combos_sorted names :
  StronglySorted (combo_lt (pos_lt names)) (db_combos (length names) names).
Proof.
  rewrite db_combos_flat. generalize (length names) as n. intros n.
  generalize 1%nat as k. revert n.
  induction n as [|n IH]; intros k; simpl; [constructor|].
  apply StronglySorted_app_2.
  - intros c1 c2 Hc1 Hc2. left.
    apply elem_of_combinations in Hc1 as [_ ->].
    apply list_elem_of_join in Hc2 as (cs & Hc2 & Hcs).
    apply list_elem_of_fmap in Hcs as (k' & -> & Hk'). apply elem_of_seq in Hk'.
    apply elem_of_combinations in Hc2 as [_ ->]. lia.
  - assert (Hlex := combinations_sorted (pos_lt names) names k (pos_lt_sorted names)).
    assert (Hlen : Forall (fun c => length c = k) (combinations names k)).
    { apply Forall_forall. by intros c [_ ?]%elem_of_combinations. }
    induction Hlex as [|c cs Hcs IHcs Hall]; [constructor|].
    apply Forall_cons in Hlen as [Hc Hlen]. constructor; [by apply IHcs|].
    rewrite Forall_forall in Hall, Hlen |- *. intros c' Hc'. right.
    split; [|by apply Hall]. rewrite Hc. symmetry. by apply Hlen.
  - apply IH.
Qed.

End combinations_facts.

End CombosFacts.

(** ** The inversions sanity check *)
Module InversionsProps.
Import Inversions.

Lemma length_remove_dups_le {A} `{EqDecision A} (l : list A) :
  (length (remove_dups l) ≤ length l)%nat.
Proof.
  induction l as [|x l IH]; simpl; [done|].
  destruct (decide_rel elem_of x l); simpl; lia.
Qed.

(** [len(set(xs)) == len(xs)] says that [xs] has no repeated element. *)
Lemma length_remove_dups_NoDup {A} `{EqDecision A} (l : list A) :
  length (remove_dups l) = length l ↔ NoDup l.
Proof.
  induction l as [|x l IH]; simpl.
  - split; [intros _; constructor|done].
  - pose proof (length_remove_dups_le l) as Hle.
    destruct (decide_rel elem_of x l) as [Hin|Hnin]; simpl.
    + split; [lia|]. intros Hnd. apply NoDup_cons in Hnd as [Hx _]. done.
    + rewrite NoDup_cons, <- IH. split.
      * intros Heq. split; [done|lia].
      * intros [_ ->]. done.
Qed.

Lemma mapM_all_ok {A} (f : A → Py.result unit) (l : list A) :
  (∀ x, x ∈ l → f x = Py.Ok tt) → ∃ us, mapM f l = Py.Ok us.
Proof.
  induction l as [|x l IH]; intros Hall; simpl.
  - by eexists.
  - destruct IH as [us Hus].
    + intros y Hy. apply Hall. by right.
    + cbn [mapM]. rewrite (Hall x) by left. rewrite result_bind_ok, Hus, result_bind_ok.
      by eexists.
Qed.

Lemma filter_wrong_nil env (paths : list string) :
  List.filter (wrong_variant env) paths = [] ↔
  ∀ p, p ∈ paths → variant env p = Some "inversions".
Proof.
  induction paths as [|q paths IH]; simpl.
  - split; [intros _ p Hp; by apply elem_of_nil in Hp|done].
  - unfold wrong_variant at 1. destruct (bool_decide_reflect (variant env q = Some "inversions")) as [Hq|Hq]; simpl.
    + rewrite IH. split.
      * intros Hall p [->|Hp]%elem_of_cons; [done|by apply Hall].
      * intros Hall p Hp. apply Hall. by right.
    + split; [done|]. intros Hall. exfalso. apply Hq, Hall. left.
Qed.

(** C8.  When the two checks delegated to [anvio.utils] pass, the sanity
    check raises the configuration error about redundant databases if a
    profile database path occurs twice (compared by absolute path), raises
    the configuration error about variants if the paths are distinct and
    some database is not of variant 'inversions', and raises nothing when
    the paths are distinct and every variant is 'inversions'. *)
Theorem sanity_check_exact (env : Env) (contigs_db_path : string)
    (profile_db_paths : list string) :
  is_contigs_db env contigs_db_path = Py.Ok tt →
  (∀ p, p ∈ profile_db_paths →
        is_profile_db_and_contigs_db_compatible env p contigs_db_path = Py.Ok tt) →
  (¬ NoDup (abspath env <$> profile_db_paths) →
     sanity_check env contigs_db_path profile_db_paths
     = Py.Raise (Py.ConfigError redundant_msg)) ∧
  (NoDup (abspath env <$> profile_db_paths) →
   (∃ p, p ∈ profile_db_paths ∧ variant env p ≠ Some "inversions") →
     ∃ n_bad, (0 < n_bad)%nat ∧
       sanity_check env contigs_db_path profile_db_paths
       = Py.Raise (Py.ConfigError (variant_msg env n_bad (length profile_db_paths)))) ∧
  (NoDup (abspath env <$> profile_db_paths) →
   (∀ p, p ∈ profile_db_paths → variant env p = Some "inversions") →
     sanity_check env contigs_db_path profile_db_paths = Py.Ok tt).
Proof.
  intros Hcontigs Hcompat. unfold sanity_check. rewrite Hcontigs.
  destruct (mapM_all_ok _ _ Hcompat) as [us Hus]. rewrite result_bind_ok.
  pose proof (length_remove_dups_NoDup (abspath env <$> profile_db_paths)) as Hnd.
  rewrite length_fmap in Hnd.
  destruct (Nat.eqb_spec (length (remove_dups (abspath env <$> profile_db_paths)))
              (length profile_db_paths)) as [Heq|Hne]; cbn [negb].
  - rewrite result_bind_ok, Hus, result_bind_ok. split_and!.
    + intros Hdup. exfalso. by apply Hdup, Hnd.
    + intros _ (p & Hp & Hbad).
      exists (length (List.filter (wrong_variant env) profile_db_paths)).
      destruct (List.filter (wrong_variant env) profile_db_paths) as [|b bs] eqn:Hf.
      * exfalso. apply Hbad. by eapply filter_wrong_nil.
      * simpl. split; [lia|done].
    + intros _ Hall. apply filter_wrong_nil in Hall. by rewrite Hall.
  - split_and!; [done| |]; intros Hnodup; exfalso; by apply Hne, Hnd.
Qed.

(** The sanity check fails on every invalid input, whatever the delegated
    checks do. *)
Lemma sanity_check_fails (env : Env) (contigs_db_path : string)
    (profile_db_paths : list string) :
  ¬ NoDup (abspath env <$> profile_db_paths) ∨
  (∃ p, p ∈ profile_db_paths ∧ variant env p ≠ Some "inversions") →
  Py.is_raise (sanity_check env contigs_db_path profile_db_paths).
Proof.
  intros Hbad. unfold sanity_check.
  destruct (is_contigs_db env contigs_db_path) as [[]|e]; [|done].
  rewrite result_bind_ok.
  pose proof (length_remove_dups_NoDup (abspath env <$> profile_db_paths)) as Hnd.
  rewrite length_fmap in Hnd.
  destruct (Nat.eqb_spec (length (remove_dups (abspath env <$> profile_db_paths)))
              (length profile_db_paths)) as [Heq|Hne]; cbn [negb]; [|done].
  rewrite result_bind_ok.
  destruct (mapM _ profile_db_paths) as [us|e]; [rewrite result_bind_ok|done].
  destruct Hbad as [Hdup|(p & Hp & Hbad)]; [exfalso; by apply Hdup, Hnd|].
  destruct (List.filter (wrong_variant env) profile_db_paths) as [|b bs] eqn:Hf; [|done].
  exfalso. apply Hbad. by eapply filter_wrong_nil.
Qed.

(** On a valid input the sanity check raises no error of its own: its
    outcome is that of the two delegated checks. *)
Lemma sanity_check_valid (env : Env) (contigs_db_path : string)
    (profile_db_paths : list string) :
  NoDup (abspath env <$> profile_db_paths) →
  (∀ p, p ∈ profile_db_paths → variant env p = Some "inversions") →
  sanity_check env contigs_db_path profile_db_paths
  = (_ ← is_contigs_db env contigs_db_path;
     _ ← mapM (fun p => is_profile_db_and_contigs_db_compatible env p contigs_db_path)
           profile_db_paths;
     mret tt).
Proof.
  intros Hnodup Hall. unfold sanity_check.
  destruct (is_contigs_db env contigs_db_path) as [[]|e]; [|done].
  rewrite !result_bind_ok.
  pose proof (length_remove_dups_NoDup (abspath env <$> profile_db_paths)) as Hnd.
  rewrite length_fmap in Hnd. apply Hnd in Hnodup.
  apply Nat.eqb_eq in Hnodup. rewrite Hnodup. cbn [negb]. rewrite result_bind_ok.
  destruct (mapM _ profile_db_paths) as [us|e]; [rewrite !result_bind_ok|done].
  apply filter_wrong_nil in Hall. by rewrite Hall.
Qed.

Lemma sanity_check_exact_witness :
  (sanity_check InversionsExample.example_env "contigs.db" ["a.db"; "./a.db"]
   = Py.Raise (Py.ConfigError redundant_msg)) ∧
  (∃ n_bad, (0 < n_bad)%nat ∧
     sanity_check InversionsExample.example_env "contigs.db" ["a.db"; "b.db"]
     = Py.Raise (Py.ConfigError (variant_msg InversionsExample.example_env n_bad 2))) ∧
  sanity_check InversionsExample.example_env "contigs.db" ["a.db"; "c.db"] = Py.Ok tt.
Proof.
  split_and!.
  - apply (sanity_check_exact InversionsExample.example_env "contigs.db" ["a.db"; "./a.db"]); [done|done|].
    vm_compute. intros Hnd. apply NoDup_cons in Hnd as [Hx _]. apply Hx. left.
  - apply (sanity_check_exact InversionsExample.example_env "contigs.db" ["a.db"; "b.db"]); [done|done| |].
    + apply (bool_decide_unpack _). by vm_compute.
    + exists "b.db". split; [set_solver|done].
  - apply (sanity_check_exact InversionsExample.example_env "contigs.db" ["a.db"; "c.db"]); [done|done| |].
    + apply (bool_decide_unpack _). by vm_compute.
    + intros p Hp. repeat (apply elem_of_cons in Hp as [->|Hp]; [done|]).
      by apply elem_of_nil in Hp.
Defined.

End InversionsProps.

(** ** Colour tables *)
Module ColorProps.
Import Combos CombosFacts Mapper Derived.

Lemma od_keys_set_old {K V} `{EqDecision K} (k : K) (v : V) (d : list (K * V)) :
  k ∈ Py.od_keys d → Py.od_keys (Py.od_set k v d) = Py.od_keys d.
Proof.
  unfold Py.od_keys. induction d as [|[k' v'] d IH]; simpl.
  - by intros ?%elem_of_nil.
  - intros Hin. destruct (decide (k = k')) as [->|Hne]; simpl; [done|].
    apply elem_of_cons in Hin as [?|Hin]; [done|]. f_equal. by apply IH.
Qed.

(** The keys of a dictionary never repeat. *)
Lemma od_update_keys_NoDup {K V} `{EqDecision K} (d items : list (K * V)) :
  NoDup (Py.od_keys d) → NoDup (Py.od_keys (Py.od_update d items)).
Proof.
  unfold Py.od_update. revert d. induction items as [|[k v] items IH]; intros d Hd; [done|].
  simpl. apply IH. destruct (decide (k ∈ Py.od_keys d)) as [Hin|Hnin].
  - by rewrite od_keys_set_old.
  - rewrite PyFacts.od_keys_set_new by done. unfold Py.od_keys in *.
    rewrite fmap_app. simpl. apply NoDup_app. split_and!; [done| |apply NoDup_singleton].
    intros x Hx ->%list_elem_of_singleton. done.
Qed.

(** Two subsequences of a list without repeats that hold the same elements
    are the same tuple: a set of sources has one combination. *)
Lemma sublist_perm_eq {A} (l l1 l2 : list A) :
  NoDup l → l1 `sublist_of` l → l2 `sublist_of` l → l1 ≡ₚ l2 → l1 = l2.
Proof.
  intros Hnd. revert l1 l2. induction Hnd as [|x l Hx Hnd IH]; intros l1 l2 H1 H2 Hp.
  - apply sublist_nil_r in H1, H2. by subst.
  - apply sublist_cons_r in H1 as [H1|(l1' & -> & H1)];
      apply sublist_cons_r in H2 as [H2|(l2' & -> & H2)].
    + by apply IH.
    + exfalso. apply Hx. apply (sublist_subseteq _ _ H1). rewrite Hp. left.
    + exfalso. apply Hx. apply (sublist_subseteq _ _ H2). rewrite <- Hp. left.
    + f_equal. apply IH; [done|done|]. by apply (Permutation_cons_inv Hp).
Qed.

Section by_database.
Context (names : list string) (Hnames : NoDup names).

Let combos := db_combos (length names) names.

Lemma combos_sublist c : c ∈ combos → c `sublist_of` names.
Proof. by intros [_ ?]%elem_of_db_combos. Qed.

Lemma sorted_combos_NoDup : NoDup (StrOrd.sorted <$> combos).
Proof.
  apply NoDup_fmap_2_strong; [|by apply db_combos_NoDup].
  intros c1 c2 Hc1 Hc2 Heq. apply (sublist_perm_eq names); auto using combos_sublist.
  unfold StrOrd.sorted in Heq.
  by rewrite <- (merge_sort_Permutation StrOrd.str_le c1), Heq, merge_sort_Permutation.
Qed.

Lemma combo_lookup_get c :
  c ∈ combos → Py.od_get (StrOrd.sorted c) (make_combo_lookup (Some combos)) = Some c.
Proof.
  intros Hc. unfold make_combo_lookup.
  assert (Hkeys : ((fun combo => (StrOrd.sorted combo, combo)) <$> combos).*1
                  = StrOrd.sorted <$> combos).
  { rewrite <- list_fmap_compose. by apply list_fmap_ext. }
  rewrite PyFacts.od_update_fresh by (simpl; rewrite Hkeys; apply sorted_combos_NoDup).
  simpl. apply list_elem_of_lookup in Hc as [i Hi].
  apply (PyFacts.od_get_lookup _ i).
  - unfold Py.od_keys. rewrite Hkeys. apply sorted_combos_NoDup.
  - by rewrite list_lookup_fmap, Hi.
Qed.

(** The colour of an entry whose sources are those of the [i]-th
    combination is the [i]-th colour code. *)
Lemma resolve_color_combo (color_hexcodes source_names : list string) i c :
  combos !! i = Some c → (∀ x, x ∈ source_names ↔ x ∈ c) →
  resolve_color color_hexcodes (Some combos) (make_combo_lookup (Some combos)) source_names
  = Py.getitem color_hexcodes i.
Proof.
  intros Hi Helem. assert (Hc : c ∈ combos) by by eapply list_elem_of_lookup_2.
  pose proof (proj1 (elem_of_db_combos names c) Hc) as [Hne Hsub].
  unfold resolve_color.
  assert (Hlen : length source_names ≠ 0%nat).
  { destruct c as [|x c]; [done|]. destruct source_names; [|done].
    exfalso. eapply elem_of_nil, Helem. left. }
  destruct (Nat.eqb_spec (length source_names) 0) as [?|_]; [done|].
  cbn [negb Py.assert]. rewrite result_bind_ok.
  rewrite (StrOrdFacts.sorted_set_perm source_names c); [|by eapply sublist_NoDup|done].
  unfold Py.od_lookup. rewrite combo_lookup_get by done. rewrite result_bind_ok.
  rewrite (PyFacts.index_of_lookup combos i c); [|by apply db_combos_NoDup|done].
  by rewrite result_bind_ok.
Qed.

End by_database.

Lemma by_database_items_keys cmap reverse_overlay k :
  (by_database_items cmap reverse_overlay k).*1 = cmap_int cmap <$> seq 0 k.
Proof. unfold by_database_items. rewrite <- list_fmap_compose. by apply list_fmap_ext. Qed.

Lemma by_database_priority_ok cmap reverse_overlay (names : list string) :
  (length (db_combos (length names) names) ≤ cmap_N cmap)%nat →
  by_database_priority cmap reverse_overlay (length names) names
  = Py.Ok (db_combos (length names) names,
           Py.od_update []
             (by_database_items cmap reverse_overlay
                (length (db_combos (length names) names)))).
Proof.
  intros Hcap. unfold by_database_priority. cbn zeta.
  by rewrite bool_decide_eq_true_2.
Qed.

(** With distinct palette colours the colour codes are the palette's, in
    the order of the samples. *)
Lemma by_database_hexcodes cmap reverse_overlay k :
  NoDup (cmap_int cmap <$> seq 0 k) →
  Py.od_keys (Py.od_update [] (by_database_items cmap reverse_overlay k))
  = cmap_int cmap <$> seq 0 k.
Proof.
  intros Hnd. rewrite PyFacts.od_update_fresh.
  - simpl. unfold Py.od_keys. apply by_database_items_keys.
  - simpl. by rewrite by_database_items_keys.
Qed.

(** The sources of [map_contigs_databases_kos]: once the metadata of the
    contigs databases is loaded, the project names are distinct and there is
    one per database, so [len(contigs_dbs)] is their number. *)
Lemma load_project_names_distinct env (contigs_dbs : list string)
    (acc project_names : list (string * string)) :
  load_project_names env contigs_dbs acc = Py.Ok project_names →
  NoDup (Py.od_keys acc) →
  NoDup (Py.od_keys project_names) ∧
  length (Py.od_keys project_names) = (length acc + length contigs_dbs)%nat.
Proof.
  revert acc. induction contigs_dbs as [|db rest IH]; intros acc Hload Hnd.
  - simpl in Hload. injection Hload as <-. unfold Py.od_keys.
    rewrite length_fmap. split; [done|simpl; lia].
  - cbn [load_project_names] in Hload.
    destruct (has_kofam env db); [|done]. cbn [Py.assert] in Hload.
    rewrite result_bind_ok in Hload.
    destruct (bool_decide_reflect (project_name_of env db ∈ Py.od_keys acc)) as [Hin|Hnin];
      [done|].
    cbn [negb Py.assert] in Hload. rewrite result_bind_ok in Hload.
    destruct (IH _ Hload) as [Hnd' Hlen].
    + rewrite PyFacts.od_keys_set_new by done. unfold Py.od_keys in *.
      rewrite fmap_app. apply NoDup_app. split_and!; [done| |apply NoDup_singleton].
      intros x Hx ->%list_elem_of_singleton. done.
    + split; [done|]. rewrite Hlen, PyFacts.od_keys_set_new by done.
      rewrite length_app. simpl. lia.
Qed.

(** C1.  In the scheme [by_database] with the sources [names] (distinct, as
    the keys of [project_names] are) and a palette that has room for every
    combination, the table holds exactly the non-empty subsets of the
    sources, each once, smaller subsets first and subsets of one size in
    lexicographic order of the sources' positions; and when the sampled
    palette colours are distinct, an entry whose sources are those of the
    [i]-th combination gets the palette colour of index [i]. *)
Theorem by_database_color_table (names : list string) (cmap : Colormap)
    (reverse_overlay : bool) :
  NoDup names →
  (length (db_combos (length names) names) ≤ cmap_N cmap)%nat →
  ∃ combos color_priority,
    by_database_priority cmap reverse_overlay (length names) names
    = Py.Ok (combos, color_priority) ∧
    (∀ c, c ∈ combos ↔ c ≠ [] ∧ c `sublist_of` names) ∧
    NoDup combos ∧
    StronglySorted (combo_lt (pos_lt names)) combos ∧
    (NoDup (cmap_int cmap <$> seq 0 (length combos)) →
     ∀ i c source_names,
       combos !! i = Some c → (∀ x, x ∈ source_names ↔ x ∈ c) →
       resolve_color (Py.od_keys color_priority) (Some combos)
         (make_combo_lookup (Some combos)) source_names
       = Py.Ok (cmap_int cmap i)).
Proof.
  intros Hnd Hcap. eexists _, _. split; [by apply by_database_priority_ok|].
  split_and!.
  - apply elem_of_db_combos.
  - by apply db_combos_NoDup.
  - apply db_combos_sorted.
  - intros Hpal i c source_names Hi Helem.
    rewrite (resolve_color_combo names Hnd _ _ i c) by done.
    rewrite by_database_hexcodes by done. unfold Py.getitem.
    apply lookup_lt_Some in Hi as Hlt.
    by rewrite list_lookup_fmap, lookup_seq_lt.
Qed.

(** The scenario of three sources: the KO of an entry is present in [A] and
    [C] only, and the entry gets the fifth colour of the palette. *)
Lemma by_database_color_table_witness :
  db_combos 3 ["A"; "B"; "C"]
  = [["A"]; ["B"]; ["C"]; ["A"; "B"]; ["A"; "C"]; ["B"; "C"]; ["A"; "B"; "C"]] ∧
  collect_sources {["K00001" := ["A"; "C"]]} [["ko"; "K00001"]] [] = Py.Ok ["A"; "C"] ∧
  ∃ combos color_priority,
    by_database_priority Example.tab10 false 3 ["A"; "B"; "C"] = Py.Ok (combos, color_priority) ∧
    combos !! 4%nat = Some ["A"; "C"] ∧
    resolve_color (Py.od_keys color_priority) (Some combos)
      (make_combo_lookup (Some combos)) ["A"; "C"]
    = Py.Ok (cmap_int Example.tab10 4) ∧
    cmap_int Example.tab10 4 = "#9467bd".
Proof.
  split; [reflexivity|]. split; [reflexivity|].
  destruct (by_database_color_table ["A"; "B"; "C"] Example.tab10 false) as
    (combos & cp & Hrun & _ & _ & _ & Hcolor).
  - apply (bool_decide_unpack _). by vm_compute.
  - vm_compute. lia.
  - exists combos, cp. split; [exact Hrun|].
    assert (Hcombos : combos = db_combos 3 ["A"; "B"; "C"]).
    { rewrite by_database_priority_ok in Hrun by (vm_compute; lia). by injection Hrun. }
    split; [by rewrite Hcombos|]. split; [|reflexivity].
    assert (Hcolor' := Hcolor ltac:(rewrite Hcombos; apply (bool_decide_unpack _);
                                    by vm_compute)).
    apply (Hcolor' 4%nat ["A"; "C"] ["A"; "C"]); [by rewrite Hcombos|done].
Defined.

(** The colours an entry can get never repeat, whatever the palette. *)
Lemma by_database_keys_NoDup cmap reverse_overlay k :
  NoDup (Py.od_keys (Py.od_update [] (by_database_items cmap reverse_overlay k))).
Proof. apply od_update_keys_NoDup. constructor. Qed.

(** C2.  With [n] distinct sources there are [2^n - 1] combinations.  When
    they outnumber the colours of the palette the assignment of priorities
    fails on its capacity assertion; when they do not, the whole table is
    kept, two different combinations never resolve to one colour, and with
    distinct palette colours every combination resolves to a colour. *)
Theorem by_database_capacity (names : list string) (cmap : Colormap)
    (reverse_overlay : bool) :
  NoDup names →
  let combos := db_combos (length names) names in
  (length combos + 1 = 2 ^ length names)%nat ∧
  ((cmap_N cmap < length combos)%nat →
   by_database_priority cmap reverse_overlay (length names) names
   = Py.Raise Py.AssertionError) ∧
  ((length combos ≤ cmap_N cmap)%nat →
   ∃ color_priority,
     by_database_priority cmap reverse_overlay (length names) names
     = Py.Ok (combos, color_priority) ∧
     (∀ c1 c2 color1 color2,
        c1 ∈ combos → c2 ∈ combos → c1 ≠ c2 →
        resolve_color (Py.od_keys color_priority) (Some combos)
          (make_combo_lookup (Some combos)) c1 = Py.Ok color1 →
        resolve_color (Py.od_keys color_priority) (Some combos)
          (make_combo_lookup (Some combos)) c2 = Py.Ok color2 →
        color1 ≠ color2) ∧
     (NoDup (cmap_int cmap <$> seq 0 (length combos)) →
      ∀ c, c ∈ combos →
        ∃ color, resolve_color (Py.od_keys color_priority) (Some combos)
                   (make_combo_lookup (Some combos)) c = Py.Ok color)).
Proof.
  intros Hnd combos. split_and!.
  - apply length_db_combos.
  - intros Hover. unfold by_database_priority. cbn zeta. fold combos.
    rewrite bool_decide_eq_false_2 by lia. done.
  - intros Hcap. eexists. split; [by apply by_database_priority_ok|]. fold combos. split.
    + intros c1 c2 color1 color2 Hc1 Hc2 Hne Hr1 Hr2 Heq. subst color2.
      apply list_elem_of_lookup in Hc1 as [i1 Hi1].
      apply list_elem_of_lookup in Hc2 as [i2 Hi2].
      rewrite (resolve_color_combo names Hnd _ _ i1 c1) in Hr1 by done.
      rewrite (resolve_color_combo names Hnd _ _ i2 c2) in Hr2 by done.
      unfold Py.getitem in Hr1, Hr2.
      destruct (Py.od_keys _ !! i1) as [x1|] eqn:Hx1; [|done].
      destruct (Py.od_keys _ !! i2) as [x2|] eqn:Hx2; [|done].
      injection Hr1 as ->. injection Hr2 as ->.
      assert (i1 = i2) as ->
        by (eapply NoDup_lookup; [apply by_database_keys_NoDup|exact Hx1|exact Hx2]).
      congruence.
    + intros Hpal c Hc. apply list_elem_of_lookup in Hc as [i Hi].
      exists (cmap_int cmap i).
      rewrite (resolve_color_combo names Hnd _ _ i c) by done.
      rewrite by_database_hexcodes by done. unfold Py.getitem.
      apply lookup_lt_Some in Hi as Hlt.
      by rewrite list_lookup_fmap, lookup_seq_lt.
Qed.

(** Four sources make fifteen combinations, too many for [tab10]; three
    make seven, and the entries of [A] alone and of [A] with [C] differ in
    colour. *)
Lemma by_database_capacity_witness :
  by_database_priority Example.tab10 false 4 ["A"; "B"; "C"; "D"] = Py.Raise Py.AssertionError ∧
  ∃ color_priority,
    by_database_priority Example.tab10 false 3 ["A"; "B"; "C"]
    = Py.Ok (db_combos 3 ["A"; "B"; "C"], color_priority) ∧
    ∀ color1 color2,
      resolve_color (Py.od_keys color_priority) (Some (db_combos 3 ["A"; "B"; "C"]))
        (make_combo_lookup (Some (db_combos 3 ["A"; "B"; "C"]))) ["A"] = Py.Ok color1 →
      resolve_color (Py.od_keys color_priority) (Some (db_combos 3 ["A"; "B"; "C"]))
        (make_combo_lookup (Some (db_combos 3 ["A"; "B"; "C"]))) ["A"; "C"] = Py.Ok color2 →
      color1 ≠ color2.
Proof.
  split.
  - apply (by_database_capacity ["A"; "B"; "C"; "D"] Example.tab10 false).
    + apply (bool_decide_unpack _). by vm_compute.
    + vm_compute. lia.
  - destruct (by_database_capacity ["A"; "B"; "C"] Example.tab10 false) as (_ & _ & Hok).
    + apply (bool_decide_unpack _). by vm_compute.
    + destruct Hok as (cp & Hrun & Hinj & _); [vm_compute; lia|].
      exists cp. split; [exact Hrun|]. intros color1 color2.
      apply Hinj; [| |done].
      * apply (bool_decide_unpack _). by vm_compute.
      * apply (bool_decide_unpack _). by vm_compute.
Defined.

(** *** The scheme [by_count] *)

Lemma length_linspace01 n : length (linspace01 n) = n.
Proof.
  destruct n as [|[|n]]; [done|done|].
  unfold linspace01. by rewrite length_fmap, length_seq.
Qed.

Lemma lookup_linspace01 n i :
  (2 ≤ n)%nat → (i < n)%nat → linspace01 n !! i = Some (point n i).
Proof.
  intros Hn Hi. destruct n as [|[|n]]; [lia|lia|].
  unfold linspace01. by rewrite list_lookup_fmap, lookup_seq_lt.
Qed.

Lemma point_lt n i j : (2 ≤ n)%nat → (i < j)%nat → (point n i < point n j)%Q.
Proof.
  intros Hn Hij. unfold point, Qdiv. apply Qmult_lt_r.
  - apply Qinv_lt_0_compat. replace 0%Q with (inject_Z 0) by done.
    rewrite <- Zlt_Qlt. lia.
  - rewrite <- Zlt_Qlt. lia.
Qed.






End ColorProps.

(** ** Drawing maps *)
Module MapperProps.
Import Kgml Mapper Derived.

Lemma M_bind_ok {A B} (m : M A) (k : A → M B) fs a fs' :
  m fs = (Py.Ok a, fs') → (m ≫= k) fs = k a fs'.
Proof. intros H. unfold mbind, M_bind. by rewrite H. Qed.

Lemma M_bind_raise {A B} (m : M A) (k : A → M B) fs e fs' :
  m fs = (Py.Raise e, fs') → (m ≫= k) fs = (Py.Raise e, fs').
Proof. intros H. unfold mbind, M_bind. by rewrite H. Qed.

(** A pure step either lets the rest run on the same file system or raises
    with the file system untouched. *)
Lemma M_bind_lift {A B} (r : Py.result A) (k : A → M B) fs :
  (lift r ≫= k) fs = match r with
                     | Py.Ok a => k a fs
                     | Py.Raise e => (Py.Raise e, fs)
                     end.
Proof. by destruct r. Qed.

(** *** Maps without any of the KOs *)

Lemma filter_none {A} (f : A → bool) (l : list A) :
  (∀ x, x ∈ l → f x = false) → List.filter f l = [].
Proof.
  induction l as [|x l IH]; intros Hall; simpl; [done|].
  rewrite (Hall x) by left. apply IH. intros y Hy. apply Hall. by right.
Qed.

Lemma get_entries_none (p : Pathway) (sel : string → bool) :
  (∀ e split_kegg_name id,
     e ∈ entries p → split_kegg_name ∈ name e → split_kegg_name !! 1%nat = Some id →
     sel id = false) →
  get_entries p None (Some sel) = [].
Proof.
  intros Hnone. unfold get_entries. apply filter_none. intros e He.
  unfold entry_matches. simpl.
  assert (Hgen : ∀ names, (∀ skn, skn ∈ names → skn ∈ name e) →
            existsb (fun skn => match skn !! 1%nat with
                                | Some id => sel id
                                | None => false
                                end) names = false).
  { induction names as [|skn names IH]; intros Hsub; simpl; [done|].
    rewrite IH by (intros ? ?; apply Hsub; by right).
    destruct (skn !! 1%nat) as [id|] eqn:Hid; [|done].
    rewrite (Hnone e skn id He) by (done || apply Hsub; left). done. }
  by apply Hgen.
Qed.

(** C4.  When no entry of the pathway map carries an identifier of the
    query and maps lacking KOs are not to be drawn, each of the three
    per-map draw methods returns [False], leaves the file system as it was,
    and leaves the pathway object as it was loaded. *)
Theorem draw_skips_map_lacking_kos (env : Env) (pathway_number : string)
    (ko_membership : gmap string (list string)) (ko_ids : list string)
    (color_priority : list (string * Q)) (output_dir color_hexcode : string)
    (colormap : Colormap) (source_combos : option (list (list string)))
    (fs : gmap string File) :
  (∀ e split_kegg_name id,
     e ∈ entries (get_pathway env pathway_number) → split_kegg_name ∈ name e →
     split_kegg_name !! 1%nat = Some id →
     ko_membership !! id = None ∧ id ∉ ko_ids) →
  _draw_map_kos_membership env pathway_number ko_membership color_priority output_dir
    colormap source_combos false fs
  = (Py.Ok (false, get_pathway env pathway_number), fs) ∧
  _draw_map_kos_single_color env pathway_number ko_ids color_hexcode output_dir false fs
  = (Py.Ok (false, get_pathway env pathway_number), fs) ∧
  _draw_map_kos_original_color env pathway_number ko_ids output_dir false fs
  = (Py.Ok (false, get_pathway env pathway_number), fs).
Proof.
  intros Hnone. split_and!.
  - unfold _draw_map_kos_membership. cbn zeta. rewrite get_entries_none; [done|].
    intros e skn id He Hskn Hid. destruct (Hnone e skn id He Hskn Hid) as [Hm _].
    apply bool_decide_eq_false_2. rewrite Hm. by intros [? ?].
  - unfold _draw_map_kos_single_color. cbn zeta. rewrite get_entries_none; [done|].
    intros e skn id He Hskn Hid. destruct (Hnone e skn id He Hskn Hid) as [_ Hl].
    by apply bool_decide_eq_false_2.
  - unfold _draw_map_kos_original_color. cbn zeta. rewrite get_entries_none; [done|].
    intros e skn id He Hskn Hid. destruct (Hnone e skn id He Hskn Hid) as [_ Hl].
    by apply bool_decide_eq_false_2.
Qed.

(** Map [00020] holds none of the KOs of the database [A.db]. *)
Lemma draw_skips_map_lacking_kos_witness :
  _draw_map_kos_membership Example.env "00020" {["K00001" := ["A"]]}
    (by_count_priority Example.plasma_r5 false 2) "out" Example.plasma_r5 None
    false ∅
  = (Py.Ok (false, Example.map_00020), ∅) ∧
  _draw_map_kos_single_color Example.env "00020" ["K00001"] "#2ca02c" "out" false ∅
  = (Py.Ok (false, Example.map_00020), ∅) ∧
  _draw_map_kos_original_color Example.env "00020" ["K00001"] "out" false ∅
  = (Py.Ok (false, Example.map_00020), ∅).
Proof.
  apply (draw_skips_map_lacking_kos Example.env "00020" {["K00001" := ["A"]]} ["K00001"]).
  intros e skn id He Hskn Hid. simpl in He.
  apply list_elem_of_singleton in He as ->. simpl in Hskn.
  apply list_elem_of_singleton in Hskn as ->. injection Hid as <-.
  split; [done|]. by intros ?%list_elem_of_singleton.
Defined.

(** *** Existing output files *)

Lemma check_outputs_existing output_dir prefix pathway_numbers pathway_number
    (fs : gmap string File) :
  pathway_number ∈ pathway_numbers →
  is_Some (fs !! path_join output_dir (pdf_name prefix pathway_number)) →
  check_outputs output_dir prefix pathway_numbers fs
  = (Py.Raise (Py.ConfigError (overwrite_msg output_dir)), fs).
Proof.
  intros Hin Hex. induction pathway_numbers as [|pn rest IH]; [by apply elem_of_nil in Hin|].
  cbn [check_outputs]. unfold mbind, M_bind, path_exists.
  destruct (bool_decide_reflect (is_Some (fs !! path_join output_dir (pdf_name prefix pn))))
    as [Hpn|Hpn]; [done|].
  apply IH. apply elem_of_cons in Hin as [->|Hin]; done.
Qed.

Lemma find_maps_existing env output_dir prefix patterns pathway_number
    (fs : gmap string File) :
  overwrite_output env = false →
  pathway_number ∈ selected_numbers env patterns →
  is_Some (fs !! path_join output_dir (pdf_name prefix pathway_number)) →
  _find_maps env output_dir prefix patterns fs
  = (Py.Raise (Py.ConfigError (overwrite_msg output_dir)), fs).
Proof.
  intros Hover Hin Hex. unfold _find_maps. cbn zeta. rewrite Hover.
  apply M_bind_raise. by eapply check_outputs_existing.
Qed.

(** C5.  With [overwrite_output] off, if the output file
    [<prefix>_<pathway_number>.pdf] of a selected pathway number is already
    in the output directory, [_find_maps] raises the configuration error
    about overwriting and the file system is as before; so do the methods
    drawing the maps of one source, and the methods for several sources stop
    with an exception before they have written or changed any file. *)
Theorem find_maps_refuses_existing_output (env : Env) (output_dir prefix : string)
    (patterns : option (list string)) (pathway_number : string)
    (fs : gmap string File) :
  overwrite_output env = false →
  pathway_number ∈ selected_numbers env patterns →
  is_Some (fs !! path_join output_dir (pdf_name prefix pathway_number)) →
  _find_maps env output_dir prefix patterns fs
  = (Py.Raise (Py.ConfigError (overwrite_msg output_dir)), fs) ∧
  (prefix = "kos" →
   (∀ ko_ids color_hexcode draw_maps_lacking_kos,
      _map_kos_fixed_colors env ko_ids output_dir patterns color_hexcode
        draw_maps_lacking_kos fs
      = (Py.Raise (Py.ConfigError (overwrite_msg output_dir)), fs)) ∧
   (∀ contigs_dbs draw_files draw_grid colormap colormap_limits colormap_scheme
      reverse_overlay color_hexcode colorbar draw_maps_lacking_kos,
      ∃ e, map_contigs_databases_kos env contigs_dbs output_dir patterns draw_files
             draw_grid colormap colormap_limits colormap_scheme reverse_overlay
             color_hexcode colorbar draw_maps_lacking_kos fs
           = (Py.Raise e, fs)) ∧
   (∀ pan_db genomes_storage_db draw_files draw_grid colormap colormap_limits
      reverse_overlay color_hexcode colorbar draw_maps_lacking_kos,
      ∃ e, map_pan_database_kos env pan_db genomes_storage_db output_dir patterns
             draw_files draw_grid colormap colormap_limits reverse_overlay
             color_hexcode colorbar draw_maps_lacking_kos fs
           = (Py.Raise e, fs))).
Proof.
  intros Hover Hin Hex.
  split; [by eapply find_maps_existing|]. intros ->.
  pose proof (find_maps_existing env output_dir "kos" patterns pathway_number fs
                Hover Hin Hex) as Hfind.
  split_and!.
  - intros. unfold _map_kos_fixed_colors. by apply M_bind_raise.
  - intros.
    assert (Hphase : ∃ e, unified_phase_dbs env contigs_dbs output_dir patterns colormap
                            colormap_limits colormap_scheme reverse_overlay color_hexcode
                            colorbar draw_maps_lacking_kos fs = (Py.Raise e, fs)).
    { unfold unified_phase_dbs.
      repeat (rewrite M_bind_lift;
              match goal with
              | |- context [match ?r with Py.Ok _ => _ | Py.Raise _ => _ end] =>
                  destruct r; [|by eexists]
              end).
      eexists. apply M_bind_raise. exact Hfind. }
    destruct Hphase as [e He]. exists e. unfold map_contigs_databases_kos.
    by apply M_bind_raise.
  - intros.
    assert (Hphase : ∃ e, unified_phase_pan env pan_db genomes_storage_db output_dir
                            patterns colormap colormap_limits reverse_overlay
                            color_hexcode colorbar draw_maps_lacking_kos fs
                          = (Py.Raise e, fs)).
    { unfold unified_phase_pan. rewrite M_bind_lift.
      match goal with
      | |- context [match ?r with Py.Ok _ => _ | Py.Raise _ => _ end] =>
          destruct r; [|by eexists]
      end.
      eexists. apply M_bind_raise. exact Hfind. }
    destruct Hphase as [e He]. exists e. unfold map_pan_database_kos.
    by apply M_bind_raise.
Qed.

(** The scenario: the output directory already holds [kos_00010.pdf]. *)
Lemma find_maps_refuses_existing_output_witness :
  let fs : gmap string File := {["out/kos_00010.pdf" := MapPdf Example.map_00010]} in
  _find_maps Example.env "out" "kos" None fs
  = (Py.Raise (Py.ConfigError (overwrite_msg "out")), fs) ∧
  map_contigs_database_kos Example.env "A.db" "out" None "#2ca02c" false fs
  = (Py.Raise (Py.ConfigError (overwrite_msg "out")), fs).
Proof.
  intros fs.
  destruct (find_maps_refuses_existing_output Example.env "out" "kos" None "00010" fs)
    as [Hfind Hops]; [done|left|by eexists|].
  split; [exact Hfind|]. destruct (Hops eq_refl) as (Hfixed & _ & _). apply Hfixed.
Defined.

(** *** Entries that are not selected *)

Lemma update_graphics_frame f uuids (store store' : gmap string Graphics) u :
  update_graphics f uuids store = Py.Ok store' → u ∉ uuids → store' !! u = store !! u.
Proof.
  revert store. induction uuids as [|v uuids IH]; intros store Hrun Hnotin; simpl in Hrun.
  - by injection Hrun as <-.
  - apply not_elem_of_cons in Hnotin as [Hne Hnotin].
    destruct (store !! v) as [g|]; [|done].
    rewrite (IH _ Hrun Hnotin). by apply lookup_insert_ne.
Qed.

Lemma update_graphics_marks f uuids (store store' : gmap string Graphics) u :
  update_graphics f uuids store = Py.Ok store' → u ∈ uuids → NoDup uuids →
  ∃ g, store !! u = Some g ∧ store' !! u = Some (f g).
Proof.
  revert store. induction uuids as [|v uuids IH]; intros store Hrun Hin Hnd; simpl in Hrun.
  - by apply elem_of_nil in Hin.
  - apply NoDup_cons in Hnd as [Hv Hnd]. destruct (store !! v) as [g|] eqn:Hg; [|done].
    apply elem_of_cons in Hin as [->|Hin].
    + exists g. split; [done|].
      rewrite (update_graphics_frame _ _ _ _ v Hrun Hv). apply lookup_insert_eq.
    + destruct (IH _ Hrun Hin Hnd) as (g' & Hg' & Hfin). exists g'. split; [|done].
      rewrite lookup_insert_ne in Hg'; [done|]. by intros ->.
Qed.

(** The colouring loop of [_draw_map_kos_membership] only writes the
    Graphics elements of the entries it is given. *)
Lemma color_entries_membership_frame (global overview : bool)
    (ko_membership : gmap string (list string)) (color_hexcodes : list string)
    (source_combos : option (list (list string)))
    (combo_lookup : list (list string * list string))
    (selected : list Entry) (store store' : gmap string Graphics) (u : string) :
  color_entries_membership global overview ko_membership color_hexcodes source_combos
    combo_lookup selected store = Py.Ok store' →
  (∀ e, e ∈ selected → u ∉ children_graphics e) →
  store' !! u = store !! u.
Proof.
  revert store. induction selected as [|entry rest IH]; intros store Hrun Hnot.
  - simpl in Hrun. by injection Hrun as <-.
  - cbn [color_entries_membership] in Hrun.
    destruct (collect_sources ko_membership (name entry) []) as [sources|]; [|done].
    rewrite result_bind_ok in Hrun.
    destruct (resolve_color color_hexcodes source_combos combo_lookup sources)
      as [color|]; [|done].
    rewrite result_bind_ok in Hrun.
    destruct (update_graphics _ (children_graphics entry) store) as [store1|] eqn:Hupd;
      [|done].
    rewrite result_bind_ok in Hrun.
    rewrite (IH _ Hrun) by (intros e He; apply Hnot; by right).
    eapply update_graphics_frame; [exact Hupd|]. apply Hnot. left.
Qed.

(** The attributes a selected entry's Graphics element is given, by kind of
    map: the resolved colour over white for the lines of global maps, the
    same with width 5 for overview maps, black over the resolved colour for
    the boxes of standard maps. *)
Lemma color_selected_attributes (global overview : bool) (color : string) (g : Graphics) :
  let g' := color_selected global overview color g in
  (global = true → fgcolor g' = color ∧ bgcolor g' = "#FFFFFF" ∧ width g' = width g) ∧
  (global = false → overview = true →
   fgcolor g' = color ∧ bgcolor g' = "#FFFFFF" ∧ width g' = 5%Q) ∧
  (global = false → overview = false →
   fgcolor g' = "#000000" ∧ bgcolor g' = color ∧ width g' = width g).
Proof. destruct global, overview; simpl; split_and!; intros; done. Qed.

(** The selected part of the table of colouring rules: after the loop of
    [_draw_map_kos_membership], every Graphics element of every selected
    entry carries the colour resolved for that entry, applied by kind of
    map (entries own their Graphics elements exclusively). *)
Lemma membership_colors_selected (global overview : bool)
    (ko_membership : gmap string (list string)) (color_hexcodes : list string)
    (source_combos : option (list (list string)))
    (combo_lookup : list (list string * list string))
    (selected : list Entry) (store store' : gmap string Graphics)
    (entry : Entry) (u : string) :
  color_entries_membership global overview ko_membership color_hexcodes source_combos
    combo_lookup selected store = Py.Ok store' →
  NoDup (mjoin (children_graphics <$> selected)) →
  entry ∈ selected → u ∈ children_graphics entry →
  ∃ sources color g,
    collect_sources ko_membership (name entry) [] = Py.Ok sources ∧
    resolve_color color_hexcodes source_combos combo_lookup sources = Py.Ok color ∧
    store !! u = Some g ∧
    store' !! u = Some (color_selected global overview color g).
Proof.
  revert store. induction selected as [|e rest IH]; intros store Hrun Hnd Hin Hu.
  - by apply elem_of_nil in Hin.
  - cbn [color_entries_membership] in Hrun. simpl in Hnd.
    apply NoDup_app in Hnd as (Hnd_e & Hdisj & Hnd_rest).
    destruct (collect_sources ko_membership (name e) []) as [sources|] eqn:Hsrc; [|done].
    rewrite result_bind_ok in Hrun.
    destruct (resolve_color color_hexcodes source_combos combo_lookup sources)
      as [color|] eqn:Hcol; [|done].
    rewrite result_bind_ok in Hrun.
    destruct (update_graphics _ (children_graphics e) store) as [store1|] eqn:Hupd; [|done].
    rewrite result_bind_ok in Hrun.
    apply elem_of_cons in Hin as [->|Hin].
    + destruct (update_graphics_marks _ _ _ _ u Hupd Hu Hnd_e) as (g & Hg & Hg1).
      exists sources, color, g. split_and!; [done|done|done|]. rewrite <- Hg1.
      eapply color_entries_membership_frame; [exact Hrun|].
      intros e' He' Hu'. apply (Hdisj u Hu). apply list_elem_of_join.
      exists (children_graphics e'). split; [done|]. apply list_elem_of_fmap. by exists e'.
    + destruct (IH _ Hrun Hnd_rest Hin Hu) as (sources' & color' & g & Hs & Hc & Hg & Hfin).
      exists sources', color', g. split_and!; [done|done| |done].
      rewrite <- Hg. symmetry. eapply update_graphics_frame; [exact Hupd|].
      intros Hu'. apply (Hdisj u Hu'). apply list_elem_of_join.
      exists (children_graphics entry). split; [done|]. apply list_elem_of_fmap.
      by exists entry.
Qed.

(** What the single-colour loop does to an ortholog entry that is not
    selected: the foreground of its Graphics becomes ['0']. *)
Lemma single_color_marks_unselected (global overview : bool) (color_hexcode : string)
    (select_uuids : list string) (all_entries : list Entry)
    (store store' : gmap string Graphics) (entry : Entry) (u : string) :
  color_entries_single global overview color_hexcode select_uuids all_entries store
  = Py.Ok store' →
  NoDup (mjoin (children_graphics <$> all_entries)) →
  entry ∈ all_entries → uuid entry ∉ select_uuids → u ∈ children_graphics entry →
  ∃ g, store !! u = Some g ∧ store' !! u = Some (mark_unselected g).
Proof.
  revert store. induction all_entries as [|e rest IH]; intros store Hrun Hnd Hin Hsel Hu.
  - by apply elem_of_nil in Hin.
  - cbn [color_entries_single] in Hrun. simpl in Hnd.
    apply NoDup_app in Hnd as (Hnd_e & Hdisj & Hnd_rest).
    destruct (update_graphics _ (children_graphics e) store) as [store1|] eqn:Hupd; [|done].
    rewrite result_bind_ok in Hrun.
    apply elem_of_cons in Hin as [->|Hin].
    + rewrite bool_decide_eq_false_2 in Hupd by done.
      destruct (update_graphics_marks _ _ _ _ u Hupd Hu Hnd_e) as (g & Hg & Hg1).
      exists g. split; [done|]. rewrite <- Hg1. clear IH.
      assert (Hrest : ∀ es st st',
                color_entries_single global overview color_hexcode select_uuids es st
                = Py.Ok st' →
                (∀ e', e' ∈ es → u ∉ children_graphics e') → st' !! u = st !! u).
      { induction es as [|e' es IHes]; intros st st' Hr Hn.
        - simpl in Hr. by injection Hr as <-.
        - cbn [color_entries_single] in Hr.
          destruct (update_graphics _ (children_graphics e') st) as [st1|] eqn:Hu1; [|done].
          rewrite result_bind_ok in Hr.
          rewrite (IHes _ _ Hr) by (intros e'' He''; apply Hn; by right).
          eapply update_graphics_frame; [exact Hu1|]. apply Hn. left. }
      apply (Hrest rest); [done|]. intros e' He' Hu'. apply (Hdisj u Hu).
      apply list_elem_of_join. exists (children_graphics e'). split; [done|].
      apply list_elem_of_fmap. by exists e'.
    + destruct (IH _ Hrun Hnd_rest Hin Hsel Hu) as (g & Hg & Hfin).
      exists g. split; [|done]. rewrite <- Hg. symmetry.
      eapply update_graphics_frame; [exact Hupd|]. intros Hu'. apply (Hdisj u Hu').
      apply list_elem_of_join. exists (children_graphics entry). split; [done|].
      apply list_elem_of_fmap. by exists entry.
Qed.

(** C6 (what the membership colourer does to the entries it does not
    select).  In [_draw_map_kos_membership] the colouring loop runs over the
    selected entries only.  A Graphics element of another entry of the map,
    not shared with a selected entry, is after the loop what it was when the
    map was loaded: its foreground is not set to the marker ['0'], which
    the loops of [_draw_map_kos_single_color] and
    [_draw_map_kos_original_color] give to every ortholog entry they do not
    select. *)
Theorem membership_leaves_unselected_unmarked (pathway : Pathway)
    (ko_membership : gmap string (list string)) (color_hexcodes : list string)
    (source_combos : option (list (list string)))
    (store' : gmap string Graphics) (entry : Entry) (u : string) (g : Graphics) :
  let selected :=
    get_entries pathway None
      (Some (fun id => bool_decide (is_Some (ko_membership !! id)))) in
  color_entries_membership (is_global_map pathway) (is_overview_map pathway)
    ko_membership color_hexcodes source_combos (make_combo_lookup source_combos)
    selected (uuid_element_lookup pathway) = Py.Ok store' →
  entry ∈ entries pathway → u ∈ children_graphics entry →
  (∀ e, e ∈ selected → u ∉ children_graphics e) →
  uuid_element_lookup pathway !! u = Some g →
  fgcolor g ≠ "0" →
  store' !! u = Some g ∧ fgcolor <$> store' !! u ≠ Some "0".
Proof.
  intros selected Hrun _ _ Hnot Hg Hfg.
  assert (Hsame : store' !! u = Some g).
  { rewrite <- Hg. eapply color_entries_membership_frame; [exact Hrun|exact Hnot]. }
  split; [exact Hsame|]. rewrite Hsame. simpl. by intros [= ?].
Qed.

(** Map [00010] coloured for the sources [A], [B], [C] with [K00001] in [A]
    and [C]: the box of [K00001] gets the fifth colour of [tab10] on black,
    the box of [K00002] and [K00003], which is not selected, keeps its black
    foreground; the single-colour loop sets that foreground to ['0']. *)
Lemma membership_leaves_unselected_unmarked_witness :
  let ko_membership : gmap string (list string) := {["K00001" := ["A"; "C"]]} in
  let combos := Combos.db_combos 3 ["A"; "B"; "C"] in
  let selected :=
    get_entries Example.map_00010 None
      (Some (fun id => bool_decide (is_Some (ko_membership !! id)))) in
  ∃ store' store'',
    color_entries_membership false false ko_membership
      (Example.tab10_colors) (Some combos) (make_combo_lookup (Some combos))
      selected (uuid_element_lookup Example.map_00010) = Py.Ok store' ∧
    store' !! "g1" = Some {| fgcolor := "#000000"; bgcolor := "#9467bd"; width := 1 |} ∧
    store' !! "g2" = Some (Example.box "#000000" "#BFBFFF") ∧
    fgcolor <$> store' !! "g2" ≠ Some "0" ∧
    color_entries_single false false "#2ca02c" (uuid <$> selected)
      (get_entries Example.map_00010 (Some "ortholog") None)
      (uuid_element_lookup Example.map_00010) = Py.Ok store'' ∧
    store'' !! "g2" = Some (Example.box "0" "#BFBFFF").
Proof.
  intros ko_membership combos selected.
  set (run := color_entries_membership false false ko_membership Example.tab10_colors
                (Some combos) (make_combo_lookup (Some combos)) selected
                (uuid_element_lookup Example.map_00010)).
  set (single := color_entries_single false false "#2ca02c" (uuid <$> selected)
                   (get_entries Example.map_00010 (Some "ortholog") None)
                   (uuid_element_lookup Example.map_00010)).
  assert (Hok : Example.is_Ok run = true) by (vm_compute; reflexivity).
  assert (Hok' : Example.is_Ok single = true) by (vm_compute; reflexivity).
  assert (Hg1 : Example.value ∅ run !! "g1"
                = Some {| fgcolor := "#000000"; bgcolor := "#9467bd"; width := 1 |})
    by (vm_compute; reflexivity).
  assert (Hg2 : Example.value ∅ single !! "g2" = Some (Example.box "0" "#BFBFFF"))
    by (vm_compute; reflexivity).
  assert (Hsel : selected = [ {| uuid := "e1"; type := "ortholog";
                                 name := [["ko"; "K00001"]];
                                 children_graphics := ["g1"] |} ])
    by (vm_compute; reflexivity).
  pose proof (fun store' =>
                membership_leaves_unselected_unmarked Example.map_00010 ko_membership
                  Example.tab10_colors (Some combos) store'
                  {| uuid := "e2"; type := "ortholog";
                     name := [["ko"; "K00002"]; ["ko"; "K00003"]];
                     children_graphics := ["g2"] |}
                  "g2" (Example.box "#000000" "#BFBFFF")) as Hframe.
  cbn zeta in Hframe. fold selected in Hframe.
  change (is_global_map Example.map_00010) with false in Hframe.
  change (is_overview_map Example.map_00010) with false in Hframe.
  fold run in Hframe. clearbody run single.
  destruct run as [store'|e]; [|discriminate Hok].
  destruct single as [store''|e]; [|discriminate Hok'].
  exists store', store''. split; [reflexivity|]. split; [exact Hg1|].
  assert (Hunsel : store' !! "g2" = Some (Example.box "#000000" "#BFBFFF")
                   ∧ fgcolor <$> store' !! "g2" ≠ Some "0").
  { apply (Hframe store' eq_refl).
    - right; left.
    - left.
    - intros e He. rewrite Hsel in He. apply list_elem_of_singleton in He as ->.
      simpl. by intros ?%list_elem_of_singleton.
    - by vm_compute.
    - done. }
  destruct Hunsel as [Hkeep Hmark].
  split; [exact Hkeep|]. split; [exact Hmark|]. split; [reflexivity|exact Hg2].
Defined.

(** *** What the methods for several sources return *)

(** C9.  With [draw_contigs_db_files] (for a pangenome, [draw_genome_files])
    and [draw_grid] both [False], a run whose unified maps were drawn ends
    in the bare [return]: the method yields [None], not the dictionary of
    ['unified'], ['individual'] and ['grid'] results of its documentation,
    and the file system is the one the unified maps were drawn into. *)
Theorem unified_only_returns_none (env : Env) (output_dir : string)
    (pathway_numbers : option (list string)) (colormap_limits : option (Q * Q))
    (reverse_overlay : bool) (color_hexcode : string)
    (colorbar draw_maps_lacking_kos : bool) (fs : gmap string File) :
  (∀ contigs_dbs colormap colormap_scheme u fs',
     unified_phase_dbs env contigs_dbs output_dir pathway_numbers colormap
       colormap_limits colormap_scheme reverse_overlay color_hexcode colorbar
       draw_maps_lacking_kos fs = (Py.Ok u, fs') →
     map_contigs_databases_kos env contigs_dbs output_dir pathway_numbers
       (ArgBool false) (ArgBool false) colormap colormap_limits colormap_scheme
       reverse_overlay color_hexcode colorbar draw_maps_lacking_kos fs
     = (Py.Ok None, fs')) ∧
  (∀ pan_db genomes_storage_db colormap u fs',
     unified_phase_pan env pan_db genomes_storage_db output_dir pathway_numbers colormap
       colormap_limits reverse_overlay color_hexcode colorbar draw_maps_lacking_kos fs
     = (Py.Ok u, fs') →
     map_pan_database_kos env pan_db genomes_storage_db output_dir pathway_numbers
       (ArgBool false) (ArgBool false) colormap colormap_limits reverse_overlay
       color_hexcode colorbar draw_maps_lacking_kos fs
     = (Py.Ok None, fs')).
Proof.
  split.
  - intros contigs_dbs colormap colormap_scheme u fs' Hphase.
    unfold map_contigs_databases_kos. by rewrite (M_bind_ok _ _ _ _ _ Hphase).
  - intros pan_db genomes_storage_db colormap u fs' Hphase.
    unfold map_pan_database_kos. by rewrite (M_bind_ok _ _ _ _ _ Hphase).
Qed.

(** The databases [A.db] and [B.db] mapped into an empty directory with the
    defaults: both unified maps and the colorbar are drawn, and the method
    returns [None]. *)
Lemma unified_only_returns_none_witness :
  ∃ u fs',
    unified_phase_dbs Example.env ["A.db"; "B.db"] "out" None (CmapBool true) None None
      false "#2ca02c" true false ∅ = (Py.Ok u, fs') ∧
    u.2 = [("00010", true); ("00020", true)] ∧
    is_Some (fs' !! "out/kos_00010.pdf") ∧
    is_Some (fs' !! "out/kos_00020.pdf") ∧
    is_Some (fs' !! "out/colorbar.pdf") ∧
    map_contigs_databases_kos Example.env ["A.db"; "B.db"] "out" None (ArgBool false)
      (ArgBool false) (CmapBool true) None None false "#2ca02c" true false ∅
    = (Py.Ok None, fs').
Proof.
  pose proof (proj1 (unified_only_returns_none Example.env "out" None None false
                       "#2ca02c" true false ∅) ["A.db"; "B.db"] (CmapBool true) None)
    as Hnone.
  set (run := unified_phase_dbs Example.env ["A.db"; "B.db"] "out" None (CmapBool true)
                None None false "#2ca02c" true false ∅) in *.
  assert (Hok : Example.is_Ok run.1 = true) by (vm_compute; reflexivity).
  assert (Hu : (Example.value ([], [], []) run.1).2 = [("00010", true); ("00020", true)])
    by (vm_compute; reflexivity).
  assert (Hf1 : bool_decide (is_Some (run.2 !! "out/kos_00010.pdf")) = true)
    by (vm_compute; reflexivity).
  assert (Hf2 : bool_decide (is_Some (run.2 !! "out/kos_00020.pdf")) = true)
    by (vm_compute; reflexivity).
  assert (Hf3 : bool_decide (is_Some (run.2 !! "out/colorbar.pdf")) = true)
    by (vm_compute; reflexivity).
  clearbody run. destruct run as [[u|e] fs']; [|discriminate Hok].
  exists u, fs'. split; [reflexivity|]. split; [exact Hu|].
  split; [exact (bool_decide_eq_true_1 _ Hf1)|].
  split; [exact (bool_decide_eq_true_1 _ Hf2)|].
  split; [exact (bool_decide_eq_true_1 _ Hf3)|].
  exact (Hnone u fs' eq_refl).
Defined.

(** *** Empty maps for the grids of a pangenome *)

Lemma fill_sources_type_error genome_names env output_dir color_hexcode pathway_number
    (drawn_source : list (string * bool)) paths (fs : gmap string File) :
  false ∈ drawn_source.*2 →
  fill_sources (draw_missing_genome env genome_names output_dir color_hexcode) output_dir
    pathway_number drawn_source paths fs
  = (Py.Raise Py.TypeError, fs).
Proof.
  induction drawn_source as [|[source [|]] rest IH]; intros Hin; simpl in Hin.
  - by apply elem_of_nil in Hin.
  - cbn [fill_sources]. apply IH. apply elem_of_cons in Hin as [?|Hin]; done.
  - cbn [fill_sources]. reflexivity.
Qed.

Lemma not_mixed_false (d : list (string * bool)) :
  not_mixed d = false → false ∈ d.*2.
Proof.
  unfold not_mixed. intros [_ Hf%existsb_exists]%negb_false_iff%andb_true_iff.
  destruct Hf as ([|] & Hin & Hneg); [done|]. by apply list_elem_of_In.
Qed.

Lemma fill_in_type_error genome_names env output_dir color_hexcode
    (drawn_pathway_number : list (string * list (string * bool))) paths
    (fs : gmap string File) :
  (∃ pathway_number drawn_genome,
     (pathway_number, drawn_genome) ∈ drawn_pathway_number ∧
     not_mixed drawn_genome = false) →
  fill_in (draw_missing_genome env genome_names output_dir color_hexcode) output_dir
    drawn_pathway_number paths fs
  = (Py.Raise Py.TypeError, fs).
Proof.
  induction drawn_pathway_number as [|[pn d] rest IH]; intros (pn' & d' & Hin & Hmixed).
  - by apply elem_of_nil in Hin.
  - cbn [fill_in]. destruct (not_mixed d) eqn:Hd.
    + apply IH. exists pn', d'. split; [|done].
      apply elem_of_cons in Hin as [[= -> ->]|Hin]; [congruence|done].
    + apply M_bind_raise. apply fill_sources_type_error. by apply not_mixed_false.
Qed.

(** *** The table of drawn maps, by pathway *)

Lemma od_get_absent {V} (k : string) (d : list (string * V)) :
  k ∉ d.*1 → Py.od_get k d = None.
Proof.
  induction d as [|[k' v'] d IH]; simpl; [done|]. intros Hnot.
  apply not_elem_of_cons in Hnot as [Hne Hnot]. rewrite decide_False by done. by apply IH.
Qed.

Lemma od_get_elem_of {V} (k : string) (v : V) (d : list (string * V)) :
  Py.od_get k d = Some v → (k, v) ∈ d.
Proof.
  induction d as [|[k' v'] d IH]; simpl; [done|].
  destruct (decide (k = k')) as [->|Hne].
  - intros [= ->]. left.
  - intros Hget. right. by apply IH.
Qed.

Lemma od_set_keys_NoDup {V} (k : string) (v : V) (d : list (string * V)) :
  NoDup d.*1 → NoDup (Py.od_set k v d).*1.
Proof. intros Hnd. by apply (ColorProps.od_update_keys_NoDup d [(k, v)]). Qed.

Lemma od_set_elem_of {V} (k k' : string) (v v' : V) (d : list (string * V)) :
  (k', v') ∈ Py.od_set k v d → (k', v') ∈ d ∨ v' = v.
Proof.
  induction d as [|[k0 v0] d IH]; simpl.
  - intros [= _ ->]%list_elem_of_singleton. by right.
  - destruct (decide (k = k0)) as [->|Hne].
    + intros [[= _ ->]|Hin]%elem_of_cons; [by right|]. left. by right.
    + intros [->|Hin]%elem_of_cons; [left; left|].
      destruct (IH Hin) as [?|?]; [left; by right|by right].
Qed.

Lemma table_get_set source table pd pathway_number source' :
  table_get (table_set source table pd) pathway_number source'
  = if decide (pathway_number = pd.1 ∧ source' = source) then Some pd.2
    else table_get table pathway_number source'.
Proof.
  destruct pd as [pn b]. unfold table_get, table_set. simpl.
  destruct (decide (pathway_number = pn)) as [->|Hpn].
  - destruct (Py.od_get pn table) as [inner|] eqn:Hinner;
      rewrite PyFacts.od_get_set_eq; simpl.
    + destruct (decide (source' = source)) as [->|Hs].
      * rewrite decide_True by done. apply PyFacts.od_get_set_eq.
      * rewrite decide_False by (by intros [_ ?]). by rewrite PyFacts.od_get_set_ne.
    + destruct (decide (source' = source)) as [->|Hs].
      * by rewrite decide_True.
      * by rewrite decide_False by (by intros [_ ?]).
  - rewrite decide_False by (by intros [? _]).
    destruct (Py.od_get pn table) as [inner|]; by rewrite PyFacts.od_get_set_ne.
Qed.

Lemma table_get_fold_source source (d : list (string * bool)) table pathway_number source' :
  NoDup d.*1 →
  table_get (foldl (table_set source) table d) pathway_number source'
  = if decide (source' = source)
    then match Py.od_get pathway_number d with
         | Some b => Some b
         | None => table_get table pathway_number source'
         end
    else table_get table pathway_number source'.
Proof.
  revert table. induction d as [|[pn b] d IH]; intros table Hnd; simpl.
  - by destruct (decide (source' = source)).
  - apply NoDup_cons in Hnd as [Hpn Hnd]. rewrite IH by done.
    rewrite table_get_set. simpl.
    destruct (decide (source' = source)) as [->|Hs].
    + destruct (decide (pathway_number = pn)) as [->|Hne].
      * rewrite od_get_absent by done. by rewrite decide_True.
      * rewrite (decide_False (P := _ ∧ _)) by (by intros [? _]). done.
    + by rewrite decide_False by (by intros [_ ?]).
Qed.

Lemma by_pathway_number_fold (individual : list (string * list (string * bool))) :
  by_pathway_number individual
  = foldl (fun table src => foldl (table_set src.1) table src.2) [] individual.
Proof. reflexivity. Qed.

(** The table turned inside out holds what the [individual] table holds. *)
Lemma table_get_by_pathway_number (individual : list (string * list (string * bool)))
    pathway_number source :
  NoDup individual.*1 →
  (∀ src, src ∈ individual → NoDup src.2.*1) →
  table_get (by_pathway_number individual) pathway_number source
  = Py.od_get source individual ≫= Py.od_get pathway_number.
Proof.
  rewrite by_pathway_number_fold.
  assert (Hgen : ∀ table,
    NoDup individual.*1 → (∀ src, src ∈ individual → NoDup src.2.*1) →
    table_get (foldl (fun table src => foldl (table_set src.1) table src.2) table
                 individual) pathway_number source
    = match Py.od_get source individual ≫= Py.od_get pathway_number with
      | Some b => Some b
      | None => table_get table pathway_number source
      end).
  { induction individual as [|[g d] individual IH]; intros table Hnd Hinner; [done|].
    apply NoDup_cons in Hnd as [Hg Hnd]. cbn [foldl]. rewrite IH; [|done|].
    - rewrite table_get_fold_source by (apply (Hinner (g, d)); left). cbn [Py.od_get fst snd mbind option_bind]. destruct (decide (source = g)) as [->|Hne].
      + rewrite od_get_absent by done. simpl. by destruct (Py.od_get pathway_number d).
      + done.
    - intros src Hsrc. apply Hinner. by right. }
  intros Hnd Hinner. rewrite Hgen by done.
  by destruct (Py.od_get source individual ≫= Py.od_get pathway_number).
Qed.

(** *** The dictionaries a run builds have distinct keys *)

Lemma M_bind_inv {A B} (m : M A) (k : A → M B) fs b fs' :
  (m ≫= k) fs = (Py.Ok b, fs') → ∃ a fs1, m fs = (Py.Ok a, fs1) ∧ k a fs1 = (Py.Ok b, fs').
Proof.
  unfold mbind, M_bind. destruct (m fs) as [[a|e] fs1]; [|done]. intros Hk. by exists a, fs1.
Qed.

Lemma draw_loop_keys draw pathway_numbers (drawn d : list (string * bool))
    (fs fs' : gmap string File) :
  draw_loop draw pathway_numbers drawn fs = (Py.Ok d, fs') → NoDup drawn.*1 → NoDup d.*1.
Proof.
  revert drawn fs. induction pathway_numbers as [|pn rest IH]; intros drawn fs Hrun Hnd.
  - by injection Hrun as <- _.
  - cbn [draw_loop] in Hrun. apply M_bind_inv in Hrun as (r & fs1 & _ & Hrest).
    eapply IH; [exact Hrest|]. by apply od_set_keys_NoDup.
Qed.

Lemma map_kos_fixed_colors_keys env ko_ids output_dir patterns color_hexcode lacking
    (d : list (string * bool)) (fs fs' : gmap string File) :
  _map_kos_fixed_colors env ko_ids output_dir patterns color_hexcode lacking fs
  = (Py.Ok d, fs') → NoDup d.*1.
Proof.
  unfold _map_kos_fixed_colors. intros Hrun.
  apply M_bind_inv in Hrun as (pns & fs1 & _ & Hrun).
  apply M_bind_inv in Hrun as ([] & fs2 & _ & Hrun).
  eapply draw_loop_keys; [exact Hrun|]. constructor.
Qed.

Lemma draw_individual_keys (draw_one : string → M (list (string * bool))) names
    (acc ind : list (string * list (string * bool))) (fs fs' : gmap string File) :
  (∀ name d fs0 fs1, draw_one name fs0 = (Py.Ok d, fs1) → NoDup d.*1) →
  draw_individual draw_one names acc fs = (Py.Ok ind, fs') →
  NoDup acc.*1 → (∀ src, src ∈ acc → NoDup src.2.*1) →
  NoDup ind.*1 ∧ (∀ src, src ∈ ind → NoDup src.2.*1).
Proof.
  intros Hone. revert acc fs. induction names as [|name rest IH]; intros acc fs Hrun Hnd Hin.
  - by injection Hrun as <- _.
  - cbn [draw_individual] in Hrun. apply M_bind_inv in Hrun as (d & fs1 & Hd & Hrest).
    eapply IH; [exact Hrest|by apply od_set_keys_NoDup|].
    intros [g d'] Hsrc. apply od_set_elem_of in Hsrc as [Hsrc| ->].
    + by apply (Hin (g, d')).
    + simpl. by eapply Hone.
Qed.

Lemma individual_phase_keys env genomes_storage_db output_dir pathway_numbers color_hexcode
    lacking all_names draw_files draw_grid
    (ind : list string * list string * list string * list (string * list (string * bool)))
    (fs fs' : gmap string File) :
  individual_phase all_names
    (draw_one_genome env genomes_storage_db output_dir pathway_numbers color_hexcode lacking)
    draw_files draw_grid fs = (Py.Ok ind, fs') →
  NoDup ind.2.*1 ∧ (∀ src, src ∈ ind.2 → NoDup src.2.*1).
Proof.
  unfold individual_phase. intros Hrun.
  apply M_bind_inv in Hrun as (files_names & fs1 & _ & Hrun).
  apply M_bind_inv in Hrun as (grid_names & fs2 & _ & Hrun).
  apply M_bind_inv in Hrun as (individual & fs3 & Hind & Hret).
  injection Hret as <- _. simpl.
  eapply draw_individual_keys; [|exact Hind|constructor|by intros ? ?%elem_of_nil].
  intros name d fs0 fs1' Hone. unfold draw_one_genome, map_genomes_storage_genome_kos in Hone.
  by eapply map_kos_fixed_colors_keys.
Qed.

(** C10.  In a run of [map_pan_database_kos] that draws grids and does not
    draw maps lacking KOs, once the unified and the individual maps are
    drawn, if the map of some pathway was drawn for one genome and not drawn
    for another, the step filling in the empty maps raises a [TypeError]
    (the list of genome names is subscripted by a genome name) before it
    draws anything: the run ends with that exception on the file system the
    individual maps left, and no empty map is produced. *)
Theorem pan_grid_fill_in_type_error (env : Env)
    (pan_db genomes_storage_db output_dir : string)
    (pathway_numbers : option (list string))
    (draw_genome_files draw_grid : names_or_bool) (colormap : pan_colormap_arg)
    (colormap_limits : option (Q * Q)) (reverse_overlay : bool) (color_hexcode : string)
    (colorbar : bool) (fs fs1 fs2 : gmap string File)
    (u : list string * list (string * bool))
    (ind : list string * list string * list string * list (string * list (string * bool))) :
  is_False draw_grid = false →
  unified_phase_pan env pan_db genomes_storage_db output_dir pathway_numbers colormap
    colormap_limits reverse_overlay color_hexcode colorbar false fs = (Py.Ok u, fs1) →
  individual_phase (pan_genome_names env pan_db)
    (draw_one_genome env genomes_storage_db output_dir u.1 color_hexcode false)
    draw_genome_files draw_grid fs1 = (Py.Ok ind, fs2) →
  (∃ pathway_number genome1 genome2 drawn1 drawn2,
     Py.od_get genome1 ind.2 = Some drawn1 ∧
     Py.od_get pathway_number drawn1 = Some true ∧
     Py.od_get genome2 ind.2 = Some drawn2 ∧
     Py.od_get pathway_number drawn2 = Some false) →
  map_pan_database_kos env pan_db genomes_storage_db output_dir pathway_numbers
    draw_genome_files draw_grid colormap colormap_limits reverse_overlay color_hexcode
    colorbar false fs
  = (Py.Raise Py.TypeError, fs2).
Proof.
  intros Hgrid Hphase Hind (pn & g1 & g2 & d1 & d2 & Hg1 & Hd1 & Hg2 & Hd2).
  destruct (individual_phase_keys _ _ _ _ _ _ _ _ _ _ _ _ Hind) as [Hkeys Hinner].
  pose proof (table_get_by_pathway_number ind.2 pn g1 Hkeys Hinner) as Ht1.
  pose proof (table_get_by_pathway_number ind.2 pn g2 Hkeys Hinner) as Ht2.
  rewrite Hg1 in Ht1. rewrite Hg2 in Ht2. simpl in Ht1, Ht2. rewrite Hd1 in Ht1.
  rewrite Hd2 in Ht2. unfold table_get in Ht1, Ht2.
  destruct (Py.od_get pn (by_pathway_number ind.2)) as [inner|] eqn:Hinner_get; [|done].
  simpl in Ht1, Ht2.
  unfold map_pan_database_kos. rewrite (M_bind_ok _ _ _ _ _ Hphase).
  unfold draw_rest. rewrite Hgrid, andb_false_r.
  rewrite (M_bind_ok _ _ _ _ _ Hind). unfold grid_phase.
  apply M_bind_raise. apply fill_in_type_error. exists pn, inner.
  split; [by apply od_get_elem_of|].
  unfold not_mixed. apply negb_false_iff, andb_true_iff. split.
  - apply existsb_exists. exists true. split; [|done]. apply list_elem_of_In.
    apply list_elem_of_fmap. exists (g1, true). split; [done|]. by apply od_get_elem_of.
  - apply existsb_exists. exists false. split; [|done]. apply list_elem_of_In.
    apply list_elem_of_fmap. exists (g2, false). split; [done|]. by apply od_get_elem_of.
Qed.

(** The pangenome of [G1] and [G2] with a grid asked for map [00010]: the map
    is drawn for [G1] and not for [G2], and the run ends in the
    [TypeError]. *)
Lemma pan_grid_fill_in_type_error_witness :
  ∃ fs2,
    map_pan_database_kos Example.env "pan.db" "genomes.db" "out" (Some ["00010"])
      (ArgBool false) (ArgBool true) (PanCmapName "plasma_r") None false "#2ca02c" true
      false ∅
    = (Py.Raise Py.TypeError, fs2) ∧
    is_Some (fs2 !! "out/G1/kos_00010.pdf") ∧
    fs2 !! "out/G2/kos_00010.pdf" = None.
Proof.
  pose proof (pan_grid_fill_in_type_error Example.env "pan.db" "genomes.db" "out"
                (Some ["00010"]) (ArgBool false) (ArgBool true) (PanCmapName "plasma_r")
                None false "#2ca02c" true ∅) as Herr.
  set (run := unified_phase_pan Example.env "pan.db" "genomes.db" "out" (Some ["00010"])
                (PanCmapName "plasma_r") None false "#2ca02c" true false ∅) in *.
  set (ind := fun (u : list string * list (string * bool)) (fs1 : gmap string File) =>
                individual_phase (pan_genome_names Example.env "pan.db")
                  (draw_one_genome Example.env "genomes.db" "out" u.1 "#2ca02c" false)
                  (ArgBool false) (ArgBool true) fs1) in *.
  assert (Hok : Example.is_Ok run.1 = true) by (vm_compute; reflexivity).
  assert (Hok2 : Example.is_Ok (ind (Example.value ([], []) run.1) run.2).1 = true)
    by (vm_compute; reflexivity).
  assert (Htable :
            (Example.value ([], [], [], [])
               (ind (Example.value ([], []) run.1) run.2).1).2
            = [("G1", [("00010", true)]); ("G2", [("00010", false)])])
    by (vm_compute; reflexivity).
  assert (Hf1 : bool_decide
                  (is_Some ((ind (Example.value ([], []) run.1) run.2).2
                              !! "out/G1/kos_00010.pdf")) = true)
    by (vm_compute; reflexivity).
  assert (Hf2 : (ind (Example.value ([], []) run.1) run.2).2 !! "out/G2/kos_00010.pdf"
                = None)
    by (vm_compute; reflexivity).
  clearbody run. destruct run as [[u|e] fs1]; [|discriminate Hok].
  cbn [fst snd Example.value] in *.
  specialize (Herr fs1).
  destruct (ind u fs1) as [[i|e] fs2] eqn:Hind; [|discriminate Hok2].
  cbn [fst snd Example.value] in *. unfold ind in Hind. exists fs2.
  split; [|split; [exact (bool_decide_eq_true_1 _ Hf1)|exact Hf2]].
  apply (Herr fs2 u i eq_refl eq_refl Hind).
  exists "00010", "G1", "G2", [("00010", true)], [("00010", false)].
  rewrite Htable. by split_and!.
Defined.

End MapperProps.

(** ** The idiom that drops repeated names *)
Module UniqueFacts.
Import Py.

Section unique_facts.
Context {A : Type} `{EqDecision A}.
Implicit Types (x : A) (xs seen : list A).

Lemma elem_of_unique_from seen xs x :
  x ∈ unique_from seen xs ↔ x ∈ xs ∧ x ∉ seen.
Proof.
  revert seen. induction xs as [|y ys IH]; intros seen; simpl.
  - split; [by intros ?%elem_of_nil|by intros [?%elem_of_nil _]].
  - destruct (decide (y ∈ seen)) as [Hin|Hnotin].
    + rewrite IH, elem_of_cons. split; [naive_solver|].
      intros [[->|?] ?]; [done|by split].
    + rewrite !elem_of_cons, IH. split.
      * intros [->|[? Hn]]; [by split; [left|]|].
        apply not_elem_of_cons in Hn as [? ?]. by split; [right|].
      * intros [[->|?] ?]; [by left|].
        destruct (decide (x = y)) as [->|?]; [by left|right].
        split; [done|]. by apply not_elem_of_cons.
Qed.

Lemma NoDup_unique_from seen xs : NoDup (unique_from seen xs).
Proof.
  revert seen. induction xs as [|y ys IH]; intros seen; simpl; [constructor|].
  destruct (decide (y ∈ seen)); [done|].
  apply NoDup_cons. split; [|done].
  rewrite elem_of_unique_from. intros [_ Hn]. apply Hn. left.
Qed.

Lemma elem_of_unique xs x : x ∈ unique xs ↔ x ∈ xs.
Proof.
  unfold unique. rewrite elem_of_unique_from. split; [by intros [? _]|].
  intros ?. split; [done|]. by intros ?%elem_of_nil.
Qed.

Lemma NoDup_unique xs : NoDup (unique xs).
Proof. apply NoDup_unique_from. Qed.

Lemma unique_from_NoDup seen xs :
  NoDup xs → (∀ x, x ∈ xs → x ∉ seen) → unique_from seen xs = xs.
Proof.
  revert seen. induction xs as [|y ys IH]; intros seen Hnd Hdisj; simpl; [done|].
  apply NoDup_cons in Hnd as [Hy Hnd].
  rewrite decide_False by (apply Hdisj; left). f_equal. apply IH; [done|].
  intros x Hx. rewrite not_elem_of_cons. split.
  - intros ->. done.
  - apply Hdisj. by right.
Qed.

Lemma unique_NoDup xs : NoDup xs → unique xs = xs.
Proof. intros Hnd. apply unique_from_NoDup; [done|]. by intros x _ ?%elem_of_nil. Qed.

(** A run of copies of one element counts as a single occurrence. *)
Lemma unique_from_block seen x block rest :
  block ≠ [] → (∀ y, y ∈ block → y = x) →
  unique_from seen (block ++ rest) = unique_from seen (x :: rest).
Proof.
  revert seen. induction block as [|y block IH]; intros seen Hne Hall; [done|].
  assert (y = x) as -> by (apply Hall; left).
  destruct block as [|z block]; [done|].
  simpl. simpl in IH. destruct (decide (x ∈ seen)) as [Hin|Hnotin].
  - rewrite (IH seen); [|done|intros y Hy; apply Hall; by right].
    by rewrite decide_True.
  - rewrite (IH (x :: seen)); [|done|intros y Hy; apply Hall; by right].
    rewrite decide_True by left. done.
Qed.

End unique_facts.
End UniqueFacts.

(** ** Finding the maps to draw *)
Module FindMapsProps.
Import Py Kgml Mapper Derived MapperProps UniqueFacts.

Lemma patterns_select (env : Env) (patterns : list string) :
  NoDup (_get_pathway_numbers_from_patterns env patterns) ∧
  ∀ n, n ∈ _get_pathway_numbers_from_patterns env patterns ↔
       n ∈ available_pathway_numbers env ∧
       ∃ pattern, pattern ∈ patterns ∧ re_match env pattern n = true.
Proof.
  unfold _get_pathway_numbers_from_patterns. split; [apply NoDup_unique|].
  intros n. rewrite elem_of_unique, list_elem_of_join. split.
  - intros (l & Hn & Hl). apply list_elem_of_fmap in Hl as (pattern & -> & Hp).
    apply list_elem_of_In, filter_In in Hn as [Hn Hm]. apply list_elem_of_In in Hn.
    split; [done|]. by exists pattern.
  - intros (Hn & pattern & Hp & Hm).
    exists (List.filter (re_match env pattern) (available_pathway_numbers env)). split.
    + apply list_elem_of_In, filter_In. split; [by apply list_elem_of_In|done].
    + apply list_elem_of_fmap. by exists pattern.
Qed.

Lemma check_outputs_pure output_dir prefix pathway_numbers fs :
  (check_outputs output_dir prefix pathway_numbers fs).2 = fs.
Proof.
  induction pathway_numbers as [|n rest IH]; simpl; [done|].
  unfold mbind, M_bind, path_exists; simpl.
  destruct (bool_decide _); [done|]. apply IH.
Qed.

Lemma check_outputs_result output_dir prefix pathway_numbers fs :
  (check_outputs output_dir prefix pathway_numbers fs).1 = Ok tt ∨
  (check_outputs output_dir prefix pathway_numbers fs).1
    = Raise (ConfigError (overwrite_msg output_dir)).
Proof.
  induction pathway_numbers as [|n rest IH]; simpl; [by left|].
  unfold mbind, M_bind, path_exists; simpl.
  destruct (bool_decide _); [by right|]. apply IH.
Qed.

Lemma check_outputs_ok output_dir prefix pathway_numbers fs :
  (check_outputs output_dir prefix pathway_numbers fs).1 = Ok tt ↔
  ∀ n, n ∈ pathway_numbers → fs !! path_join output_dir (pdf_name prefix n) = None.
Proof.
  induction pathway_numbers as [|n rest IH]; simpl.
  - split; [by intros _ n ?%elem_of_nil|done].
  - unfold mbind, M_bind, path_exists; simpl.
    destruct (fs !! path_join output_dir (pdf_name prefix n)) as [f|] eqn:Hn.
    + rewrite bool_decide_true by done. simpl. split; [done|].
      intros Hall. specialize (Hall n). rewrite Hn in Hall.
      by discriminate Hall; left.
    + rewrite bool_decide_false by (by intros [? ?]). rewrite IH. split.
      * intros Hall m [->|Hm]%elem_of_cons; [done|by apply Hall].
      * intros Hall m Hm. apply Hall. by right.
Qed.

Lemma find_maps_spec (env : Env) (output_dir prefix : string)
    (patterns : option (list string)) (fs : gmap string File) :
  (_find_maps env output_dir prefix patterns fs).2 = fs ∧
  ((_find_maps env output_dir prefix patterns fs).1 = Ok (selected_numbers env patterns) ∨
   (_find_maps env output_dir prefix patterns fs).1
     = Raise (ConfigError (overwrite_msg output_dir))) ∧
  ((_find_maps env output_dir prefix patterns fs).1 = Ok (selected_numbers env patterns) ↔
   overwrite_output env = true ∨
   ∀ n, n ∈ selected_numbers env patterns →
        fs !! path_join output_dir (pdf_name prefix n) = None).
Proof.
  unfold _find_maps. fold (selected_numbers env patterns).
  set (numbers := selected_numbers env patterns).
  destruct (overwrite_output env) eqn:Hov.
  - unfold mbind, M_bind, mret, M_ret; simpl. split; [done|]. split; [by left|].
    split; [by left|done].
  - pose proof (check_outputs_pure output_dir prefix numbers fs) as Hpure.
    pose proof (check_outputs_result output_dir prefix numbers fs) as Hres.
    pose proof (check_outputs_ok output_dir prefix numbers fs) as Hok.
    unfold mbind, M_bind, mret, M_ret.
    destruct (check_outputs output_dir prefix numbers fs) as [[[]|e] fs1]; simpl in *.
    + subst fs1. split; [done|]. split; [by left|]. split; [|done].
      intros _. right. by apply Hok.
    + subst fs1. split; [done|]. destruct Hres as [?|Hres]; [done|].
      injection Hres as ->. split; [by right|].
      split; [done|]. intros [?|Hall]; [done|]. by apply Hok in Hall.
Qed.

(** X1.  [_get_pathway_numbers_from_patterns] returns every available
    pathway number matched by at least one of the patterns, and nothing
    else, each number once. *)
Theorem pathway_numbers_from_patterns_exact (env : Env) (patterns : list string) :
  NoDup (_get_pathway_numbers_from_patterns env patterns) ∧
  ∀ n, n ∈ _get_pathway_numbers_from_patterns env patterns ↔
       n ∈ available_pathway_numbers env ∧
       ∃ pattern, pattern ∈ patterns ∧ re_match env pattern n = true.
Proof. apply patterns_select. Qed.

(** X2.  [_find_maps] never changes the file system.  It returns the
    selected pathway numbers, or raises the [ConfigError] about overwritten
    outputs; it returns exactly when [overwrite_output] is on or none of the
    files [<prefix>_<number>.pdf] of the selected numbers is in the output
    directory. *)
Theorem find_maps_reads_only (env : Env) (output_dir prefix : string)
    (patterns : option (list string)) (fs : gmap string File) :
  (_find_maps env output_dir prefix patterns fs).2 = fs ∧
  ((_find_maps env output_dir prefix patterns fs).1 = Ok (selected_numbers env patterns) ∨
   (_find_maps env output_dir prefix patterns fs).1
     = Raise (ConfigError (overwrite_msg output_dir))) ∧
  ((_find_maps env output_dir prefix patterns fs).1 = Ok (selected_numbers env patterns) ↔
   overwrite_output env = true ∨
   ∀ n, n ∈ selected_numbers env patterns →
        fs !! path_join output_dir (pdf_name prefix n) = None).
Proof. apply find_maps_spec. Qed.

(** X3.  The multi-source methods hand the pathway numbers [_find_maps]
    resolved to the single-source methods, which resolve them again as
    patterns.  When a pathway number taken as a pattern matches, among the
    available numbers, itself only (as five-digit numbers do), resolving
    resolved numbers gives the same list, in the same order. *)
Theorem resolved_numbers_are_stable (env : Env) (patterns : list string) :
  (∀ a b, a ∈ available_pathway_numbers env → b ∈ available_pathway_numbers env →
          re_match env a b = true ↔ a = b) →
  _get_pathway_numbers_from_patterns env (_get_pathway_numbers_from_patterns env patterns)
  = _get_pathway_numbers_from_patterns env patterns.
Proof.
  intros Hlit.
  destruct (patterns_select env patterns) as [Hnd Helem].
  set (numbers := _get_pathway_numbers_from_patterns env patterns) in *.
  assert (Hsub : ∀ n, n ∈ numbers → n ∈ available_pathway_numbers env)
    by (intros n Hn; by apply Helem in Hn as [? _]).
  clearbody numbers. clear Helem.
  unfold _get_pathway_numbers_from_patterns at 1. unfold unique.
  rewrite <- (unique_from_NoDup [] numbers) at 2;
    [|done|by intros x _ ?%elem_of_nil].
  generalize (@nil string) as seen. clear Hnd.
  induction numbers as [|n rest IH]; intros seen; [done|].
  rewrite fmap_cons. simpl mjoin.
  rewrite (unique_from_block seen n).
  - simpl. destruct (decide (n ∈ seen)); [|f_equal]; apply IH;
      intros m Hm; apply Hsub; by right.
  - assert (Hn : n ∈ available_pathway_numbers env) by (apply Hsub; left).
    intros Hnil.
    assert (Hin : n ∈ List.filter (re_match env n) (available_pathway_numbers env)).
    { apply list_elem_of_In, filter_In. split; [by apply list_elem_of_In|].
      by apply Hlit. }
    rewrite Hnil in Hin. by apply elem_of_nil in Hin.
  - intros y Hy. apply list_elem_of_In, filter_In in Hy as [Hy Hm].
    apply list_elem_of_In in Hy. symmetry. apply Hlit; [|done|done].
    apply Hsub; left.
Qed.

Lemma resolved_numbers_are_stable_witness :
  _get_pathway_numbers_from_patterns Example.env
    (_get_pathway_numbers_from_patterns Example.env ["00020"; "00010"; "00020"])
  = _get_pathway_numbers_from_patterns Example.env ["00020"; "00010"; "00020"].
Proof.
  apply (resolved_numbers_are_stable Example.env ["00020"; "00010"; "00020"]).
  intros a b _ _. simpl. by rewrite bool_decide_eq_true.
Defined.

End FindMapsProps.

(** ** Output paths *)
Module PathFacts.
Import Mapper.

Lemma append_nil_l (b : string) : "" +:+ b = b.
Proof. reflexivity. Qed.

Lemma append_cons (x : Ascii.ascii) (a b : string) : String x a +:+ b = String x (a +:+ b).
Proof. reflexivity. Qed.

Lemma length_append (a b : string) :
  String.length (a +:+ b) = (String.length a + String.length b)%nat.
Proof.
  induction a as [|c a IH]; [done|]. rewrite append_cons. simpl. by rewrite IH.
Qed.

Lemma append_assoc (a b c : string) : (a +:+ b) +:+ c = a +:+ (b +:+ c).
Proof.
  induction a as [|x a IH]; [done|]. rewrite !append_cons. by rewrite IH.
Qed.

Lemma append_cancel_r (a b s : string) : a +:+ s = b +:+ s → a = b.
Proof.
  revert b. induction a as [|c a IH]; intros [|d b] Heq.
  - done.
  - apply (f_equal String.length) in Heq. rewrite !length_append in Heq. simpl in Heq. lia.
  - apply (f_equal String.length) in Heq. rewrite !length_append in Heq. simpl in Heq. lia.
  - rewrite !append_cons in Heq. injection Heq as -> Heq. f_equal. by apply IH.
Qed.

Lemma pdf_name_kos (n : string) : pdf_name "kos" n = "kos_" +:+ n +:+ ".pdf".
Proof. reflexivity. Qed.

Lemma prefix_sep_kos (x : string) : String.prefix "/" ("kos_" +:+ x) = false.
Proof. reflexivity. Qed.

Lemma path_join_pdf (a n : string) :
  path_join a (pdf_name "kos" n)
  = (if bool_decide (a = "") || ends_with_sep a then a else a +:+ "/") +:+ pdf_name "kos" n.
Proof.
  unfold path_join. rewrite pdf_name_kos, prefix_sep_kos.
  destruct (bool_decide (a = "") || ends_with_sep a); [done|].
  by rewrite append_assoc.
Qed.

Lemma out_path_of_inj output_dir : Inj (=) (=) (out_path_of output_dir).
Proof.
  intros n m. unfold out_path_of.
  rewrite !path_join_pdf.
  intros Heq%String.app_inj. rewrite !pdf_name_kos in Heq.
  apply String.app_inj in Heq. by apply append_cancel_r in Heq.
Qed.

Lemma out_path_of_ne_dir output_dir n : out_path_of output_dir n ≠ output_dir.
Proof.
  unfold out_path_of.
  rewrite !path_join_pdf.
  intros Heq%(f_equal String.length). rewrite length_append, pdf_name_kos in Heq.
  destruct (bool_decide (output_dir = "") || ends_with_sep output_dir);
    rewrite !length_append in Heq; simpl in Heq; lia.
Qed.

End PathFacts.

(** ** What drawing one map does to the output directory *)
Module DrawProps.
Import Py Kgml Mapper Derived MapperProps Outcomes PathFacts.

Lemma draw_to_spec env pathway out_path fs :
  draw_to env pathway out_path fs =
    if bool_decide (is_Some (fs !! out_path)) && negb (overwrite_output env)
    then (Raise FilesNPathsError, fs)
    else (Ok tt, <[out_path := MapPdf pathway]> fs).
Proof.
  unfold draw_to, mbind, M_bind, path_exists, os_remove, is_output_file_writable, write_file.
  simpl. destruct (fs !! out_path) as [f|] eqn:Hf.
  - rewrite bool_decide_true by done. simpl. destruct (overwrite_output env); simpl.
    + by rewrite insert_delete_eq.
    + by rewrite Hf.
  - rewrite bool_decide_false by (by intros [? ?]). simpl. by rewrite Hf.
Qed.

Lemma single_color_outcome env pathway_number ko_ids color_hexcode output_dir lacking fs :
  draw_outcome (out_path_of output_dir pathway_number)
    (draws_map env (fun id => bool_decide (id ∈ ko_ids)) lacking pathway_number) fs
    (_draw_map_kos_single_color env pathway_number ko_ids color_hexcode output_dir lacking fs).
Proof.
  unfold _draw_map_kos_single_color, draws_map.
  destruct (is_nil _ && negb lacking); simpl; [done|].
  rewrite M_bind_lift.
  destruct (color_entries_single _ _ _ _ _ _) as [store|e]; [|done].
  unfold mbind, M_bind. rewrite draw_to_spec.
  destruct (_ && _); simpl; done.
Qed.

Lemma original_color_outcome env pathway_number ko_ids output_dir lacking fs :
  draw_outcome (out_path_of output_dir pathway_number)
    (draws_map env (fun id => bool_decide (id ∈ ko_ids)) lacking pathway_number) fs
    (_draw_map_kos_original_color env pathway_number ko_ids output_dir lacking fs).
Proof.
  unfold _draw_map_kos_original_color, draws_map.
  destruct (is_nil _ && negb lacking); simpl; [done|].
  rewrite M_bind_lift.
  destruct (color_entries_original _ _ _ _ _ _) as [[store colors]|e]; [|done].
  unfold mbind, M_bind. rewrite draw_to_spec.
  destruct (_ && _); simpl; done.
Qed.

Lemma membership_outcome env pathway_number ko_membership color_priority output_dir
    colormap source_combos lacking fs :
  draw_outcome (out_path_of output_dir pathway_number)
    (draws_map env (fun id => bool_decide (is_Some (ko_membership !! id))) lacking
       pathway_number) fs
    (_draw_map_kos_membership env pathway_number ko_membership color_priority output_dir
       colormap source_combos lacking fs).
Proof.
  unfold _draw_map_kos_membership, draws_map.
  destruct (is_nil _ && negb lacking); simpl; [done|].
  rewrite M_bind_lift.
  destruct (color_entries_membership _ _ _ _ _ _ _ _) as [store|e]; [|done].
  unfold mbind, M_bind. rewrite draw_to_spec.
  destruct (_ && _); simpl; done.
Qed.

Lemma draw_fixed_outcome env ko_ids color_hexcode output_dir lacking pathway_number fs :
  draw_outcome (out_path_of output_dir pathway_number)
    (draws_map env (fun id => bool_decide (id ∈ ko_ids)) lacking pathway_number) fs
    (draw_fixed env ko_ids color_hexcode output_dir lacking pathway_number fs).
Proof.
  unfold draw_fixed. destruct (bool_decide _).
  - apply original_color_outcome.
  - apply single_color_outcome.
Qed.

End DrawProps.

(** ** The maps of one source *)
Module LoopProps.
Import Py Kgml Mapper Derived MapperProps Outcomes PathFacts UniqueFacts FindMapsProps DrawProps.

(** X4.  Each of [_draw_map_kos_single_color],
    [_draw_map_kos_original_color] and [_draw_map_kos_membership] returns
    [False] exactly when no entry of the map is selected and
    [draw_map_lacking_kos] is off, leaving the file system as it was; an
    exception leaves it as it was too; on [True] the only change is that
    [kos_<number>.pdf] in the output directory holds the drawn pathway. *)
Theorem map_drawing_changes_one_file (env : Env) (pathway_number : string)
    (ko_ids : list string) (color_hexcode output_dir : string)
    (ko_membership : gmap string (list string)) (color_priority : list (string * Q))
    (colormap : Colormap) (source_combos : option (list (list string)))
    (draw_map_lacking_kos : bool) (fs : gmap string File) :
  let out_path := out_path_of output_dir pathway_number in
  let by_id := draws_map env (fun id => bool_decide (id ∈ ko_ids)) draw_map_lacking_kos
                 pathway_number in
  let by_membership :=
    draws_map env (fun id => bool_decide (is_Some (ko_membership !! id)))
      draw_map_lacking_kos pathway_number in
  draw_outcome out_path by_id fs
    (_draw_map_kos_single_color env pathway_number ko_ids color_hexcode output_dir
       draw_map_lacking_kos fs) ∧
  draw_outcome out_path by_id fs
    (_draw_map_kos_original_color env pathway_number ko_ids output_dir
       draw_map_lacking_kos fs) ∧
  draw_outcome out_path by_membership fs
    (_draw_map_kos_membership env pathway_number ko_membership color_priority output_dir
       colormap source_combos draw_map_lacking_kos fs).
Proof.
  intros out_path by_id by_membership. split; [|split].
  - apply single_color_outcome.
  - apply original_color_outcome.
  - apply membership_outcome.
Qed.

Lemma elem_of_od_set_keys {V} (k n : string) (v : V) (d : list (string * V)) :
  n ∈ od_keys (od_set k v d) ↔ n = k ∨ n ∈ od_keys d.
Proof.
  unfold od_keys. induction d as [|[k' v'] d IH]; simpl.
  - rewrite list_elem_of_singleton. split; [by left|]. by intros [?|?%elem_of_nil].
  - destruct (decide (k = k')) as [->|Hne]; simpl.
    + rewrite elem_of_cons. naive_solver.
    + rewrite !elem_of_cons, IH. naive_solver.
Qed.

Section draw_loop.
Context (draw : string → M (bool * Pathway)) (P : string → string) (wd : string → bool).
Context (HP : Inj (=) (=) P).
Context (Hdraw : ∀ n fs, draw_outcome (P n) (wd n) fs (draw n fs)).

(** The loop changes no path other than the outputs of its maps, whatever
    its outcome. *)
Lemma draw_loop_frame pathway_numbers drawn fs path :
  (∀ n, n ∈ pathway_numbers → path ≠ P n) →
  (draw_loop draw pathway_numbers drawn fs).2 !! path = fs !! path.
Proof.
  revert drawn fs. induction pathway_numbers as [|n rest IH]; intros drawn fs Hpath; [done|].
  cbn [draw_loop]. unfold mbind at 1, M_bind at 1.
  pose proof (Hdraw n fs) as Hn.
  destruct (draw n fs) as [[[b p]|e] fs1]; simpl in Hn.
  - rewrite IH by (intros m Hm; apply Hpath; by right).
    destruct Hn as [_ Hn]. destruct b; subst fs1; [|done].
    apply lookup_insert_ne. intros Heq. by apply (Hpath n); [left|].
  - by destruct Hn as [-> _].
Qed.

Lemma draw_loop_table fs0 pathway_numbers drawn fs drawn' fs' :
  draw_loop draw pathway_numbers drawn fs = (Ok drawn', fs') →
  loop_inv P wd fs0 drawn fs →
  loop_inv P wd fs0 drawn' fs' ∧
  ∀ n, n ∈ od_keys drawn' ↔ n ∈ od_keys drawn ∨ n ∈ pathway_numbers.
Proof.
  revert drawn fs. induction pathway_numbers as [|n rest IH]; intros drawn fs Hrun Hinv.
  - injection Hrun as <- <-. split; [done|]. intros n. rewrite elem_of_nil. naive_solver.
  - cbn [draw_loop] in Hrun. apply M_bind_inv in Hrun as ([b p] & fs1 & Hn & Hrest).
    pose proof (Hdraw n fs) as Hspec. rewrite Hn in Hspec. simpl in Hspec.
    destruct Hspec as [Hb Hfs1]. simpl in Hrest.
    apply IH in Hrest as [Hinv' Hkeys].
    + split; [done|]. intros m. rewrite Hkeys, elem_of_od_set_keys, elem_of_cons.
      naive_solver.
    + destruct Hinv as (Hwd & Htrue & Hother). split; [|split].
      * intros m b'. destruct (decide (n = m)) as [->|Hne].
        -- rewrite PyFacts.od_get_set_eq. by intros [= <-].
        -- rewrite PyFacts.od_get_set_ne by done. apply Hwd.
      * intros m. destruct (decide (n = m)) as [->|Hne].
        -- rewrite PyFacts.od_get_set_eq. intros [= ->]. subst fs1.
           exists p. apply lookup_insert_eq.
        -- rewrite PyFacts.od_get_set_ne by done. intros Hm.
           destruct (Htrue m Hm) as [q Hq]. exists q.
           destruct b; subst fs1; [|done].
           rewrite lookup_insert_ne; [done|]. intros Heq. by apply HP in Heq.
      * intros m. destruct (decide (n = m)) as [->|Hne].
        -- rewrite PyFacts.od_get_set_eq. intros Hnt.
           destruct b; [done|]. subst fs1. apply Hother.
           intros Hm. apply Hwd in Hm. congruence.
        -- rewrite PyFacts.od_get_set_ne by done. intros Hm.
           rewrite <- (Hother m Hm). destruct b; subst fs1; [|done].
           apply lookup_insert_ne. intros Heq. by apply HP in Heq.
Qed.

End draw_loop.

Lemma gen_output_directory_spec output_dir fs :
  ∃ fs', gen_output_directory output_dir fs = (Ok tt, fs') ∧
         is_Some (fs' !! output_dir) ∧
         ∀ path, path ≠ output_dir → fs' !! path = fs !! path.
Proof.
  unfold gen_output_directory. eexists. split; [reflexivity|].
  destruct (fs !! output_dir) eqn:Hd.
  - split; [by rewrite Hd|done].
  - split; [by rewrite lookup_insert_eq|]. intros path Hne. by apply lookup_insert_ne.
Qed.

Lemma map_kos_fixed_colors_table (env : Env) (ko_ids : list string)
    (output_dir : string) (patterns : option (list string)) (color_hexcode : string)
    (draw_maps_lacking_kos : bool) (fs fs' : gmap string File)
    (drawn : list (string * bool)) :
  _map_kos_fixed_colors env ko_ids output_dir patterns color_hexcode
    draw_maps_lacking_kos fs = (Ok drawn, fs') →
  (∀ n, n ∈ od_keys drawn ↔ n ∈ selected_numbers env patterns) ∧
  (∀ n b, od_get n drawn = Some b →
     b = draws_map env (fun id => bool_decide (id ∈ ko_ids)) draw_maps_lacking_kos n) ∧
  (∀ n, od_get n drawn = Some true →
     ∃ pathway, fs' !! out_path_of output_dir n = Some (MapPdf pathway)) ∧
  (∀ n, od_get n drawn = Some false →
     fs' !! out_path_of output_dir n = fs !! out_path_of output_dir n) ∧
  (overwrite_output env = false →
   ∀ n, od_get n drawn = Some false → fs' !! out_path_of output_dir n = None) ∧
  is_Some (fs' !! output_dir).
Proof.
  unfold _map_kos_fixed_colors. intros Hrun.
  apply M_bind_inv in Hrun as (numbers & fs1 & Hfind & Hrun).
  apply M_bind_inv in Hrun as ([] & fs2 & Hgen & Hrun).
  destruct (find_maps_spec env output_dir "kos" patterns fs) as (Hfs1 & _ & Hiff).
  rewrite Hfind in Hfs1, Hiff. simpl in Hfs1, Hiff. subst fs1.
  assert (Hnum : numbers = selected_numbers env patterns).
  { destruct (find_maps_spec env output_dir "kos" patterns fs) as (_ & [H|H] & _);
      rewrite Hfind in H; simpl in H; congruence. }
  subst numbers.
  destruct (gen_output_directory_spec output_dir fs) as (fs2' & Hgen' & Hdir & Hframe).
  rewrite Hgen in Hgen'. injection Hgen' as <-.
  pose proof (draw_loop_table _ (out_path_of output_dir) _ (out_path_of_inj output_dir)
                (draw_fixed_outcome env ko_ids color_hexcode output_dir draw_maps_lacking_kos)
                fs2 _ _ _ _ _ Hrun) as Htable.
  destruct Htable as [(Hwd & Htrue & Hother) Hkeys].
  { split; [done|]. split; [done|]. done. }
  split; [|split; [|split; [|split; [|split]]]].
  - intros n. rewrite Hkeys. unfold od_keys at 1. simpl. rewrite elem_of_nil. naive_solver.
  - exact Hwd.
  - exact Htrue.
  - intros n Hn. rewrite Hother by congruence. apply Hframe, out_path_of_ne_dir.
  - intros Hov n Hn. rewrite Hother by congruence.
    rewrite Hframe by apply out_path_of_ne_dir.
    assert (Hok : Ok (selected_numbers env patterns) = Ok (selected_numbers env patterns))
      by done.
    apply Hiff in Hok as [Hov'|Hnone]; [congruence|]. apply Hnone.
    assert (Hin : n ∈ od_keys drawn).
    { unfold od_keys. apply list_elem_of_fmap.
      exists (n, false). split; [done|]. by apply od_get_elem_of. }
    apply Hkeys in Hin as [Hin|Hin]; [by apply elem_of_nil in Hin|done].
  - pose proof (draw_loop_frame _ (out_path_of output_dir) _
                  (draw_fixed_outcome env ko_ids color_hexcode output_dir
                     draw_maps_lacking_kos)
                  (selected_numbers env patterns) [] fs2 output_dir) as Hfr.
    rewrite Hrun in Hfr. simpl in Hfr. rewrite Hfr; [done|].
    intros n _ Heq. by apply (out_path_of_ne_dir output_dir n).
Qed.

(** X5.  When [_map_kos_fixed_colors] (so [map_contigs_database_kos] and
    [map_genomes_storage_genome_kos]) returns, the keys of [drawn] are the
    selected pathway numbers; a value says whether the map holds a selected
    entry or maps lacking KOs are drawn; the file of a map recorded [True]
    holds that map; the path of a map recorded [False] is as before the
    call, and is free when [overwrite_output] is off; and the output
    directory exists. *)
Theorem fixed_colors_table_matches_files (env : Env) (ko_ids : list string)
    (output_dir : string) (patterns : option (list string)) (color_hexcode : string)
    (draw_maps_lacking_kos : bool) (fs fs' : gmap string File)
    (drawn : list (string * bool)) :
  _map_kos_fixed_colors env ko_ids output_dir patterns color_hexcode
    draw_maps_lacking_kos fs = (Ok drawn, fs') →
  (∀ n, n ∈ od_keys drawn ↔ n ∈ selected_numbers env patterns) ∧
  (∀ n b, od_get n drawn = Some b →
     b = draws_map env (fun id => bool_decide (id ∈ ko_ids)) draw_maps_lacking_kos n) ∧
  (∀ n, od_get n drawn = Some true →
     ∃ pathway, fs' !! out_path_of output_dir n = Some (MapPdf pathway)) ∧
  (∀ n, od_get n drawn = Some false →
     fs' !! out_path_of output_dir n = fs !! out_path_of output_dir n) ∧
  (overwrite_output env = false →
   ∀ n, od_get n drawn = Some false → fs' !! out_path_of output_dir n = None) ∧
  is_Some (fs' !! output_dir).
Proof. apply map_kos_fixed_colors_table. Qed.

Lemma fixed_colors_table_matches_files_witness :
  ∃ drawn fs',
    _map_kos_fixed_colors Example.env ["K00001"] "out" None "#2ca02c" false ∅
    = (Ok drawn, fs') ∧
    drawn = [("00010", true); ("00020", false)] ∧
    (∀ n, od_get n drawn = Some true →
       ∃ pathway, fs' !! out_path_of "out" n = Some (MapPdf pathway)) ∧
    (∀ n, od_get n drawn = Some false → fs' !! out_path_of "out" n = None).
Proof.
  pose proof (fixed_colors_table_matches_files Example.env ["K00001"] "out" None "#2ca02c"
                false ∅) as Hthm.
  set (run := _map_kos_fixed_colors Example.env ["K00001"] "out" None "#2ca02c" false ∅)
    in *.
  assert (Hok : Example.is_Ok run.1 = true) by (vm_compute; reflexivity).
  assert (Hd : Example.value [] run.1 = [("00010", true); ("00020", false)])
    by (vm_compute; reflexivity).
  clearbody run. destruct run as [[drawn|e] fs']; [|discriminate Hok].
  exists drawn, fs'. split; [reflexivity|]. split; [exact Hd|].
  destruct (Hthm fs' drawn eq_refl) as (_ & _ & Htrue & _ & Hfalse & _).
  split; [exact Htrue|]. exact (Hfalse eq_refl).
Defined.

(** X6.  Whatever its outcome, [_map_kos_fixed_colors] changes nothing in
    the file system besides the output directory and the files
    [kos_<number>.pdf] of the selected pathway numbers in it. *)
Theorem fixed_colors_changes_only_outputs (env : Env) (ko_ids : list string)
    (output_dir : string) (patterns : option (list string)) (color_hexcode : string)
    (draw_maps_lacking_kos : bool) (fs : gmap string File) (path : string) :
  path ≠ output_dir →
  (∀ n, n ∈ selected_numbers env patterns → path ≠ out_path_of output_dir n) →
  (_map_kos_fixed_colors env ko_ids output_dir patterns color_hexcode
     draw_maps_lacking_kos fs).2 !! path = fs !! path.
Proof.
  intros Hdir Hout. unfold _map_kos_fixed_colors.
  destruct (find_maps_spec env output_dir "kos" patterns fs) as (Hfs & Hres & _).
  unfold mbind at 1, M_bind at 1.
  destruct (_find_maps env output_dir "kos" patterns fs) as [[numbers|e] fs1];
    simpl in Hfs, Hres; subst fs1; [|done].
  destruct Hres as [[= ->]|?]; [|done].
  destruct (gen_output_directory_spec output_dir fs) as (fs2 & Hgen & _ & Hframe).
  unfold mbind at 1, M_bind at 1. rewrite Hgen.
  rewrite (draw_loop_frame _ (out_path_of output_dir) _
             (draw_fixed_outcome env ko_ids color_hexcode output_dir draw_maps_lacking_kos))
    by done.
  by apply Hframe.
Qed.

Lemma fixed_colors_changes_only_outputs_witness :
  (_map_kos_fixed_colors Example.env ["K00001"] "out" (Some ["00010"]) "#2ca02c" false
     {[ "out/kos_00020.pdf" := Directory ]}).2 !! "out/kos_00020.pdf" = Some Directory.
Proof.
  rewrite (fixed_colors_changes_only_outputs Example.env ["K00001"] "out" (Some ["00010"])
             "#2ca02c" false {[ "out/kos_00020.pdf" := Directory ]} "out/kos_00020.pdf").
  - reflexivity.
  - discriminate.
  - intros n Hn. vm_compute in Hn. apply list_elem_of_singleton in Hn as ->. discriminate.
Defined.

End LoopProps.

(** ** The sources of the KOs *)
Module SourcesProps.
Import Py Kgml Mapper Derived MapperProps Outcomes PathFacts UniqueFacts FindMapsProps
  DrawProps LoopProps.

Lemma load_project_names_gen env (contigs_dbs : list string) (acc : list (string * string)) :
  NoDup (od_keys acc) →
  match load_project_names env contigs_dbs acc with
  | Ok project_names =>
      project_names = acc ++ ((fun db => (project_name_of env db, db)) <$> contigs_dbs) ∧
      NoDup (od_keys acc ++ (project_name_of env <$> contigs_dbs)) ∧
      (∀ db, db ∈ contigs_dbs → has_kofam env db = true)
  | Raise e =>
      e = AssertionError ∧
      (¬ NoDup (od_keys acc ++ (project_name_of env <$> contigs_dbs)) ∨
       ∃ db, db ∈ contigs_dbs ∧ has_kofam env db = false)
  end.
Proof.
  revert acc. induction contigs_dbs as [|db rest IH]; intros acc Hnd.
  - simpl. rewrite !app_nil_r. split; [done|]. split; [done|]. by intros db ?%elem_of_nil.
  - cbn [load_project_names]. destruct (has_kofam env db) eqn:Hk; cbn [assert].
    2:{ rewrite result_bind_raise. split; [done|]. right. exists db. split; [left|done]. }
    rewrite result_bind_ok.
    destruct (bool_decide_reflect (project_name_of env db ∈ od_keys acc)) as [Hin|Hnin];
      cbn [negb assert].
    { rewrite result_bind_raise. split; [done|]. left. intros Hnd'.
      apply NoDup_app in Hnd' as (_ & Hdisj & _). apply (Hdisj _ Hin). left. }
    rewrite result_bind_ok.
    assert (Hkeys : od_keys (od_set (project_name_of env db) db acc)
                    = od_keys acc ++ [project_name_of env db]).
    { rewrite PyFacts.od_keys_set_new by done. unfold od_keys. by rewrite fmap_app. }
    assert (Hnd1 : NoDup (od_keys (od_set (project_name_of env db) db acc))).
    { rewrite Hkeys. apply NoDup_app. split_and!; [done| |apply NoDup_singleton].
      by intros x Hx ->%list_elem_of_singleton. }
    specialize (IH _ Hnd1). rewrite Hkeys, <- app_assoc in IH. simpl in IH.
    destruct (load_project_names env rest _) as [pn|e].
    + destruct IH as (-> & Hnd' & Hall). split; [|split; [done|]].
      * rewrite PyFacts.od_keys_set_new by done. by rewrite <- app_assoc.
      * intros db' [->|Hdb]%elem_of_cons; [done|by apply Hall].
    + destruct IH as (-> & [Hnd'|(db' & Hdb & Hk')]); (split; [done|]).
      * by left.
      * right. exists db'. split; [by right|done].
Qed.

(** X7.  Loading the metadata of the contigs databases in
    [map_contigs_databases_kos] gives [project_names] with one key per
    database, in the order of [contigs_dbs], each mapped to its database,
    exactly when every database has KOfam annotations and no two databases
    share a project name; otherwise it stops on an [AssertionError]. *)
Theorem load_project_names_exact (env : Env) (contigs_dbs : list string) :
  match load_project_names env contigs_dbs [] with
  | Ok project_names =>
      project_names = (fun db => (project_name_of env db, db)) <$> contigs_dbs ∧
      NoDup (project_name_of env <$> contigs_dbs) ∧
      (∀ db, db ∈ contigs_dbs → has_kofam env db = true)
  | Raise e =>
      e = AssertionError ∧
      (¬ NoDup (project_name_of env <$> contigs_dbs) ∨
       ∃ db, db ∈ contigs_dbs ∧ has_kofam env db = false)
  end.
Proof.
  pose proof (load_project_names_gen env contigs_dbs []) as H.
  simpl in H. apply H. constructor.
Qed.

Lemma sources_of_append_at k x table ko :
  sources_of (append_at k x table) ko
  = if decide (k = ko) then sources_of table ko ++ [x] else sources_of table ko.
Proof.
  unfold sources_of, append_at. destruct (decide (k = ko)) as [->|Hne].
  - destruct (table !! ko) as [xs|] eqn:Hko; rewrite lookup_insert_eq; simpl; done.
  - destruct (table !! k); by rewrite lookup_insert_ne.
Qed.

Lemma lookup_append_at_is_Some k x table ko :
  is_Some (append_at k x table !! ko) ↔ k = ko ∨ is_Some (table !! ko).
Proof.
  unfold append_at. destruct (decide (k = ko)) as [->|Hne].
  - destruct (table !! ko) eqn:Hko; rewrite lookup_insert_eq; naive_solver.
  - destruct (table !! k); rewrite lookup_insert_ne by done; naive_solver.
Qed.

Lemma fold_kos_sources p kos table ko :
  sources_of (foldl (fun ko_dbs ko_id => append_at ko_id p ko_dbs) table kos) ko
  = sources_of table ko ++ ((fun _ => p) <$> List.filter (fun k => bool_decide (k = ko)) kos).
Proof.
  revert table. induction kos as [|k kos IH]; intros table; simpl.
  - by rewrite app_nil_r.
  - rewrite IH, sources_of_append_at.
    destruct (decide (k = ko)) as [->|Hne].
    + rewrite bool_decide_true by done. simpl. by rewrite <- app_assoc.
    + by rewrite bool_decide_false.
Qed.

Lemma fold_kos_is_Some p kos table ko :
  is_Some (foldl (fun ko_dbs ko_id => append_at ko_id p ko_dbs) table kos !! ko)
  ↔ ko ∈ kos ∨ is_Some (table !! ko).
Proof.
  revert table. induction kos as [|k kos IH]; intros table; simpl.
  - rewrite elem_of_nil. naive_solver.
  - rewrite IH, lookup_append_at_is_Some, elem_of_cons. naive_solver.
Qed.

Lemma find_ko_dbs_gen env project_names table ko :
  let result :=
    foldl (fun ko_dbs pn =>
             foldl (fun ko_dbs ko_id => append_at ko_id pn.1 ko_dbs) ko_dbs
                   (contigs_db_kos env pn.2))
          table project_names in
  sources_of result ko
  = sources_of table ko ++
    mjoin ((fun pn => (fun _ => pn.1) <$>
                        List.filter (fun k => bool_decide (k = ko)) (contigs_db_kos env pn.2))
             <$> project_names) ∧
  (is_Some (result !! ko) ↔
   is_Some (table !! ko) ∨ ∃ pn, pn ∈ project_names ∧ ko ∈ contigs_db_kos env pn.2).
Proof.
  revert table. induction project_names as [|pn rest IH]; intros table; simpl.
  - rewrite app_nil_r. split; [done|]. split; [by left|].
    intros [?|(? & ?%elem_of_nil & _)]; done.
  - destruct (IH (foldl (fun ko_dbs ko_id => append_at ko_id pn.1 ko_dbs) table
                    (contigs_db_kos env pn.2))) as [Hs Hi].
    simpl in Hs, Hi. rewrite Hs, Hi. rewrite fold_kos_sources, fold_kos_is_Some.
    split; [by rewrite <- app_assoc|]. split.
    + intros [[Hko|?]|(pn' & Hpn & Hko)]; [|by left|].
      * right. exists pn. split; [left|done].
      * right. exists pn'. split; [by right|done].
    + intros [?|(pn' & [->|Hpn]%elem_of_cons & Hko)]; [left; by right|left; by left|].
      right. by exists pn'.
Qed.

Lemma elem_of_const_fmap_filter {A} (f : A → bool) (x y : string) (l : list A) :
  x ∈ (fun _ => y) <$> List.filter f l ↔ x = y ∧ ∃ a, a ∈ l ∧ f a = true.
Proof.
  rewrite list_elem_of_fmap. split.
  - intros (a & -> & Ha). split; [done|]. exists a.
    apply list_elem_of_In, filter_In in Ha as [Ha Hf]. by apply list_elem_of_In in Ha.
  - intros (-> & a & Ha & Hf). exists a. split; [done|].
    apply list_elem_of_In, filter_In. by split; [apply list_elem_of_In|].
Qed.

(** X8.  [ko_dbs] of [map_contigs_databases_kos]: a project is listed for a
    KO exactly when its database holds the KO; a KO is a key exactly when
    some database holds it, and its list is never empty; and when the
    project names are distinct and no database lists a KO twice, the list of
    a KO is the projects holding it, each once, in the order of
    [project_names]. *)
Theorem ko_dbs_lists_the_databases_with_the_ko (env : Env)
    (project_names : list (string * string)) (ko : string) :
  (∀ p, p ∈ sources_of (find_ko_dbs env project_names) ko ↔
        ∃ db, (p, db) ∈ project_names ∧ ko ∈ contigs_db_kos env db) ∧
  (is_Some (find_ko_dbs env project_names !! ko) ↔
   ∃ p db, (p, db) ∈ project_names ∧ ko ∈ contigs_db_kos env db) ∧
  (∀ sources, find_ko_dbs env project_names !! ko = Some sources → sources ≠ []) ∧
  (NoDup (od_keys project_names) →
   (∀ p db, (p, db) ∈ project_names → NoDup (contigs_db_kos env db)) →
   sources_of (find_ko_dbs env project_names) ko
   = (List.filter (fun pn => bool_decide (ko ∈ contigs_db_kos env pn.2)) project_names).*1).
Proof.
  destruct (find_ko_dbs_gen env project_names ∅ ko) as [Hs Hi]. simpl in Hs, Hi.
  fold (find_ko_dbs env project_names) in Hs, Hi.
  assert (Hmem : ∀ p, p ∈ sources_of (find_ko_dbs env project_names) ko ↔
                      ∃ db, (p, db) ∈ project_names ∧ ko ∈ contigs_db_kos env db).
  { intros p. rewrite Hs. unfold sources_of at 1. rewrite lookup_empty. simpl.
    rewrite list_elem_of_join. split.
    - intros (l & Hp & Hl). apply list_elem_of_fmap in Hl as ([p' db] & -> & Hpn).
      apply elem_of_const_fmap_filter in Hp as (-> & k & Hk & Heq).
      apply bool_decide_eq_true in Heq as ->. by exists db.
    - intros (db & Hpn & Hko). eexists. split; [|apply list_elem_of_fmap; by eexists].
      simpl. apply elem_of_const_fmap_filter. split; [done|]. exists ko.
      split; [done|]. by apply bool_decide_eq_true. }
  assert (Hsome : is_Some (find_ko_dbs env project_names !! ko) ↔
                  ∃ p db, (p, db) ∈ project_names ∧ ko ∈ contigs_db_kos env db).
  { rewrite Hi, lookup_empty. split.
    - intros [[? [=]]|([p db] & Hpn & Hko)]. by exists p, db.
    - intros (p & db & Hpn & Hko). right. by exists (p, db). }
  split; [exact Hmem|]. split; [exact Hsome|]. split.
  - intros sources Hlook ->.
    assert (His : is_Some (find_ko_dbs env project_names !! ko)) by by rewrite Hlook.
    apply Hsome in His as (p & db & Hpn & Hko).
    assert (Hp : p ∈ sources_of (find_ko_dbs env project_names) ko)
      by (apply Hmem; by exists db).
    unfold sources_of in Hp. rewrite Hlook in Hp. by apply elem_of_nil in Hp.
  - intros _ Hkos. rewrite Hs. unfold sources_of. rewrite lookup_empty. simpl.
    clear Hs Hi Hmem Hsome.
    induction project_names as [|[p db] rest IH]; [done|].
    rewrite fmap_cons. simpl.
    assert (Hnd : NoDup (contigs_db_kos env db)) by (apply (Hkos p); left).
    rewrite IH by (intros p' db' Hin; apply (Hkos p'); by right).
    assert (Hblock : (fun _ => p) <$>
                       List.filter (fun k => bool_decide (k = ko)) (contigs_db_kos env db)
                     = if bool_decide (ko ∈ contigs_db_kos env db) then [p] else []).
    { clear -Hnd. induction (contigs_db_kos env db) as [|k kos IHk]; [done|].
      apply NoDup_cons in Hnd as [Hk Hnd]. simpl.
      destruct (bool_decide_reflect (k = ko)) as [->|Hne].
      - rewrite (bool_decide_true (ko ∈ ko :: kos)) by left. rewrite fmap_cons.
        rewrite IHk by done. by rewrite bool_decide_false.
      - rewrite IHk by done.
        destruct (bool_decide_reflect (ko ∈ kos)) as [Hin|Hnin].
        + by rewrite bool_decide_true by by right.
        + rewrite bool_decide_false; [done|]. by intros [?|?]%elem_of_cons. }
    rewrite Hblock. by destruct (bool_decide _).
Qed.

End SourcesProps.

Module PanSourcesProps.
Import Py Kgml Mapper Derived MapperProps Outcomes PathFacts UniqueFacts FindMapsProps
  DrawProps LoopProps SourcesProps.

Lemma is_nil_false {A} (xs : list A) : is_nil xs = false ↔ xs ≠ [].
Proof. by destruct xs. Qed.

Lemma fold_genomes_sources (k : string) (items : list (string * list Z)) table ko g :
  let result :=
    foldl (fun ko_genomes gg =>
             if is_nil gg.2 then ko_genomes else append_at k gg.1 ko_genomes)
          table items in
  (g ∈ sources_of result ko ↔
   g ∈ sources_of table ko ∨ (k = ko ∧ ∃ gcids, (g, gcids) ∈ items ∧ gcids ≠ [])) ∧
  (is_Some (result !! ko) ↔
   is_Some (table !! ko) ∨ (k = ko ∧ ∃ g' gcids, (g', gcids) ∈ items ∧ gcids ≠ [])).
Proof.
  revert table. induction items as [|[g' gcids] items IH]; intros table; simpl.
  - setoid_rewrite elem_of_nil. naive_solver.
  - destruct (IH (if is_nil gcids then table else append_at k g' table)) as [Hs Hi].
    simpl in Hs, Hi. rewrite Hs, Hi. clear Hs Hi IH.
    setoid_rewrite elem_of_cons.
    destruct gcids as [|z gcids]; simpl.
    + split; naive_solver.
    + rewrite sources_of_append_at, lookup_append_at_is_Some.
      destruct (decide (k = ko)) as [->|Hne].
      * rewrite elem_of_app, list_elem_of_singleton. split; [naive_solver|].
        split; [|naive_solver]. intros _. right. split; [done|].
        exists g', (z :: gcids). split; [by left|done].
      * split; naive_solver.
Qed.

Lemma find_ko_genomes_gen env pan_db gs (consensus : list (string * string)) table ko g :
  let result :=
    foldl (fun ko_genomes ck =>
             foldl (fun ko_genomes gg =>
                      if is_nil gg.2 then ko_genomes
                      else append_at ck.2 gg.1 ko_genomes)
                   ko_genomes (pan_gene_clusters env pan_db gs ck.1))
          table consensus in
  (g ∈ sources_of result ko ↔
   g ∈ sources_of table ko ∨
   ∃ cluster gcids, (cluster, ko) ∈ consensus ∧
                    (g, gcids) ∈ pan_gene_clusters env pan_db gs cluster ∧ gcids ≠ []) ∧
  (is_Some (result !! ko) ↔
   is_Some (table !! ko) ∨
   ∃ cluster g' gcids, (cluster, ko) ∈ consensus ∧
                       (g', gcids) ∈ pan_gene_clusters env pan_db gs cluster ∧ gcids ≠ []).
Proof.
  revert table. induction consensus as [|[cluster k] rest IH]; intros table; simpl.
  - setoid_rewrite elem_of_nil. naive_solver.
  - match goal with |- context [foldl _ (foldl ?f table ?items) rest] =>
      destruct (IH (foldl f table items)) as [Hs Hi];
      destruct (fold_genomes_sources k items table ko g) as [Hs' Hi']
    end.
    simpl in Hs, Hi, Hs', Hi'. rewrite Hs, Hi, Hs', Hi'. clear.
    setoid_rewrite elem_of_cons. split; naive_solver.
Qed.

(** X9.  [ko_genomes] of [map_pan_database_kos]: a genome is listed for a
    consensus KO exactly when it contributes a gene to a gene cluster
    represented by the KO; the list of a KO has no repeats and is never
    empty. *)
Theorem ko_genomes_lists_the_genomes_with_the_ko (env : Env)
    (pan_db genomes_storage_db : string) (consensus : list (string * string))
    (ko : string) :
  let ko_genomes := find_ko_genomes env pan_db genomes_storage_db consensus in
  (∀ g, g ∈ sources_of ko_genomes ko ↔
        ∃ cluster gcids,
          (cluster, ko) ∈ consensus ∧
          (g, gcids) ∈ pan_gene_clusters env pan_db genomes_storage_db cluster ∧
          gcids ≠ []) ∧
  NoDup (sources_of ko_genomes ko) ∧
  (∀ genomes, ko_genomes !! ko = Some genomes → genomes ≠ []).
Proof.
  intros ko_genomes. unfold ko_genomes, find_ko_genomes.
  match goal with |- context [remove_dups <$> ?t] => set (table := t) end.
  assert (Hsrc : sources_of (remove_dups <$> table) ko = remove_dups (sources_of table ko)).
  { unfold sources_of. rewrite lookup_fmap. by destruct (table !! ko). }
  assert (Hmem : ∀ g, g ∈ sources_of (remove_dups <$> table) ko ↔
                      ∃ cluster gcids,
                        (cluster, ko) ∈ consensus ∧
                        (g, gcids) ∈ pan_gene_clusters env pan_db genomes_storage_db cluster ∧
                        gcids ≠ []).
  { intros g. rewrite Hsrc, elem_of_remove_dups.
    destruct (find_ko_genomes_gen env pan_db genomes_storage_db consensus ∅ ko g)
      as [Hs _].
    simpl in Hs. fold table in Hs. rewrite Hs. unfold sources_of at 1.
    rewrite lookup_empty. simpl. rewrite elem_of_nil. naive_solver. }
  split; [exact Hmem|]. split; [rewrite Hsrc; apply NoDup_remove_dups|].
  intros genomes Hlook ->. rewrite lookup_fmap in Hlook.
  destruct (table !! ko) as [l|] eqn:Htab; [|done].
  destruct (find_ko_genomes_gen env pan_db genomes_storage_db consensus ∅ ko "")
    as [_ Hi].
  simpl in Hi. fold table in Hi. rewrite Htab, lookup_empty in Hi.
  destruct Hi as [Hi _]. destruct Hi as [[? [=]]|(c & g & gc & Hc & Hin & Hne)]; [done|].
  assert (Hg : g ∈ sources_of (remove_dups <$> table) ko).
  { apply Hmem. by exists c, gc. }
  unfold sources_of in Hg. rewrite lookup_fmap, Htab in Hg. simpl in Hg.
  injection Hlook as Hl. rewrite Hl in Hg. by apply elem_of_nil in Hg.
Qed.

End PanSourcesProps.

(** ** The unified maps of several sources *)
Module MultiProps.
Import Py Kgml Mapper Derived MapperProps Outcomes PathFacts UniqueFacts FindMapsProps
  DrawProps LoopProps SourcesProps.





End MultiProps.

Module RestProps.
Import Py Kgml Mapper Derived MapperProps Outcomes PathFacts UniqueFacts FindMapsProps
  DrawProps LoopProps SourcesProps MultiProps.

(** X11.  With the defaults [colormap=True], [colormap_scheme=None] and
    [colormap_limits=None], fewer than four contigs databases are coloured by
    database with [tab10], untrimmed, and the assertion on the number of
    combinations holds ([tab10] having ten colours): the table of
    combinations and colours is built.  Four databases or more are coloured
    by count with [plasma_r] trimmed to (0.1, 0.9). *)
Theorem default_scheme_fits_the_palette (env : Env) (contigs_dbs : list string)
    (project_names : list (string * string)) (reverse_overlay : bool) :
  cmap_N (get_cmap env "tab10") = 10%nat →
  load_project_names env contigs_dbs [] = Ok project_names →
  let n := length contigs_dbs in
  if bool_decide (n < 4)%nat then
    set_scheme (CmapBool true) None n = Ok ByDatabase ∧
    (cl ← set_colormap env (CmapBool true) ByDatabase None; trim_colormap env cl.1 cl.2)
    = Ok (Some (get_cmap env "tab10")) ∧
    ∃ color_priority,
      by_database_priority (get_cmap env "tab10") reverse_overlay n (od_keys project_names)
      = Ok (Combos.db_combos n (od_keys project_names), color_priority)
  else
    set_scheme (CmapBool true) None n = Ok ByCount ∧
    (cl ← set_colormap env (CmapBool true) ByCount None; trim_colormap env cl.1 cl.2)
    = Ok (Some (truncate_cmap env (get_cmap env "plasma_r") (1 # 10) (9 # 10))).
Proof.
  intros HN Hload n.
  pose proof (load_project_names_gen env contigs_dbs [] ltac:(constructor)) as Hex.
  rewrite Hload in Hex. destruct Hex as (Hpn & _ & _). simpl in Hpn.
  assert (Hlen : length (od_keys project_names) = n).
  { rewrite Hpn. unfold od_keys. by rewrite !length_fmap. }
  unfold set_scheme. destruct (bool_decide_reflect (n < 4)%nat) as [Hlt|Hge].
  - split; [done|]. split; [done|]. eexists.
    rewrite <- Hlen. apply ColorProps.by_database_priority_ok.
    pose proof (CombosFacts.length_db_combos (od_keys project_names)) as Hc.
    rewrite HN.
    assert (Hpow : (2 ^ length (od_keys project_names) ≤ 8)%nat).
    { rewrite Hlen. change 8%nat with (2 ^ 3)%nat. apply Nat.pow_le_mono_r; lia. }
    lia.
  - split; [done|]. done.
Qed.

Lemma default_scheme_fits_the_palette_witness :
  ∃ color_priority,
    by_database_priority (get_cmap Example.env "tab10") false 2 ["A"; "B"]
    = Ok (Combos.db_combos 2 ["A"; "B"], color_priority).
Proof.
  exact (proj2 (proj2 (default_scheme_fits_the_palette Example.env ["A.db"; "B.db"]
                        [("A", "A.db"); ("B", "B.db")] false eq_refl eq_refl))).
Defined.

Lemma select_names_unknown arg all_names :
  names_unknown arg all_names → select_names arg all_names = Raise AssertionError.
Proof.
  destruct arg as [b|names]; [done|]. intros (name & Hin & Hnot). unfold select_names.
  assert (Hf : forallb (fun name => bool_decide (name ∈ all_names)) names = false).
  { apply not_true_iff_false. intros Hall.
    rewrite forallb_forall in Hall. specialize (Hall name).
    rewrite bool_decide_eq_true in Hall. apply Hnot, Hall. by apply list_elem_of_In. }
  by rewrite Hf.
Qed.

Lemma select_names_result arg all_names :
  (∃ names, select_names arg all_names = Ok names) ∨
  select_names arg all_names = Raise AssertionError.
Proof.
  destruct arg as [[]|names]; simpl; [left; by eexists..|].
  destruct (forallb _ names); simpl; [left; by eexists|by right].
Qed.

Lemma unknown_source_name_is_rejected (env : Env) (all_names : list string)
    (draw_one : string → M (list (string * bool)))
    (draw_missing : string → string → M unit) (output_dir first_label : string)
    (pathway_numbers : list string) (draw_files draw_grid : names_or_bool)
    (draw_maps_lacking_kos : bool) (unified : list (string * bool))
    (fs : gmap string File) :
  names_unknown draw_files all_names ∨ names_unknown draw_grid all_names →
  draw_rest env all_names draw_one draw_missing output_dir first_label pathway_numbers
    draw_files draw_grid draw_maps_lacking_kos unified fs
  = (Raise AssertionError, fs).
Proof.
  intros Hbad. unfold draw_rest.
  assert (Hnf : is_False draw_files && is_False draw_grid = false).
  { destruct Hbad as [Hb|Hb]; [destruct draw_files|destruct draw_grid]; try done.
    by rewrite andb_false_r. }
  rewrite Hnf. unfold individual_phase.
  destruct (select_names_result draw_files all_names) as [[files Hfiles]|Hfiles].
  - destruct Hbad as [Hb|Hb].
    { apply select_names_unknown in Hb. congruence. }
    apply select_names_unknown in Hb.
    rewrite Hfiles, Hb. reflexivity.
  - rewrite Hfiles. reflexivity.
Qed.

End RestProps.

(** ** After the unified maps *)
Module CleanupProps.
Import Py Kgml Mapper Derived MapperProps Outcomes PathFacts UniqueFacts FindMapsProps
  DrawProps LoopProps SourcesProps MultiProps RestProps.

Lemma lift_inv {A} (r : result A) (a : A) (fs fs' : gmap string File) :
  lift r fs = (Ok a, fs') → r = Ok a ∧ fs' = fs.
Proof. unfold lift. by intros [= -> ->]. Qed.

Lemma draw_individual_od_keys (draw_one : string → M (list (string * bool))) names
    (acc ind : list (string * list (string * bool))) (fs fs' : gmap string File) :
  draw_individual draw_one names acc fs = (Ok ind, fs') →
  NoDup (od_keys acc ++ names) → od_keys ind = od_keys acc ++ names.
Proof.
  revert acc fs. induction names as [|name rest IH]; intros acc fs Hrun Hnd.
  - injection Hrun as <- _. by rewrite app_nil_r.
  - cbn [draw_individual] in Hrun. apply M_bind_inv in Hrun as (d & fs1 & _ & Hrest).
    assert (Hnew : name ∉ od_keys acc).
    { apply NoDup_app in Hnd as (_ & Hdisj & _). intros Hin. apply (Hdisj _ Hin). left. }
    rewrite PyFacts.od_keys_set_new in Hrest by done.
    apply IH in Hrest.
    + rewrite Hrest. unfold od_keys. rewrite fmap_app. simpl. by rewrite <- app_assoc.
    + unfold od_keys. rewrite fmap_app. simpl. by rewrite <- app_assoc.
Qed.

Lemma filter_filter {A} (f g : A → bool) (l : list A) :
  List.filter f (List.filter g l) = List.filter (fun x => g x && f x) l.
Proof.
  induction l as [|x l IH]; simpl; [done|].
  destruct (g x); simpl; [destruct (f x)|]; by rewrite IH.
Qed.

Lemma fmap_fst_filter {A B} (f : A → bool) (l : list (A * B)) :
  (List.filter (fun kv => f kv.1) l).*1 = List.filter f l.*1.
Proof.
  induction l as [|[a b] l IH]; [done|]. cbn [List.filter fst]. rewrite fmap_cons.
  cbn [List.filter fst]. destruct (f a); [rewrite fmap_cons; simpl; f_equal|]; exact IH.
Qed.

Lemma filter_all {A} (f : A → bool) (l : list A) :
  (∀ x, x ∈ l → f x = true) → List.filter f l = l.
Proof.
  induction l as [|x l IH]; intros Hall; simpl; [done|].
  rewrite (Hall x) by left. f_equal. apply IH. intros y Hy. apply Hall. by right.
Qed.

Lemma remove_sources_spec output_dir names (individual : list (string * list (string * bool)))
    (fs : gmap string File) :
  ∃ fs',
    remove_sources output_dir names individual fs
    = (Ok (List.filter (fun kv => negb (bool_decide (kv.1 ∈ names))) individual), fs') ∧
    (∀ path, fs !! path = None → fs' !! path = None) ∧
    (∀ name path,
       name ∈ names →
       path = path_join output_dir name ∨
       String.prefix (path_join output_dir name +:+ "/") path = true →
       fs' !! path = None).
Proof.
  revert individual fs. induction names as [|name rest IH]; intros individual fs.
  - exists fs. split; [|split; [done|by intros ? ? ?%elem_of_nil]].
    rewrite filter_all; [done|]. intros kv _.
    apply negb_true_iff, bool_decide_eq_false, not_elem_of_nil.
  - cbn [remove_sources]. unfold mbind at 1, M_bind at 1, rmtree at 1.
    match goal with |- context [remove_sources _ rest ?ind ?fs1] =>
      destruct (IH ind fs1) as (fs' & Hrun & Hnone & Hgone)
    end.
    exists fs'. split; [|split].
    + rewrite Hrun. f_equal. f_equal. rewrite filter_filter.
      apply filter_ext. intros [k v]. simpl.
      destruct (bool_decide_reflect (k = name)) as [->|Hne]; simpl.
      * by rewrite bool_decide_true by left.
      * destruct (bool_decide_reflect (k ∈ rest)) as [Hin|Hnin].
        -- by rewrite bool_decide_true by by right.
        -- rewrite bool_decide_false; [done|]. by intros [?|?]%elem_of_cons.
    + intros path Hp. apply Hnone. apply map_lookup_filter_None. by left.
    + intros name' path [->|Hin]%elem_of_cons Hpath; [|by eapply Hgone].
      apply Hnone. apply map_lookup_filter_None. right. intros f _ Hkeep. simpl in Hkeep.
      apply Hkeep. destruct Hpath as [->|Hpre]; [by left|by right].
Qed.

Lemma filter_unique_prefix (F xs ys seen : list string) :
  NoDup xs → (∀ x, x ∈ xs → x ∉ seen) → (∀ x, x ∈ xs → x ∈ F) →
  (∀ x, x ∈ F → x ∈ seen ∨ x ∈ xs) →
  List.filter (fun k => bool_decide (k ∈ F)) (unique_from seen (xs ++ ys)) = xs.
Proof.
  revert seen. induction xs as [|x xs IH]; intros seen Hnd Hfresh HF Hcover.
  - simpl. apply filter_none. intros y Hy. apply bool_decide_eq_false.
    apply elem_of_unique_from in Hy as [_ Hy]. intros HyF.
    destruct (Hcover y HyF) as [?|?%elem_of_nil]; done.
  - apply NoDup_cons in Hnd as [Hx Hnd]. simpl.
    rewrite decide_False by (apply Hfresh; left). simpl.
    rewrite bool_decide_true by (apply HF; left). f_equal. apply IH; [done|..].
    + intros y Hy. apply not_elem_of_cons. split; [by intros ->|].
      apply Hfresh. by right.
    + intros y Hy. apply HF. by right.
    + intros y Hy. destruct (Hcover y Hy) as [?|[->|?]%elem_of_cons].
      * left. by right.
      * left. left.
      * by right.
Qed.

Lemma select_names_NoDup arg all_names names :
  select_names arg all_names = Ok names → NoDup names.
Proof.
  destruct arg as [[]|ns]; simpl.
  - intros [= <-]. apply NoDup_unique.
  - intros [= <-]. constructor.
  - destruct (forallb _ ns); simpl; [|done]. intros [= <-]. apply NoDup_unique.
Qed.

(** X15.  When grids are drawn and the tables are returned, the keys of
    [drawn['individual']] are the sources asked for as files, in that order
    and without repeats, and the unified table is returned as it was; the
    directory of a source drawn for the grids only, and everything below it,
    is gone from the output directory. *)
Theorem grid_only_sources_are_cleaned_up (env : Env) (all_names : list string)
    (draw_one : string → M (list (string * bool)))
    (draw_missing : string → string → M unit) (output_dir first_label : string)
    (pathway_numbers : list string) (draw_files draw_grid : names_or_bool)
    (draw_maps_lacking_kos : bool) (unified : list (string * bool))
    (fs fs' : gmap string File) (drawn : Drawn) :
  draw_rest env all_names draw_one draw_missing output_dir first_label pathway_numbers
    draw_files draw_grid draw_maps_lacking_kos unified fs = (Ok (Some drawn), fs') →
  ∃ files_names grid_names,
    select_names draw_files all_names = Ok files_names ∧
    select_names draw_grid all_names = Ok grid_names ∧
    Mapper.unified drawn = unified ∧
    od_keys (individual drawn) = files_names ∧
    ∀ name path,
      name ∈ grid_names → name ∉ files_names →
      path = path_join output_dir name ∨
      String.prefix (path_join output_dir name +:+ "/") path = true →
      fs' !! path = None.
Proof.
  unfold draw_rest. intros Hrun.
  destruct (is_False draw_files && is_False draw_grid); [done|].
  apply M_bind_inv in Hrun as ([[[files_names grid_names] draw_names] ind] & fs1 & Hind & Hrun).
  destruct (is_False draw_grid); [done|]. simpl in Hrun.
  unfold individual_phase in Hind.
  apply M_bind_inv in Hind as (files' & fs0 & Hfiles & Hind).
  apply lift_inv in Hfiles as [Hfiles ->].
  apply M_bind_inv in Hind as (grid' & fs0 & Hgrid & Hind).
  apply lift_inv in Hgrid as [Hgrid ->].
  apply M_bind_inv in Hind as (ind' & fs2 & Hdraw & Hret).
  injection Hret as -> -> <- -> ->.
  exists files_names, grid_names. split; [done|]. split; [done|].
  unfold grid_phase in Hrun.
  apply M_bind_inv in Hrun as (paths & fs3 & _ & Hrun).
  apply M_bind_inv in Hrun as ([] & fs4 & _ & Hrun).
  apply M_bind_inv in Hrun as (grid & fs5 & _ & Hrun).
  apply M_bind_inv in Hrun as ([] & fs6 & _ & Hrun).
  apply M_bind_inv in Hrun as (ind2 & fs7 & Hrem & Hret).
  injection Hret as <- <-. simpl.
  match type of Hrem with remove_sources _ ?names _ _ = _ =>
    destruct (remove_sources_spec output_dir names ind fs6) as (fs'' & Hspec & _ & Hgone)
  end.
  rewrite Hrem in Hspec. injection Hspec as -> <-.
  pose proof (select_names_NoDup _ _ _ Hfiles) as Hnd.
  apply draw_individual_od_keys in Hdraw; [|apply NoDup_unique]. simpl in Hdraw.
  split; [done|]. split.
  - unfold od_keys in *.
    set (removed := List.filter (fun name0 => negb (bool_decide (name0 ∈ files_names)))
                      (unique (files_names ++ grid_names))).
    pose proof (fmap_fst_filter (fun k => negb (bool_decide (k ∈ removed))) ind) as Hf.
    cbv beta in Hf. rewrite Hf, Hdraw. clear Hf. subst removed.
    erewrite filter_ext_in; [apply (filter_unique_prefix files_names files_names grid_names [])|].
    + done.
    + intros x _. apply not_elem_of_nil.
    + done.
    + intros x Hx. by right.
    + intros k Hk. simpl. apply list_elem_of_In in Hk.
      destruct (bool_decide_reflect (k ∈ files_names)) as [Hin|Hnin].
      * apply negb_true_iff, bool_decide_eq_false. intros Hrm.
        apply list_elem_of_In, filter_In in Hrm as [_ Hrm].
        apply negb_true_iff, bool_decide_eq_false in Hrm. done.
      * apply negb_false_iff, bool_decide_eq_true.
        apply list_elem_of_In, filter_In. split; [by apply list_elem_of_In|].
        by apply negb_true_iff, bool_decide_eq_false.
  - intros name path Hg Hf Hpath. apply (Hgone name); [|done].
    apply list_elem_of_In, filter_In. split.
    + apply list_elem_of_In, elem_of_unique, elem_of_app. by right.
    + by apply negb_true_iff, bool_decide_eq_false.
Qed.

End CleanupProps.

Module GridTableProps.
Import Py Kgml Mapper Derived MapperProps Outcomes PathFacts UniqueFacts FindMapsProps
  DrawProps LoopProps SourcesProps MultiProps RestProps CleanupProps.

Lemma grid_only_sources_are_cleaned_up_witness :
  ∃ drawn fs',
    draw_rest Example.env ["A"; "B"]
      (draw_one_db Example.env [("A", "A.db"); ("B", "B.db")] "out" ["00010"; "00020"]
         "#2ca02c" false)
      (draw_missing_db Example.env [("A", "A.db"); ("B", "B.db")] "out" "#2ca02c")
      "out" "all" ["00010"; "00020"] (ArgNames ["A"]) (ArgBool true) false [] ∅
    = (Ok (Some drawn), fs') ∧
    od_keys (individual drawn) = ["A"] ∧
    fs' !! "out/B/kos_00020.pdf" = None ∧
    is_Some (fs' !! "out/A/kos_00010.pdf").
Proof.
  pose proof (grid_only_sources_are_cleaned_up Example.env ["A"; "B"]
      (draw_one_db Example.env [("A", "A.db"); ("B", "B.db")] "out" ["00010"; "00020"]
         "#2ca02c" false)
      (draw_missing_db Example.env [("A", "A.db"); ("B", "B.db")] "out" "#2ca02c")
      "out" "all" ["00010"; "00020"] (ArgNames ["A"]) (ArgBool true) false [] ∅) as Hthm.
  set (run := draw_rest _ _ _ _ _ _ _ _ _ _ _ _) in *.
  assert (Hok : ExampleRuns.returned_tables run.1 = true) by (vm_compute; reflexivity).
  assert (Hf : bool_decide (is_Some (run.2 !! "out/A/kos_00010.pdf")) = true)
    by (vm_compute; reflexivity).
  clearbody run. destruct run as [[[drawn|]|e] fs']; try discriminate Hok.
  exists drawn, fs'. split; [reflexivity|].
  destruct (Hthm fs' drawn eq_refl) as (files & grid & Hfiles & Hgrid & _ & Hkeys & Hgone).
  injection Hfiles as <-. injection Hgrid as <-.
  split; [exact Hkeys|]. split; [|exact (bool_decide_eq_true_1 _ Hf)].
  apply (Hgone "B").
  - right. left.
  - intros Hin. apply list_elem_of_singleton in Hin. discriminate Hin.
  - right. reflexivity.
Defined.

(** X12.  A name in [draw_contigs_db_files], [draw_genome_files] or
    [draw_grid] that is not a project name (a genome name) is only detected
    after the unified maps are drawn: the method ends in an [AssertionError]
    on the file system the unified maps left. *)
Theorem unknown_source_name_fails_after_unified_maps (env : Env) (output_dir : string)
    (pathway_numbers : option (list string)) (draw_files draw_grid : names_or_bool)
    (colormap_limits : option (Q * Q)) (reverse_overlay : bool) (color_hexcode : string)
    (colorbar draw_maps_lacking_kos : bool) (fs : gmap string File) :
  (∀ contigs_dbs colormap colormap_scheme u fs',
     unified_phase_dbs env contigs_dbs output_dir pathway_numbers colormap
       colormap_limits colormap_scheme reverse_overlay color_hexcode colorbar
       draw_maps_lacking_kos fs = (Ok u, fs') →
     names_unknown draw_files (od_keys u.1.1) ∨ names_unknown draw_grid (od_keys u.1.1) →
     map_contigs_databases_kos env contigs_dbs output_dir pathway_numbers
       draw_files draw_grid colormap colormap_limits colormap_scheme
       reverse_overlay color_hexcode colorbar draw_maps_lacking_kos fs
     = (Raise AssertionError, fs')) ∧
  (∀ pan_db genomes_storage_db colormap u fs',
     unified_phase_pan env pan_db genomes_storage_db output_dir pathway_numbers colormap
       colormap_limits reverse_overlay color_hexcode colorbar draw_maps_lacking_kos fs
     = (Ok u, fs') →
     names_unknown draw_files (pan_genome_names env pan_db) ∨
     names_unknown draw_grid (pan_genome_names env pan_db) →
     map_pan_database_kos env pan_db genomes_storage_db output_dir pathway_numbers
       draw_files draw_grid colormap colormap_limits reverse_overlay
       color_hexcode colorbar draw_maps_lacking_kos fs
     = (Raise AssertionError, fs')).
Proof.
  split.
  - intros contigs_dbs colormap colormap_scheme u fs' Hphase Hbad.
    unfold map_contigs_databases_kos. rewrite (M_bind_ok _ _ _ _ _ Hphase).
    by apply unknown_source_name_is_rejected.
  - intros pan_db genomes_storage_db colormap u fs' Hphase Hbad.
    unfold map_pan_database_kos. rewrite (M_bind_ok _ _ _ _ _ Hphase).
    by apply unknown_source_name_is_rejected.
Qed.

Lemma unknown_source_name_fails_after_unified_maps_witness :
  ∃ u fs',
    unified_phase_dbs Example.env ["A.db"; "B.db"] "out" None (CmapBool false) None None
      false "#2ca02c" false false ∅ = (Ok u, fs') ∧
    is_Some (fs' !! "out/kos_00010.pdf") ∧
    map_contigs_databases_kos Example.env ["A.db"; "B.db"] "out" None (ArgNames ["C"])
      (ArgBool false) (CmapBool false) None None false "#2ca02c" false false ∅
    = (Raise AssertionError, fs').
Proof.
  pose proof (proj1 (unknown_source_name_fails_after_unified_maps Example.env "out" None
                       (ArgNames ["C"]) (ArgBool false) None false "#2ca02c" false false ∅)
                ["A.db"; "B.db"] (CmapBool false) None) as Hthm.
  set (run := unified_phase_dbs Example.env ["A.db"; "B.db"] "out" None (CmapBool false)
                None None false "#2ca02c" false false ∅) in *.
  assert (Hok : Example.is_Ok run.1 = true) by (vm_compute; reflexivity).
  assert (Hnames : od_keys (Example.value ([], [], []) run.1).1.1 = ["A"; "B"])
    by (vm_compute; reflexivity).
  assert (Hf : bool_decide (is_Some (run.2 !! "out/kos_00010.pdf")) = true)
    by (vm_compute; reflexivity).
  clearbody run. destruct run as [[u|e] fs']; [|discriminate Hok].
  simpl in Hnames. exists u, fs'. split; [reflexivity|].
  split; [exact (bool_decide_eq_true_1 _ Hf)|].
  apply (Hthm u fs' eq_refl). left. exists "C". split; [left|]. rewrite Hnames.
  intros Hin. repeat (apply elem_of_cons in Hin as [Hin|Hin]; [discriminate Hin|]).
  by apply elem_of_nil in Hin.
Defined.

(** X13.  With [draw_grid] false, [map_contigs_databases_kos] and
    [map_pan_database_kos] return [None] whatever [draw_contigs_db_files]
    ([draw_genome_files]) is: the maps of the individual sources stay in the
    output directory, the tables of what was drawn are not returned. *)
Theorem without_grids_nothing_is_returned (env : Env) (output_dir : string)
    (pathway_numbers : option (list string)) (draw_files : names_or_bool)
    (colormap_limits : option (Q * Q)) (reverse_overlay : bool) (color_hexcode : string)
    (colorbar draw_maps_lacking_kos : bool) (fs : gmap string File) :
  (∀ contigs_dbs colormap colormap_scheme u fs1 ind fs2,
     unified_phase_dbs env contigs_dbs output_dir pathway_numbers colormap
       colormap_limits colormap_scheme reverse_overlay color_hexcode colorbar
       draw_maps_lacking_kos fs = (Ok u, fs1) →
     individual_phase (od_keys u.1.1)
       (draw_one_db env u.1.1 output_dir u.1.2 color_hexcode draw_maps_lacking_kos)
       draw_files (ArgBool false) fs1 = (Ok ind, fs2) →
     map_contigs_databases_kos env contigs_dbs output_dir pathway_numbers
       draw_files (ArgBool false) colormap colormap_limits colormap_scheme
       reverse_overlay color_hexcode colorbar draw_maps_lacking_kos fs
     = (Ok None, if is_False draw_files then fs1 else fs2)) ∧
  (∀ pan_db genomes_storage_db colormap u fs1 ind fs2,
     unified_phase_pan env pan_db genomes_storage_db output_dir pathway_numbers colormap
       colormap_limits reverse_overlay color_hexcode colorbar draw_maps_lacking_kos fs
     = (Ok u, fs1) →
     individual_phase (pan_genome_names env pan_db)
       (draw_one_genome env genomes_storage_db output_dir u.1 color_hexcode
          draw_maps_lacking_kos)
       draw_files (ArgBool false) fs1 = (Ok ind, fs2) →
     map_pan_database_kos env pan_db genomes_storage_db output_dir pathway_numbers
       draw_files (ArgBool false) colormap colormap_limits reverse_overlay
       color_hexcode colorbar draw_maps_lacking_kos fs
     = (Ok None, if is_False draw_files then fs1 else fs2)).
Proof.
  split.
  - intros contigs_dbs colormap colormap_scheme u fs1 ind fs2 Hphase Hind.
    unfold map_contigs_databases_kos. rewrite (M_bind_ok _ _ _ _ _ Hphase).
    unfold draw_rest. destruct (is_False draw_files); simpl; [done|].
    by rewrite (M_bind_ok _ _ _ _ _ Hind).
  - intros pan_db genomes_storage_db colormap u fs1 ind fs2 Hphase Hind.
    unfold map_pan_database_kos. rewrite (M_bind_ok _ _ _ _ _ Hphase).
    unfold draw_rest. destruct (is_False draw_files); simpl; [done|].
    by rewrite (M_bind_ok _ _ _ _ _ Hind).
Qed.

Lemma without_grids_nothing_is_returned_witness :
  ∃ fs2,
    map_contigs_databases_kos Example.env ["A.db"; "B.db"] "out" None (ArgBool true)
      (ArgBool false) (CmapBool false) None None false "#2ca02c" false false ∅
    = (Ok None, fs2) ∧
    is_Some (fs2 !! "out/A/kos_00010.pdf").
Proof.
  pose proof (proj1 (without_grids_nothing_is_returned Example.env "out" None
                       (ArgBool true) None false "#2ca02c" false false ∅)
                ["A.db"; "B.db"] (CmapBool false) None) as Hthm.
  set (run := unified_phase_dbs Example.env ["A.db"; "B.db"] "out" None (CmapBool false)
                None None false "#2ca02c" false false ∅) in *.
  assert (Hok : Example.is_Ok run.1 = true) by (vm_compute; reflexivity).
  assert (Hok2 :
    Example.is_Ok
      (individual_phase (od_keys (Example.value ([], [], []) run.1).1.1)
         (draw_one_db Example.env (Example.value ([], [], []) run.1).1.1 "out"
            (Example.value ([], [], []) run.1).1.2 "#2ca02c" false)
         (ArgBool true) (ArgBool false) run.2).1 = true) by (vm_compute; reflexivity).
  assert (Hf :
    bool_decide (is_Some
      ((individual_phase (od_keys (Example.value ([], [], []) run.1).1.1)
          (draw_one_db Example.env (Example.value ([], [], []) run.1).1.1 "out"
             (Example.value ([], [], []) run.1).1.2 "#2ca02c" false)
          (ArgBool true) (ArgBool false) run.2).2 !! "out/A/kos_00010.pdf")) = true)
    by (vm_compute; reflexivity).
  clearbody run. destruct run as [[u|e] fs1]; [|discriminate Hok].
  cbn [Example.value fst snd] in Hok2, Hf.
  specialize (Hthm u fs1).
  set (run2 := individual_phase (od_keys u.1.1)
                 (draw_one_db Example.env u.1.1 "out" u.1.2 "#2ca02c" false)
                 (ArgBool true) (ArgBool false) fs1) in *.
  clearbody run2. destruct run2 as [[ind|e] fs2]; [|discriminate Hok2].
  exists fs2. split; [exact (Hthm ind fs2 eq_refl eq_refl)|].
  exact (bool_decide_eq_true_1 _ Hf).
Defined.

Lemma draw_grids_table env output_dir grid_dir first_label grid_names pathway_numbers
    (grid grid' : list (string * bool)) (fs fs' : gmap string File) :
  draw_grids env output_dir grid_dir first_label grid_names pathway_numbers grid fs
  = (Ok grid', fs') →
  ∀ n b, od_get n grid' = Some b →
         od_get n grid = Some b ∨ (b = true ∧ n ∈ pathway_numbers).
Proof.
  revert grid fs. induction pathway_numbers as [|pn rest IH]; intros grid fs Hrun n b Hn.
  - injection Hrun as <- _. by left.
  - cbn [draw_grids] in Hrun.
    apply M_bind_inv in Hrun as (found & fs1 & _ & Hrun).
    destruct found; simpl in Hrun.
    + apply M_bind_inv in Hrun as (landscape & fs2 & _ & Hrun).
      apply M_bind_inv in Hrun as ([[in_paths labels]|] & fs3 & _ & Hrun).
      * apply M_bind_inv in Hrun as ([] & fs4 & _ & Hrun).
        destruct (IH _ _ Hrun n b Hn) as [Hold|[-> Hin]].
        -- destruct (decide (pn = n)) as [->|Hne].
           ++ rewrite PyFacts.od_get_set_eq in Hold. injection Hold as <-.
              right. split; [done|left].
           ++ rewrite PyFacts.od_get_set_ne in Hold by done. by left.
        -- right. split; [done|by right].
      * destruct (IH _ _ Hrun n b Hn) as [Hold|[-> Hin]]; [by left|].
        right. split; [done|by right].
    + destruct (IH _ _ Hrun n b Hn) as [Hold|[-> Hin]]; [by left|].
      right. split; [done|by right].
Qed.

(** X14.  When grids are drawn and the tables are returned, the table
    [drawn['grid']] only holds [True], for pathway numbers that were
    selected: a pathway whose grid was not drawn is absent from it. *)
Theorem grid_table_only_records_drawn_grids (env : Env) (all_names : list string)
    (draw_one : string → M (list (string * bool)))
    (draw_missing : string → string → M unit) (output_dir first_label : string)
    (pathway_numbers : list string) (draw_files draw_grid : names_or_bool)
    (draw_maps_lacking_kos : bool) (unified : list (string * bool))
    (fs fs' : gmap string File) (drawn : Drawn) :
  draw_rest env all_names draw_one draw_missing output_dir first_label pathway_numbers
    draw_files draw_grid draw_maps_lacking_kos unified fs = (Ok (Some drawn), fs') →
  ∀ n b, od_get n (grid drawn) = Some b → b = true ∧ n ∈ pathway_numbers.
Proof.
  unfold draw_rest. intros Hrun.
  destruct (is_False draw_files && is_False draw_grid); [done|].
  apply M_bind_inv in Hrun as (ind & fs1 & _ & Hrun).
  destruct (is_False draw_grid); [done|].
  unfold grid_phase in Hrun.
  apply M_bind_inv in Hrun as (paths & fs3 & _ & Hrun).
  apply M_bind_inv in Hrun as ([] & fs4 & _ & Hrun).
  apply M_bind_inv in Hrun as (grid & fs5 & Hgrid & Hrun).
  apply M_bind_inv in Hrun as ([] & fs6 & _ & Hrun).
  apply M_bind_inv in Hrun as (ind2 & fs7 & _ & Hret).
  injection Hret as <- <-. simpl. intros n b Hn.
  by destruct (draw_grids_table _ _ _ _ _ _ _ _ _ _ Hgrid n b Hn) as [?|?].
Qed.

Lemma grid_table_only_records_drawn_grids_witness :
  ∃ drawn fs',
    draw_rest Example.env ["A"; "B"]
      (draw_one_db Example.env [("A", "A.db"); ("B", "B.db")] "out" ["00010"; "00020"]
         "#2ca02c" false)
      (draw_missing_db Example.env [("A", "A.db"); ("B", "B.db")] "out" "#2ca02c")
      "out" "all" ["00010"; "00020"] (ArgBool false) (ArgBool true) false
      [("00010", true); ("00020", false)]
      {[ "out" := Directory; "out/kos_00010.pdf" := MapPdf Example.map_00010 ]}
    = (Ok (Some drawn), fs') ∧
    grid drawn = [("00010", true)] ∧
    ∀ n b, od_get n (grid drawn) = Some b → b = true ∧ n ∈ ["00010"; "00020"].
Proof.
  pose proof (grid_table_only_records_drawn_grids Example.env ["A"; "B"]
      (draw_one_db Example.env [("A", "A.db"); ("B", "B.db")] "out" ["00010"; "00020"]
         "#2ca02c" false)
      (draw_missing_db Example.env [("A", "A.db"); ("B", "B.db")] "out" "#2ca02c")
      "out" "all" ["00010"; "00020"] (ArgBool false) (ArgBool true) false
      [("00010", true); ("00020", false)]
      {[ "out" := Directory; "out/kos_00010.pdf" := MapPdf Example.map_00010 ]}) as Hthm.
  set (run := draw_rest _ _ _ _ _ _ _ _ _ _ _ _) in *.
  assert (Hok : ExampleRuns.returned_tables run.1 = true) by (vm_compute; reflexivity).
  assert (Hg : grid (ExampleRuns.tables run.1) = [("00010", true)])
    by (vm_compute; reflexivity).
  clearbody run. destruct run as [[[drawn|]|e] fs']; try discriminate Hok.
  exists drawn, fs'. split; [reflexivity|]. split; [exact Hg|].
  exact (Hthm fs' drawn eq_refl).
Defined.

End GridTableProps.

Module IndividualProps.
Import Py Kgml Mapper Derived MapperProps Outcomes PathFacts UniqueFacts
  FindMapsProps DrawProps LoopProps SourcesProps MultiProps RestProps CleanupProps.

Lemma draw_loop_keeps_maps draw (P : string → string) (wd : string → bool)
    pathway_numbers drawn fs drawn' fs' path :
  (∀ n fs, draw_outcome (P n) (wd n) fs (draw n fs)) →
  draw_loop draw pathway_numbers drawn fs = (Ok drawn', fs') →
  holds_map fs path → holds_map fs' path.
Proof.
  intros Hdraw. revert drawn fs.
  induction pathway_numbers as [|n rest IH]; intros drawn fs Hrun Hmap.
  - by injection Hrun as _ <-.
  - cbn [draw_loop] in Hrun. apply M_bind_inv in Hrun as ([b p] & fs1 & Hn & Hrest).
    pose proof (Hdraw n fs) as Hspec. rewrite Hn in Hspec. destruct Hspec as [_ Hfs1].
    eapply IH; [exact Hrest|]. destruct b; subst fs1; [|done].
    destruct (decide (path = P n)) as [->|Hne].
    + exists p. apply lookup_insert_eq.
    + destruct Hmap as [q Hq]. exists q. by rewrite lookup_insert_ne.
Qed.

Lemma fixed_colors_keeps_maps env ko_ids output_dir patterns color_hexcode lacking
    fs drawn fs' path :
  _map_kos_fixed_colors env ko_ids output_dir patterns color_hexcode lacking fs
  = (Ok drawn, fs') →
  holds_map fs path → holds_map fs' path.
Proof.
  unfold _map_kos_fixed_colors. intros Hrun Hmap.
  apply M_bind_inv in Hrun as (numbers & fs1 & Hfind & Hrun).
  apply M_bind_inv in Hrun as ([] & fs2 & Hgen & Hrun).
  destruct (find_maps_spec env output_dir "kos" patterns fs) as (Hfs1 & _ & _).
  rewrite Hfind in Hfs1. simpl in Hfs1. subst fs1.
  eapply draw_loop_keeps_maps; [apply draw_fixed_outcome|exact Hrun|].
  unfold gen_output_directory in Hgen. injection Hgen as <-.
  destruct (fs !! output_dir) eqn:Hd; [done|].
  destruct Hmap as [q Hq]. exists q. rewrite lookup_insert_ne; [done|]. by intros <-; congruence.
Qed.

Section individual.
Context (draw_one : string → M (list (string * bool))) (dir : string → string).
Context (Hone : ∀ name fs d fs',
           draw_one name fs = (Ok d, fs') →
           (∀ n, od_get n d = Some true → holds_map fs' (out_path_of (dir name) n)) ∧
           (∀ path, holds_map fs path → holds_map fs' path)).

Lemma draw_individual_files names (acc ind : list (string * list (string * bool)))
    (fs fs' : gmap string File) :
  draw_individual draw_one names acc fs = (Ok ind, fs') →
  (∀ name d n, od_get name acc = Some d → od_get n d = Some true →
               holds_map fs (out_path_of (dir name) n)) →
  ∀ name d n, od_get name ind = Some d → od_get n d = Some true →
              holds_map fs' (out_path_of (dir name) n).
Proof.
  revert acc fs. induction names as [|name rest IH]; intros acc fs Hrun Hinv.
  - by injection Hrun as <- <-.
  - cbn [draw_individual] in Hrun. apply M_bind_inv in Hrun as (d & fs1 & Hd & Hrest).
    destruct (Hone _ _ _ _ Hd) as [Hnew Hkeep].
    eapply IH; [exact Hrest|]. intros name' d' n.
    destruct (decide (name = name')) as [->|Hne].
    + rewrite PyFacts.od_get_set_eq. intros [= <-]. apply Hnew.
    + rewrite PyFacts.od_get_set_ne by done. intros Hacc Hn. apply Hkeep. by eapply Hinv.
Qed.

Lemma individual_phase_files all_names draw_files draw_grid fs
    (ind : list string * list string * list string * list (string * list (string * bool)))
    fs' :
  individual_phase all_names draw_one draw_files draw_grid fs = (Ok ind, fs') →
  ∀ name d n, od_get name ind.2 = Some d → od_get n d = Some true →
              holds_map fs' (out_path_of (dir name) n).
Proof.
  unfold individual_phase. intros Hrun.
  apply M_bind_inv in Hrun as (files & fs0 & Hfiles & Hrun).
  apply lift_inv in Hfiles as [_ ->].
  apply M_bind_inv in Hrun as (grid & fs0 & Hgrid & Hrun).
  apply lift_inv in Hgrid as [_ ->].
  apply M_bind_inv in Hrun as (ind' & fs2 & Hdraw & Hret).
  injection Hret as <- <-. simpl.
  eapply draw_individual_files; [exact Hdraw|]. intros ? ? ? [=].
Qed.

End individual.

(** X16.  After the individual maps of [map_contigs_databases_kos] and of
    [map_pan_database_kos] are drawn, every map recorded [True] for a source
    in [drawn['individual']] is in the file [kos_<number>.pdf] of the
    directory of that source. *)
Theorem individual_tables_match_files (env : Env) (output_dir : string)
    (pathway_numbers : list string) (color_hexcode : string)
    (draw_maps_lacking_kos : bool) (all_names : list string)
    (draw_files draw_grid : names_or_bool) (fs fs' : gmap string File)
    (ind : list string * list string * list string * list (string * list (string * bool))) :
  (∀ project_names,
     individual_phase all_names
       (draw_one_db env project_names output_dir pathway_numbers color_hexcode
          draw_maps_lacking_kos)
       draw_files draw_grid fs = (Ok ind, fs') →
     ∀ name drawn n, od_get name ind.2 = Some drawn → od_get n drawn = Some true →
       holds_map fs' (out_path_of (path_join output_dir name) n)) ∧
  (∀ genomes_storage_db,
     individual_phase all_names
       (draw_one_genome env genomes_storage_db output_dir pathway_numbers color_hexcode
          draw_maps_lacking_kos)
       draw_files draw_grid fs = (Ok ind, fs') →
     ∀ name drawn n, od_get name ind.2 = Some drawn → od_get n drawn = Some true →
       holds_map fs' (out_path_of (path_join output_dir name) n)).
Proof.
  split.
  - intros project_names. apply individual_phase_files.
    intros name fs0 d fs1 Hd. unfold draw_one_db in Hd.
    apply M_bind_inv in Hd as (db & fs0' & Hdb & Hd). apply lift_inv in Hdb as [_ ->].
    unfold map_contigs_database_kos in Hd. split.
    + apply (map_kos_fixed_colors_table _ _ _ _ _ _ _ _ _ Hd).
    + intros path. by eapply fixed_colors_keeps_maps.
  - intros genomes_storage_db. apply individual_phase_files.
    intros name fs0 d fs1 Hd. unfold draw_one_genome, map_genomes_storage_genome_kos in Hd.
    split.
    + apply (map_kos_fixed_colors_table _ _ _ _ _ _ _ _ _ Hd).
    + intros path. by eapply fixed_colors_keeps_maps.
Qed.

Lemma individual_tables_match_files_witness :
  ∃ ind fs',
    individual_phase ["A"; "B"]
      (draw_one_db Example.env [("A", "A.db"); ("B", "B.db")] "out" ["00010"; "00020"]
         "#2ca02c" false)
      (ArgBool true) (ArgBool false) ∅ = (Ok ind, fs') ∧
    od_get "B" ind.2 = Some [("00010", false); ("00020", true)] ∧
    holds_map fs' (out_path_of (path_join "out" "B") "00020").
Proof.
  pose proof (fun fs' ind =>
                proj1 (individual_tables_match_files Example.env "out" ["00010"; "00020"]
                         "#2ca02c" false ["A"; "B"] (ArgBool true) (ArgBool false) ∅ fs' ind)
                  [("A", "A.db"); ("B", "B.db")]) as Hthm.
  set (run := individual_phase ["A"; "B"]
                (draw_one_db Example.env [("A", "A.db"); ("B", "B.db")] "out"
                   ["00010"; "00020"] "#2ca02c" false)
                (ArgBool true) (ArgBool false) ∅) in *.
  assert (Hok : Example.is_Ok run.1 = true) by (vm_compute; reflexivity).
  assert (Hb : od_get "B" (Example.value ([], [], [], []) run.1).2
               = Some [("00010", false); ("00020", true)]) by (vm_compute; reflexivity).
  clearbody run. destruct run as [[ind|e] fs']; [|discriminate Hok].
  exists ind, fs'. split; [reflexivity|]. split; [exact Hb|].
  exact (Hthm fs' ind eq_refl "B" _ "00020" Hb eq_refl).
Defined.

End IndividualProps.

(** ** The layout of a grid *)
Module GridLayoutProps.
Import Py Grid GridLayout.

Lemma truediv_ok (a b : Q) : ¬ (b == 0)%Q → truediv a b = Ok (a / b)%Q.
Proof.
  intros Hb. unfold truediv. destruct (Qeq_bool b 0) eqn:Hz; [|done].
  by apply Qeq_bool_eq in Hz.
Qed.

Lemma gt_true (a b : Q) : gt a b = true ↔ (b < a)%Q.
Proof.
  unfold gt. rewrite negb_true_iff. split.
  - intros Hf. apply Qnot_le_lt. intros Hle. apply Qle_bool_iff in Hle. congruence.
  - intros Hlt. apply not_true_is_false. intros Hle%Qle_bool_iff. lra.
Qed.

Lemma gt_false (a b : Q) : gt a b = false ↔ (a <= b)%Q.
Proof.
  unfold gt. rewrite negb_false_iff. apply Qle_bool_iff.
Qed.

(** X18.  The size [_make_grid] draws an input at, in exact arithmetic: for
    a cell and an aspect ratio that are positive, the image is not wider or
    higher than the cell, touches the cell in one dimension, keeps the
    aspect ratio of the input, and its rectangle is centred in the cell. *)
Theorem image_fits_its_cell (x y cell_width cell_height input_aspect_ratio : Q) :
  (0 < cell_width)%Q → (0 < cell_height)%Q → (0 < input_aspect_ratio)%Q →
  ∃ draw_width draw_height,
    draw_size cell_width cell_height input_aspect_ratio = Ok (draw_width, draw_height) ∧
    (0 < draw_width)%Q ∧ (0 < draw_height)%Q ∧
    (draw_width <= cell_width)%Q ∧ (draw_height <= cell_height)%Q ∧
    (draw_width == draw_height * input_aspect_ratio)%Q ∧
    ((draw_width == cell_width)%Q ∨ (draw_height == cell_height)%Q) ∧
    let '(x0, y0, x1, y1) :=
      draw_rect x y cell_width cell_height draw_width draw_height in
    (x <= x0)%Q ∧ (x1 <= x + cell_width)%Q ∧ (y <= y0)%Q ∧ (y1 <= y + cell_height)%Q ∧
    (x0 - x == x + cell_width - x1)%Q ∧ (y0 - y == y + cell_height - y1)%Q.
Proof.
  intros Hcw Hch Har. unfold draw_size.
  assert (Hne : ¬ (input_aspect_ratio == 0)%Q) by lra.
  set (q := (cell_width / input_aspect_ratio)%Q).
  assert (Hq : (q * input_aspect_ratio == cell_width)%Q)
    by (unfold q; field; exact Hne).
  assert (Hq0 : (0 < q)%Q).
  { destruct (Qlt_le_dec 0 q) as [?|Hle]; [done|]. exfalso. nra. }
  rewrite !truediv_ok by done. fold q. clearbody q.
  assert (Hrect : ∀ dw dh, (0 < dw)%Q → (0 < dh)%Q → (dw <= cell_width)%Q →
            (dh <= cell_height)%Q → (dw == dh * input_aspect_ratio)%Q →
            ((dw == cell_width)%Q ∨ (dh == cell_height)%Q) →
            (0 < dw)%Q ∧ (0 < dh)%Q ∧ (dw <= cell_width)%Q ∧ (dh <= cell_height)%Q ∧
            (dw == dh * input_aspect_ratio)%Q ∧
            ((dw == cell_width)%Q ∨ (dh == cell_height)%Q) ∧
            let '(x0, y0, x1, y1) := draw_rect x y cell_width cell_height dw dh in
            (x <= x0)%Q ∧ (x1 <= x + cell_width)%Q ∧ (y <= y0)%Q ∧
            (y1 <= y + cell_height)%Q ∧
            (x0 - x == x + cell_width - x1)%Q ∧ (y0 - y == y + cell_height - y1)%Q).
  { intros dw dh ? ? ? ? ? ?. repeat (split; [done|]). unfold draw_rect.
    cbv beta iota zeta. unfold Qdiv. change (/ 2)%Q with (1 # 2)%Q.
    repeat split; lra. }
  assert (Hsame : ∀ a, gt a a = false) by (intros a; apply gt_false; lra).
  destruct (gt input_aspect_ratio 1) eqn:H1;
    cbv beta iota zeta delta [mbind result_bind Py.bind mret result_ret].
  - apply gt_true in H1. rewrite Hsame.
    cbv beta iota zeta delta [mbind result_bind Py.bind mret result_ret].
    destruct (gt q cell_height) eqn:H3.
    + apply gt_true in H3. eexists _, _. split; [reflexivity|].
      apply Hrect; try lra; try nra; try (by right).
    + apply gt_false in H3. eexists _, _. split; [reflexivity|].
      apply Hrect; try lra; try nra; try (by left).
  - apply gt_false in H1.
    destruct (gt (cell_height * input_aspect_ratio) cell_width) eqn:H2;
      cbv beta iota zeta delta [mbind result_bind Py.bind mret result_ret].
    + apply gt_true in H2.
      assert (H3 : gt q cell_height = false) by (apply gt_false; nra).
      rewrite H3. eexists _, _. split; [reflexivity|].
      apply Hrect; try lra; try nra; try (by left).
    + apply gt_false in H2. rewrite Hsame.
      eexists _, _. split; [reflexivity|].
      apply Hrect; try lra; try nra; try (by right).
Qed.

Lemma image_fits_its_cell_witness :
  ∃ draw_width draw_height,
    draw_size 200 100 4 = Ok (draw_width, draw_height) ∧
    (draw_width <= 200)%Q ∧ (draw_height <= 100)%Q ∧ (draw_width == draw_height * 4)%Q.
Proof.
  destruct (image_fits_its_cell 10 10 200 100 4) as (dw & dh & Hs & _ & _ & Hw & Hh & Hr & _);
    [reflexivity..|].
  by exists dw, dh.
Defined.

End GridLayoutProps.

Module GridCellsProps.
Import Py Grid GridLayout GridProps GridLayoutProps Mapper.

Lemma grid_dims_inv (in_paths : list string) rows cols :
  grid_dims in_paths = Ok (rows, cols) →
  0 < cols ∧ Z.of_nat (length in_paths) ≤ rows * cols.
Proof.
  unfold grid_dims. intros Hd.
  destruct (ceil_sqrt (Z.of_nat (length in_paths)) =? 0) eqn:Hz; [done|].
  injection Hd as <- <-. apply Z.eqb_neq in Hz.
  assert (Hpos : 0 < ceil_sqrt (Z.of_nat (length in_paths))).
  { unfold ceil_sqrt in *. pose proof (Z.sqrt_up_nonneg (Z.of_nat (length in_paths))). lia. }
  split; [done|]. by apply ceil_div_spec.
Qed.

(** X17.  In [_make_grid] the input of index [i] goes to row [i // cols] and
    column [i % cols]: for the grid dimensions computed from the inputs,
    every input lies in a row below [rows] and a column below [cols], and no
    two inputs share a cell. *)
Theorem every_input_has_its_own_cell (in_paths : list string) (rows cols : Z) :
  grid_dims in_paths = Ok (rows, cols) →
  ∀ i, 0 ≤ i < Z.of_nat (length in_paths) →
       0 ≤ (cell_of cols i).1 < rows ∧ 0 ≤ (cell_of cols i).2 < cols ∧
       ∀ j, 0 ≤ j < Z.of_nat (length in_paths) → cell_of cols j = cell_of cols i → j = i.
Proof.
  intros Hd i Hi. apply grid_dims_inv in Hd as [Hcols Hcover]. unfold cell_of. simpl.
  pose proof (Z.mod_pos_bound i cols Hcols) as Hmod.
  pose proof (Z.div_mod i cols ltac:(lia)) as Hdm.
  split; [|split; [done|]].
  - split; [apply Z.div_pos; lia|]. apply Z.div_lt_upper_bound; [done|]. nia.
  - intros j Hj [= Hq Hr]. pose proof (Z.div_mod j cols ltac:(lia)) as Hdj. nia.
Qed.

Lemma every_input_has_its_own_cell_witness :
  0 ≤ (cell_of 3 4).1 < 2 ∧ 0 ≤ (cell_of 3 4).2 < 3 ∧
  ∀ j, 0 ≤ j < 5 → cell_of 3 j = cell_of 3 4 → j = 4.
Proof.
  refine (every_input_has_its_own_cell ["u"; "a"; "b"; "c"; "d"] 2 3 _ 4 _).
  - vm_compute. reflexivity.
  - simpl. lia.
Defined.

Lemma truediv_inv (a b v : Q) :
  truediv a b = Ok v → ¬ (b == 0)%Q ∧ (v * b == a)%Q.
Proof.
  unfold truediv. destruct (Qeq_bool b 0) eqn:Hz; [done|]. intros [= <-].
  apply Qeq_bool_neq in Hz. split; [done|]. field. exact Hz.
Qed.

Lemma cell_size_inv width height margin rows cols cell_width cell_height :
  cell_size width height margin rows cols = Ok (cell_width, cell_height) →
  (cell_width * inject_Z cols == width - (inject_Z cols + 1) * margin)%Q ∧
  (cell_height * inject_Z rows == height - (inject_Z rows + 1) * margin)%Q.
Proof.
  unfold cell_size. intros Hs.
  destruct (truediv _ (inject_Z cols)) as [cw|e] eqn:Hw; [|done].
  rewrite result_bind_ok in Hs.
  destruct (truediv _ (inject_Z rows)) as [ch|e] eqn:Hh; [|done].
  rewrite result_bind_ok in Hs. injection Hs as <- <-.
  apply truediv_inv in Hw as [_ Hw]. apply truediv_inv in Hh as [_ Hh]. done.
Qed.

(** X19.  The cells of [_make_grid], in exact arithmetic, when the margin
    and the cell sizes are not negative: every cell of the grid lies inside
    the page, at least [margin] away from its edges; of two inputs, the
    later one is in the same row at least [margin] to the right of the
    earlier cell, or in a row at least [margin] below it. *)
Theorem cells_lie_inside_the_page (width height margin : Q) (rows cols : Z)
    (cell_width cell_height : Q) :
  0 < cols →
  cell_size width height margin rows cols = Ok (cell_width, cell_height) →
  (0 <= margin)%Q → (0 <= cell_width)%Q → (0 <= cell_height)%Q →
  (∀ i, 0 ≤ i → i / cols < rows →
        let '(x, y) := cell_position margin cell_width cell_height cols i in
        (margin <= x)%Q ∧ (x + cell_width <= width - margin)%Q ∧
        (margin <= y)%Q ∧ (y + cell_height <= height - margin)%Q) ∧
  (∀ i j, 0 ≤ i < j →
        let '(xi, yi) := cell_position margin cell_width cell_height cols i in
        let '(xj, yj) := cell_position margin cell_width cell_height cols j in
        if decide (i / cols = j / cols)
        then (yi == yj)%Q ∧ (xi + cell_width + margin <= xj)%Q
        else (yi + cell_height + margin <= yj)%Q).
Proof.
  intros Hcols Hsize Hm Hcw Hch. apply cell_size_inv in Hsize as [Hw Hh].
  assert (Hinj : ∀ a b, a ≤ b → (inject_Z a <= inject_Z b)%Q)
    by (intros a b Hab; by rewrite <- Zle_Qle).
  split.
  - intros i Hi Hrow. unfold cell_position, cell_of.
    pose proof (Z.mod_pos_bound i cols Hcols) as Hmod.
    assert (Hdiv : 0 ≤ i / cols) by (apply Z.div_pos; lia).
    pose proof (Hinj 0 (i mod cols) ltac:(lia)) as Hc0.
    pose proof (Hinj (i mod cols + 1) cols ltac:(lia)) as Hc1.
    pose proof (Hinj 0 (i / cols) ltac:(lia)) as Hr0.
    pose proof (Hinj (i / cols + 1) rows ltac:(lia)) as Hr1.
    rewrite inject_Z_plus in Hc1, Hr1.
    change (inject_Z 0) with 0%Q in *. change (inject_Z 1) with 1%Q in *.
    set (c := inject_Z (i mod cols)) in *. set (r := inject_Z (i / cols)) in *.
    set (C := inject_Z cols) in *. set (R := inject_Z rows) in *.
    clearbody c r C R. repeat split; nra.
  - intros i j Hij. unfold cell_position, cell_of.
    pose proof (Z.mod_pos_bound i cols Hcols) as Hmi.
    pose proof (Z.mod_pos_bound j cols Hcols) as Hmj.
    pose proof (Z.div_mod i cols ltac:(lia)) as Hdi.
    pose proof (Z.div_mod j cols ltac:(lia)) as Hdj.
    destruct (decide (i / cols = j / cols)) as [Heq|Hne].
    + rewrite Heq. split; [reflexivity|].
      pose proof (Hinj (i mod cols + 1) (j mod cols) ltac:(nia)) as Hc.
      rewrite inject_Z_plus in Hc. change (inject_Z 1) with 1%Q in *.
      set (ci := inject_Z (i mod cols)) in *. set (cj := inject_Z (j mod cols)) in *.
      clearbody ci cj. nra.
    + assert (Hlt : i / cols < j / cols).
      { pose proof (Z.div_le_mono i j cols Hcols ltac:(lia)). lia. }
      pose proof (Hinj (i / cols + 1) (j / cols) ltac:(lia)) as Hr.
      rewrite inject_Z_plus in Hr. change (inject_Z 1) with 1%Q in *.
      set (ri := inject_Z (i / cols)) in *. set (rj := inject_Z (j / cols)) in *.
      clearbody ri rj. nra.
Qed.

Lemma cells_lie_inside_the_page_witness :
  let '(x, y) := cell_position 10 (572 # 3) (762 # 2) 3 4 in
  (10 <= x)%Q ∧ (x + (572 # 3) <= 612 - 10)%Q ∧
  (10 <= y)%Q ∧ (y + (762 # 2) <= 792 - 10)%Q.
Proof.
  refine (proj1 (cells_lie_inside_the_page 612 792 10 2 3 (572 # 3) (762 # 2) _ _ _ _ _)
            4 _ _); done.
Defined.



End GridCellsProps.

(** ** The fixed-colour methods *)
Module FixedColorProps.
Import Py Kgml Mapper Derived MapperProps Outcomes UniqueFacts.

Lemma lookup_drop_linspace01 (k i : nat) :
  (i < k)%nat → drop 1 (linspace01 (k + 1)) !! i = Some (point (k + 1) (i + 1)).
Proof.
  intros Hi. rewrite lookup_drop. replace (1 + i)%nat with (i + 1)%nat by lia.
  apply ColorProps.lookup_linspace01; lia.
Qed.

Lemma point_succ (k i : nat) :
  (0 < k)%nat →
  (point (k + 1) (i + 1) == (inject_Z (Z.of_nat i) + 1) / inject_Z (Z.of_nat k))%Q.
Proof.
  intros Hk. unfold point.
  replace (Z.of_nat (k + 1) - 1) with (Z.of_nat k) by lia.
  replace (Z.of_nat (i + 1)) with (Z.of_nat i + 1) by lia.
  by rewrite inject_Z_plus.
Qed.

(** X21.  [_draw_map_kos_original_color] gives the [i]-th of the [k]
    distinct colour pairs it met (counting from 0) the priority [(i+1)/k]:
    priorities lie in (0, 1] and a pair met later has a higher priority. *)
Theorem original_colors_are_prioritized_by_order
    (prioritized_colors : list (string * string)) (i : nat) (colors : string * string) :
  let distinct := unique prioritized_colors in
  let k := length distinct in
  distinct !! i = Some colors →
  od_get colors (original_color_priority prioritized_colors)
  = Some (point (k + 1) (i + 1)) ∧
  (point (k + 1) (i + 1) == (inject_Z (Z.of_nat i) + 1) / inject_Z (Z.of_nat k))%Q ∧
  (0 < point (k + 1) (i + 1))%Q ∧ (point (k + 1) (i + 1) <= 1)%Q ∧
  ∀ j colors', distinct !! j = Some colors' → (i < j)%nat →
    od_get colors' (original_color_priority prioritized_colors)
    = Some (point (k + 1) (j + 1)) ∧
    (point (k + 1) (i + 1) < point (k + 1) (j + 1))%Q.
Proof.
  intros distinct k Hi.
  assert (Hik : (i < k)%nat) by (apply lookup_lt_Some in Hi; done).
  assert (Hlen : length (drop 1 (linspace01 (k + 1))) = k).
  { rewrite length_drop, ColorProps.length_linspace01. lia. }
  assert (Htab : original_color_priority prioritized_colors
                 = zip distinct (drop 1 (linspace01 (k + 1)))).
  { unfold original_color_priority. fold distinct. fold k.
    apply PyFacts.od_update_fresh. simpl.
    rewrite fst_zip by lia. apply NoDup_unique. }
  assert (Hget : ∀ j c, distinct !! j = Some c →
            od_get c (original_color_priority prioritized_colors)
            = Some (point (k + 1) (j + 1))).
  { intros j c Hj. rewrite Htab. apply (PyFacts.od_get_lookup _ j).
    - unfold od_keys. rewrite fst_zip by lia. apply NoDup_unique.
    - apply lookup_zip_with_Some. exists c, (point (k + 1) (j + 1)).
      split; [done|]. split; [done|].
      apply lookup_drop_linspace01. by apply lookup_lt_Some in Hj. }
  split; [by apply Hget|]. split; [apply point_succ; lia|].
  assert (H0 : point (k + 1) 0 == 0).
  { unfold point. simpl. unfold Qdiv. by rewrite Qmult_0_l. }
  assert (H1 : point (k + 1) k == 1).
  { unfold point. replace (Z.of_nat (k + 1) - 1) with (Z.of_nat k) by lia.
    field. intros Hz. assert (inject_Z (Z.of_nat k) == inject_Z 0) as Hz' by done.
    apply (proj1 (inject_Z_injective (Z.of_nat k) 0)) in Hz'. lia. }
  split.
  { rewrite <- H0. apply ColorProps.point_lt; lia. }
  split.
  { destruct (decide (i + 1 = k)%nat) as [->|Hne]; [by rewrite H1|].
    apply Qlt_le_weak. rewrite <- H1. apply ColorProps.point_lt; lia. }
  intros j c' Hj Hij. split; [by apply Hget|]. apply ColorProps.point_lt; lia.
Qed.

Lemma original_colors_are_prioritized_by_order_witness :
  od_get ("#ff0000", "#FFFFFF")
    (original_color_priority
       [("#00ff00", "#FFFFFF"); ("#ff0000", "#FFFFFF"); ("#00ff00", "#FFFFFF")])
  = Some (point 3 2).
Proof.
  exact (proj1 (original_colors_are_prioritized_by_order
                  [("#00ff00", "#FFFFFF"); ("#ff0000", "#FFFFFF"); ("#00ff00", "#FFFFFF")]
                  1 ("#ff0000", "#FFFFFF") eq_refl)).
Defined.

(** [_draw_map_kos_original_color] hands these priorities to
    [set_color_priority]. *)
Lemma original_color_uses_priority env pathway_number ko_ids output_dir lacking fs
    store colors :
  let pathway := get_pathway env pathway_number in
  let select_entries :=
    get_entries pathway None (Some (fun id => bool_decide (id ∈ ko_ids))) in
  is_nil select_entries && negb lacking = false →
  color_entries_original (is_global_map pathway) (is_overview_map pathway)
    (uuid <$> select_entries) (get_entries pathway (Some "ortholog") None)
    (uuid_element_lookup pathway) [] = Ok (store, colors) →
  ∃ recolor compounds,
    _draw_map_kos_original_color env pathway_number ko_ids output_dir lacking fs
    = (let pathway' :=
         set_color_priority env (original_color_priority colors) recolor compounds None
           (with_lookup pathway store) in
       _ ← draw_to env pathway' (out_path_of output_dir pathway_number);
       mret (true, pathway')) fs.
Proof.
  intros pathway select_entries Hdraw Hcol. unfold _draw_map_kos_original_color.
  fold pathway. fold select_entries. rewrite Hdraw.
  rewrite M_bind_lift, Hcol. cbv beta iota zeta. fold (original_color_priority colors).
  destruct (is_global_map pathway); [by eexists _, _|].
  destruct (is_overview_map pathway); by eexists _, _.
Qed.

Lemma color_entries_single_frame global overview color_hexcode select_uuids es
    (st st' : gmap string Graphics) u :
  color_entries_single global overview color_hexcode select_uuids es st = Ok st' →
  (∀ e, e ∈ es → u ∉ children_graphics e) → st' !! u = st !! u.
Proof.
  revert st. induction es as [|e es IH]; intros st Hr Hn.
  - simpl in Hr. by injection Hr as <-.
  - cbn [color_entries_single] in Hr.
    destruct (update_graphics _ (children_graphics e) st) as [st1|] eqn:Hu1; [|done].
    rewrite result_bind_ok in Hr.
    rewrite (IH _ Hr) by (intros e' He'; apply Hn; by right).
    eapply update_graphics_frame; [exact Hu1|]. apply Hn. left.
Qed.

Lemma color_entries_single_paints global overview color_hexcode select_uuids all_entries
    (store store' : gmap string Graphics) (entry : Entry) (u : string) :
  color_entries_single global overview color_hexcode select_uuids all_entries store
  = Ok store' →
  NoDup (mjoin (children_graphics <$> all_entries)) →
  entry ∈ all_entries → u ∈ children_graphics entry →
  ∃ g, store !! u = Some g ∧
       store' !! u = Some (if bool_decide (uuid entry ∈ select_uuids)
                           then color_selected global overview color_hexcode g
                           else mark_unselected g).
Proof.
  revert store. induction all_entries as [|e rest IH]; intros store Hrun Hnd Hin Hu.
  - by apply elem_of_nil in Hin.
  - cbn [color_entries_single] in Hrun. simpl in Hnd.
    apply NoDup_app in Hnd as (Hnd_e & Hdisj & Hnd_rest).
    destruct (update_graphics _ (children_graphics e) store) as [store1|] eqn:Hupd; [|done].
    rewrite result_bind_ok in Hrun.
    assert (Hother : ∀ e', e' ∈ rest → u ∈ children_graphics e →
                           u ∉ children_graphics e').
    { intros e' He' Hue Hu'. apply (Hdisj u Hue). apply list_elem_of_join.
      exists (children_graphics e'). split; [done|]. apply list_elem_of_fmap. by exists e'. }
    destruct (decide (u ∈ children_graphics e)) as [Hue|Hnue].
    + assert (entry = e ∨ entry ∈ rest) as [->|Hin'] by by apply elem_of_cons.
      * destruct (update_graphics_marks _ _ _ _ u Hupd Hue Hnd_e) as (g & Hg & Hg1).
        exists g. split; [done|].
        rewrite (color_entries_single_frame _ _ _ _ _ _ _ u Hrun)
          by (intros e' He'; by apply Hother).
        rewrite Hg1. by destruct (bool_decide _).
      * exfalso. by apply (Hother entry Hin' Hue).
    + assert (entry = e ∨ entry ∈ rest) as [->|Hin'] by by apply elem_of_cons.
      { done. }
      destruct (IH _ Hrun Hnd_rest Hin' Hu) as (g & Hg & Hfin).
      exists g. split; [|done]. rewrite <- Hg. symmetry.
      by eapply update_graphics_frame.
Qed.

Lemma original_graphics_spec global overview uuids (store store' : gmap string Graphics)
    colors colors' :
  original_graphics global overview uuids store colors = Ok (store', colors') →
  update_graphics (keep_original global overview) uuids store = Ok store'.
Proof.
  revert store colors. induction uuids as [|u uuids IH]; intros store colors Hrun.
  - simpl in *. by injection Hrun as <- _.
  - simpl in *. destruct (store !! u) as [g|]; [|done]. by eapply IH.
Qed.

Lemma color_entries_original_frame global overview select_uuids es
    (st st' : gmap string Graphics) colors colors' u :
  color_entries_original global overview select_uuids es st colors = Ok (st', colors') →
  (∀ e, e ∈ es → u ∉ children_graphics e) → st' !! u = st !! u.
Proof.
  revert st colors. induction es as [|e es IH]; intros st colors Hr Hn.
  - simpl in Hr. by injection Hr as <- _.
  - cbn [color_entries_original] in Hr.
    destruct (bool_decide (uuid e ∈ select_uuids)).
    + destruct (original_graphics _ _ _ st colors) as [[st1 c1]|] eqn:Hu1; [|done].
      rewrite result_bind_ok in Hr. cbv beta iota in Hr.
      rewrite (IH _ _ Hr) by (intros e' He'; apply Hn; by right).
      apply original_graphics_spec in Hu1.
      eapply update_graphics_frame; [exact Hu1|]. apply Hn. left.
    + destruct (update_graphics mark_unselected (children_graphics e) st) as [st1|] eqn:Hu1;
        [|done].
      rewrite !result_bind_ok in Hr. cbv beta iota in Hr.
      rewrite (IH _ _ Hr) by (intros e' He'; apply Hn; by right).
      eapply update_graphics_frame; [exact Hu1|]. apply Hn. left.
Qed.

Lemma color_entries_original_paints global overview select_uuids all_entries
    (store store' : gmap string Graphics) colors colors' (entry : Entry) (u : string) :
  color_entries_original global overview select_uuids all_entries store colors
  = Ok (store', colors') →
  NoDup (mjoin (children_graphics <$> all_entries)) →
  entry ∈ all_entries → u ∈ children_graphics entry →
  ∃ g, store !! u = Some g ∧
       store' !! u = Some (if bool_decide (uuid entry ∈ select_uuids)
                           then keep_original global overview g
                           else mark_unselected g).
Proof.
  revert store colors. induction all_entries as [|e rest IH];
    intros store colors Hrun Hnd Hin Hu.
  - by apply elem_of_nil in Hin.
  - cbn [color_entries_original] in Hrun. simpl in Hnd.
    apply NoDup_app in Hnd as (Hnd_e & Hdisj & Hnd_rest).
    assert (Hother : ∀ e', e' ∈ rest → u ∈ children_graphics e →
                           u ∉ children_graphics e').
    { intros e' He' Hue Hu'. apply (Hdisj u Hue). apply list_elem_of_join.
      exists (children_graphics e'). split; [done|]. apply list_elem_of_fmap. by exists e'. }
    assert (Hstep : ∃ store1 colors1,
              update_graphics (if bool_decide (uuid e ∈ select_uuids)
                               then keep_original global overview else mark_unselected)
                (children_graphics e) store = Ok store1 ∧
              color_entries_original global overview select_uuids rest store1 colors1
              = Ok (store', colors')).
    { destruct (bool_decide (uuid e ∈ select_uuids)).
      - destruct (original_graphics _ _ _ store colors) as [[st1 c1]|] eqn:Hu1; [|done].
        rewrite result_bind_ok in Hrun. cbv beta iota in Hrun.
        exists st1, c1. split; [by eapply original_graphics_spec|done].
      - destruct (update_graphics mark_unselected (children_graphics e) store)
          as [st1|] eqn:Hu1; [|done].
        rewrite !result_bind_ok in Hrun. cbv beta iota in Hrun.
        by exists st1, colors. }
    destruct Hstep as (store1 & colors1 & Hupd & Hrest). clear Hrun.
    destruct (decide (u ∈ children_graphics e)) as [Hue|Hnue].
    + assert (entry = e ∨ entry ∈ rest) as [->|Hin'] by by apply elem_of_cons.
      * destruct (update_graphics_marks _ _ _ _ u Hupd Hue Hnd_e) as (g & Hg & Hg1).
        exists g. split; [done|].
        rewrite (color_entries_original_frame _ _ _ _ _ _ _ _ u Hrest)
          by (intros e' He'; by apply Hother).
        rewrite Hg1. by destruct (bool_decide _).
      * exfalso. by apply (Hother entry Hin' Hue).
    + assert (entry = e ∨ entry ∈ rest) as [->|Hin'] by by apply elem_of_cons.
      { done. }
      destruct (IH _ _ Hrest Hnd_rest Hin' Hu) as (g & Hg & Hfin).
      exists g. split; [|done]. rewrite <- Hg. symmetry.
      by eapply update_graphics_frame.
Qed.

(** X22.  The loops of [_draw_map_kos_single_color] and
    [_draw_map_kos_original_color] visit every ortholog entry of the map
    (entries owning their Graphics elements exclusively): a Graphics element
    of an entry whose uuid is selected gets the colour by kind of map
    (respectively keeps its main colour and gets the secondary one), a
    Graphics element of any other ortholog entry gets the foreground
    ['0']. *)
Theorem fixed_colors_paint_or_mark_every_ortholog (pathway : Pathway)
    (ko_ids : list string) (color_hexcode : string) (entry : Entry) (u : string) :
  let select_uuids :=
    uuid <$> get_entries pathway None (Some (fun id => bool_decide (id ∈ ko_ids))) in
  let all_entries := get_entries pathway (Some "ortholog") None in
  let global := is_global_map pathway in
  let overview := is_overview_map pathway in
  NoDup (mjoin (children_graphics <$> all_entries)) →
  entry ∈ all_entries → u ∈ children_graphics entry →
  (∀ store',
     color_entries_single global overview color_hexcode select_uuids all_entries
       (uuid_element_lookup pathway) = Ok store' →
     ∃ g, uuid_element_lookup pathway !! u = Some g ∧
          store' !! u = Some (if bool_decide (uuid entry ∈ select_uuids)
                              then color_selected global overview color_hexcode g
                              else mark_unselected g)) ∧
  (∀ store' colors,
     color_entries_original global overview select_uuids all_entries
       (uuid_element_lookup pathway) [] = Ok (store', colors) →
     ∃ g, uuid_element_lookup pathway !! u = Some g ∧
          store' !! u = Some (if bool_decide (uuid entry ∈ select_uuids)
                              then keep_original global overview g
                              else mark_unselected g)).
Proof.
  intros select_uuids all_entries global overview Hnd Hin Hu. split.
  - intros store' Hrun. by eapply color_entries_single_paints.
  - intros store' colors Hrun. by eapply color_entries_original_paints.
Qed.

Lemma fixed_colors_paint_or_mark_every_ortholog_witness :
  ∃ store' g,
    color_entries_single (is_global_map Example.map_00010)
      (is_overview_map Example.map_00010) "#2ca02c"
      (uuid <$> get_entries Example.map_00010 None
                  (Some (fun id => bool_decide (id ∈ ["K00001"]))))
      (get_entries Example.map_00010 (Some "ortholog") None)
      (uuid_element_lookup Example.map_00010) = Ok store' ∧
    uuid_element_lookup Example.map_00010 !! "g2" = Some g ∧
    store' !! "g2" = Some (mark_unselected g).
Proof.
  assert (Hnd : NoDup (mjoin (children_graphics
                                <$> get_entries Example.map_00010 (Some "ortholog") None))).
  { vm_compute. repeat constructor; intros Hin;
      repeat (apply elem_of_cons in Hin as [Hin|Hin]; [discriminate Hin|]);
      by apply elem_of_nil in Hin. }
  pose proof (proj1 (fixed_colors_paint_or_mark_every_ortholog Example.map_00010 ["K00001"]
                       "#2ca02c"
                       {| uuid := "e2"; type := "ortholog";
                          name := [["ko"; "K00002"]; ["ko"; "K00003"]];
                          children_graphics := ["g2"] |} "g2" Hnd
                       ltac:(vm_compute; right; left) ltac:(left))) as Hthm.
  cbv zeta in Hthm.
  set (run := color_entries_single (is_global_map Example.map_00010)
      (is_overview_map Example.map_00010) "#2ca02c"
                (uuid <$> get_entries Example.map_00010 None
                            (Some (fun id => bool_decide (id ∈ ["K00001"]))))
                (get_entries Example.map_00010 (Some "ortholog") None)
                (uuid_element_lookup Example.map_00010)) in *.
  assert (Hok : Example.is_Ok run = true) by (vm_compute; reflexivity).
  clearbody run. destruct run as [store'|e]; [|discriminate Hok].
  destruct (Hthm store' eq_refl) as (g & Hg & Hs).
  exists store', g. split; [reflexivity|]. split; [exact Hg|exact Hs].
Defined.

End FixedColorProps.

(** ** The constructor of [Inversions] *)
Module InversionsInitProps.
Import Py StrOrd StrOrdFacts InversionsInit Outcomes SourcesProps.

Lemma StronglySorted_filter {A} (R : A → A → Prop) (f : A → bool) (l : list A) :
  StronglySorted R l → StronglySorted R (List.filter f l).
Proof.
  induction 1 as [|x l Hs IH Hall]; simpl; [constructor|].
  destruct (f x); [|done]. constructor; [done|].
  apply Forall_forall. intros y Hy. apply list_elem_of_In, filter_In in Hy as [Hy _].
  apply list_elem_of_In in Hy. by eapply Forall_forall in Hall.
Qed.

Lemma NoDup_filter_list {A} (f : A → bool) (l : list A) : NoDup l → NoDup (List.filter f l).
Proof.
  induction 1 as [|x l Hx Hnd IH]; simpl; [constructor|].
  destruct (f x); [|done]. constructor; [|done].
  intros Hin. apply Hx. apply list_elem_of_In, filter_In in Hin as [Hin _].
  by apply list_elem_of_In.
Qed.

Lemma elem_of_keys {V} (d : gmap string V) (k : string) : k ∈ keys d ↔ is_Some (d !! k).
Proof.
  unfold keys. rewrite list_elem_of_fmap. split.
  - intros ([k' v] & -> & Hin). apply elem_of_map_to_list in Hin. by eexists.
  - intros [v Hv]. exists (k, v). split; [done|]. by apply elem_of_map_to_list.
Qed.

Lemma sorted_keys_spec {V} (d : gmap string V) :
  StronglySorted str_le (sorted (keys d)) ∧ NoDup (sorted (keys d)) ∧
  ∀ k, k ∈ sorted (keys d) ↔ is_Some (d !! k).
Proof.
  unfold sorted. split; [apply StronglySorted_merge_sort; apply _|]. split.
  - rewrite merge_sort_Permutation. apply NoDup_fst_map_to_list.
  - intros k. rewrite merge_sort_Permutation. apply elem_of_keys.
Qed.

Lemma group_splits_spec (info : gmap string string) (split_names : list string)
    (table : gmap string (list string)) :
  (∀ s, s ∈ split_names → is_Some (info !! s)) →
  ∃ table',
    group_splits info split_names table = Ok table' ∧
    ∀ c, sources_of table' c
         = sources_of table c
           ++ List.filter (fun s => bool_decide (info !! s = Some c)) split_names ∧
         (is_Some (table' !! c) ↔
          is_Some (table !! c) ∨ ∃ s, s ∈ split_names ∧ info !! s = Some c).
Proof.
  revert table. induction split_names as [|s rest IH]; intros table Hdom.
  - exists table. split; [done|]. intros c. simpl. rewrite app_nil_r. split; [done|].
    split; [by left|]. intros [?|(? & ?%elem_of_nil & _)]; done.
  - cbn [group_splits]. destruct (Hdom s ltac:(left)) as [contig Hs]. rewrite Hs.
    set (table1 := if bool_decide (is_Some (table !! contig)) then table
                   else <[contig := []]> table).
    assert (H1 : table1 !! contig = Some (sources_of table contig)).
    { unfold table1, sources_of. destruct (table !! contig) as [l|] eqn:Hl.
      - rewrite bool_decide_true by done. by rewrite Hl.
      - rewrite bool_decide_false by (by intros [? ?]). by rewrite lookup_insert_eq. }
    assert (H2 : ∀ c, c ≠ contig → table1 !! c = table !! c).
    { intros c Hne. unfold table1. destruct (bool_decide _); [done|].
      by apply lookup_insert_ne. }
    rewrite H1.
    destruct (IH (<[contig := sources_of table contig ++ [s]]> table1)) as (table' & Hrun & Hspec).
    { intros s' Hs'. apply Hdom. by right. }
    exists table'. split; [done|]. intros c. destruct (Hspec c) as [Hsrc Hsome].
    rewrite Hsrc, Hsome. clear Hsrc Hsome Hspec. simpl.
    destruct (decide (c = contig)) as [->|Hne].
    + unfold sources_of at 1. rewrite lookup_insert_eq. simpl.
      rewrite bool_decide_true by done. rewrite <- app_assoc. split; [done|].
      split; [|by eauto].
      intros _. right. exists s. split; [left|done].
    + unfold sources_of at 1. rewrite !lookup_insert_ne by done. rewrite H2 by done.
      fold (sources_of table c).
      rewrite bool_decide_false by (rewrite Hs; by intros [= ->]).
      split; [done|]. split.
      * intros [?|(s' & Hs' & Hc)]; [by left|]. right. exists s'. split; [by right|done].
      * intros [?|(s' & [->|Hs']%elem_of_cons & Hc)]; [by left| |].
        -- rewrite Hs in Hc. by injection Hc as ->.
        -- right. by exists s'.
Qed.

Lemma init_inv env contigs_db profile_dbs skip st :
  __init__ env contigs_db profile_dbs skip = Ok st →
  group_splits (splits_basic_info st) (sorted (keys (splits_basic_info st))) ∅
  = Ok (contig_name_to_split_names st) ∧
  contig_names st = sorted (keys (contig_name_to_split_names st)) ∧
  profile_db_paths st = profile_dbs ∧ contigs_db_path st = contigs_db ∧
  profile_dbs ≠ [].
Proof.
  unfold __init__. intros Hrun.
  destruct (if skip then Ok tt else _) as [[]|]; [|done]. rewrite result_bind_ok in Hrun.
  destruct profile_dbs as [|first rest]; [done|]. cbn [getitem lookup list_lookup] in Hrun.
  rewrite result_bind_ok in Hrun.
  destruct (smart_get_splits_info env contigs_db _) as [info|]; [|done].
  rewrite result_bind_ok in Hrun.
  destruct (group_splits info _ ∅) as [table|] eqn:Hg; [|done].
  rewrite result_bind_ok in Hrun. injection Hrun as <-. simpl. done.
Qed.

(** X23.  After [Inversions.__init__], [contig_name_to_split_names] lists a
    split under a contig exactly when the contig is the parent of the split
    in [splits_basic_info]; every list is non-empty, sorted and without
    repeats. *)
Theorem splits_are_grouped_by_contig (env : Env) (contigs_db : string)
    (profile_dbs : list string) (skip_sanity_check : bool) (st : State) :
  __init__ env contigs_db profile_dbs skip_sanity_check = Ok st →
  (∀ split_name contig_name,
     split_name ∈ sources_of (contig_name_to_split_names st) contig_name ↔
     splits_basic_info st !! split_name = Some contig_name) ∧
  (∀ contig_name split_names,
     contig_name_to_split_names st !! contig_name = Some split_names →
     split_names ≠ [] ∧ StronglySorted str_le split_names ∧ NoDup split_names).
Proof.
  intros Hinit. apply init_inv in Hinit as (Hg & _).
  destruct (sorted_keys_spec (splits_basic_info st)) as (Hsorted & Hnd & Hkeys).
  destruct (group_splits_spec (splits_basic_info st) (sorted (keys (splits_basic_info st))) ∅)
    as (table & Hrun & Hspec).
  { intros s Hs. by apply Hkeys. }
  rewrite Hg in Hrun. injection Hrun as <-.
  assert (Hsrc : ∀ c, sources_of (contig_name_to_split_names st) c
                      = List.filter (fun s => bool_decide (splits_basic_info st !! s = Some c))
                          (sorted (keys (splits_basic_info st)))).
  { intros c. destruct (Hspec c) as [-> _]. unfold sources_of. by rewrite lookup_empty. }
  split.
  - intros s c. rewrite Hsrc. rewrite list_elem_of_In, filter_In, <- list_elem_of_In.
    rewrite bool_decide_eq_true, Hkeys. split; [by intros [_ ?]|].
    intros Hs. split; [by eexists|done].
  - intros c l Hl.
    assert (Hl' : l = sources_of (contig_name_to_split_names st) c)
      by (unfold sources_of; by rewrite Hl).
    rewrite Hsrc in Hl'. subst l. split; [|split].
    + destruct (Hspec c) as [_ Hsome].
      destruct (proj1 Hsome ltac:(by rewrite Hl)) as [Hemp|(s & Hs & Hc)].
      { rewrite lookup_empty in Hemp. by destruct Hemp. }
      intros Hnil.
      assert (Hin : s ∈ List.filter
                      (fun s => bool_decide (splits_basic_info st !! s = Some c))
                      (sorted (keys (splits_basic_info st)))).
      { apply list_elem_of_In, filter_In. split; [by apply list_elem_of_In|].
        by apply bool_decide_eq_true. }
      rewrite Hnil in Hin. by apply elem_of_nil in Hin.
    + by apply StronglySorted_filter.
    + by apply NoDup_filter_list.
Qed.

Lemma splits_are_grouped_by_contig_witness :
  ∃ st,
    __init__ InversionsInitExample.example_env "contigs.db" ["a.db"] false = Ok st ∧
    contig_name_to_split_names st !! "c1" = Some ["c1_split_00001"; "c1_split_00002"] ∧
    ∀ split_name contig_name,
      split_name ∈ sources_of (contig_name_to_split_names st) contig_name ↔
      splits_basic_info st !! split_name = Some contig_name.
Proof.
  pose proof (splits_are_grouped_by_contig InversionsInitExample.example_env "contigs.db"
                ["a.db"] false) as Hthm.
  set (run := __init__ InversionsInitExample.example_env "contigs.db" ["a.db"] false) in *.
  assert (Hok : Example.is_Ok run = true) by (vm_compute; reflexivity).
  assert (Hc1 : contig_name_to_split_names (InversionsInitExample.state_of run) !! "c1"
                = Some ["c1_split_00001"; "c1_split_00002"]) by (vm_compute; reflexivity).
  clearbody run. destruct run as [st|e]; [|discriminate Hok].
  exists st. split; [reflexivity|]. split; [exact Hc1|].
  exact (proj1 (Hthm st eq_refl)).
Defined.

(** X24.  After [Inversions.__init__], [contig_names] is sorted and without
    repeats; it holds exactly the parents of the splits, which are the keys
    of [contig_name_to_split_names]. *)
Theorem contig_names_are_the_sorted_parents (env : Env) (contigs_db : string)
    (profile_dbs : list string) (skip_sanity_check : bool) (st : State) :
  __init__ env contigs_db profile_dbs skip_sanity_check = Ok st →
  StronglySorted str_le (contig_names st) ∧ NoDup (contig_names st) ∧
  (∀ contig_name,
     contig_name ∈ contig_names st ↔
     ∃ split_name, splits_basic_info st !! split_name = Some contig_name) ∧
  (∀ contig_name,
     contig_name ∈ contig_names st ↔
     is_Some (contig_name_to_split_names st !! contig_name)).
Proof.
  intros Hinit. apply init_inv in Hinit as (Hg & Hnames & _).
  destruct (sorted_keys_spec (contig_name_to_split_names st)) as (Hsorted & Hnd & Hkeys).
  rewrite Hnames. split; [done|]. split; [done|]. split; [|exact Hkeys].
  intros c. rewrite Hkeys.
  destruct (sorted_keys_spec (splits_basic_info st)) as (_ & _ & Hk).
  destruct (group_splits_spec (splits_basic_info st) (sorted (keys (splits_basic_info st))) ∅)
    as (table & Hrun & Hspec).
  { intros s Hs. by apply Hk. }
  rewrite Hg in Hrun. injection Hrun as <-.
  destruct (Hspec c) as [_ ->]. rewrite lookup_empty. split.
  - intros [[? [=]]|(s & _ & Hs)]. by exists s.
  - intros (s & Hs). right. exists s. split; [|done]. apply Hk. by eexists.
Qed.

Lemma contig_names_are_the_sorted_parents_witness :
  ∃ st,
    __init__ InversionsInitExample.example_env "contigs.db" ["a.db"] false = Ok st ∧
    contig_names st = ["c1"; "c2"] ∧
    StronglySorted str_le (contig_names st) ∧ NoDup (contig_names st).
Proof.
  pose proof (contig_names_are_the_sorted_parents InversionsInitExample.example_env
                "contigs.db" ["a.db"] false) as Hthm.
  set (run := __init__ InversionsInitExample.example_env "contigs.db" ["a.db"] false) in *.
  assert (Hok : Example.is_Ok run = true) by (vm_compute; reflexivity).
  assert (Hn : contig_names (InversionsInitExample.state_of run) = ["c1"; "c2"])
    by (vm_compute; reflexivity).
  clearbody run. destruct run as [st|e]; [|discriminate Hok].
  exists st. split; [reflexivity|]. split; [exact Hn|].
  destruct (Hthm st eq_refl) as (Hs & Hnd & _). by split.
Defined.

(** X25.  [Inversions.__init__] with an empty list of profile databases:
    the sanity check has nothing to object to beyond the check of the
    contigs database, and the constructor then fails on
    [self.profile_db_paths[0]] with an [IndexError]. *)
Theorem no_profile_database_is_an_index_error (env : Env) (contigs_db : string)
    (skip_sanity_check : bool) :
  __init__ env contigs_db [] skip_sanity_check
  = if skip_sanity_check then Raise IndexError
    else match Inversions.is_contigs_db (checks env) contigs_db with
         | Ok _ => Raise IndexError
         | Raise e => Raise e
         end.
Proof.
  unfold __init__. destruct skip_sanity_check; [done|].
  unfold Inversions.sanity_check.
  destruct (Inversions.is_contigs_db (checks env) contigs_db) as [[]|e]; [|done].
  reflexivity.
Qed.

End InversionsInitProps.

(** ** The constructor of [Mapper] *)
Module MapperInitProps.
Import Py MapperInit PathFacts.

Lemma string_drop_length (n : nat) (s : string) :
  String.length (string_drop n s) = (String.length s - n)%nat.
Proof.
  revert s. induction n as [|n IH]; intros [|c s]; simpl; try done; lia.
Qed.

Lemma string_drop_suffix (n : nat) (s : string) : ∃ pre, s = pre +:+ string_drop n s.
Proof.
  revert s. induction n as [|n IH]; intros s.
  - by exists "".
  - destruct s as [|c s]; [by exists ""|].
    destruct (IH s) as [pre Hpre]. exists (String c pre). simpl.
    rewrite append_cons. by rewrite <- Hpre.
Qed.

Lemma read_available_pathway_numbers_spec (rows : list MapRow) :
  read_available_pathway_numbers rows
  = (fun row => last_five (Index row))
      <$> List.filter (fun row => negb (KO row + EC row + RN row =? 0)) rows.
Proof.
  unfold read_available_pathway_numbers.
  assert (Hgen : ∀ acc,
            foldl (fun available_pathway_numbers row =>
                     if KO row + EC row + RN row =? 0 then available_pathway_numbers
                     else available_pathway_numbers ++ [last_five (Index row)]) acc rows
            = acc ++ ((fun row => last_five (Index row))
                        <$> List.filter (fun row => negb (KO row + EC row + RN row =? 0))
                              rows)).
  { induction rows as [|row rows IH]; intros acc; simpl; [by rewrite app_nil_r|].
    rewrite IH. destruct (KO row + EC row + RN row =? 0); simpl; [done|].
    by rewrite <- app_assoc. }
  apply (Hgen []).
Qed.

(** X26.  Every pathway number [Mapper.__init__] makes available is the end
    of the label of a row of the table whose KO, EC and RN counts do not sum
    to zero: its last five characters, the whole label if it is shorter. *)
Theorem available_numbers_are_last_five_characters (collaborators : Mapper.Env)
    (rows : list MapRow) (overwrite_output : bool) (pathway_number : string) :
  pathway_number
    ∈ Mapper.available_pathway_numbers (__init__ collaborators rows overwrite_output) →
  ∃ row pre,
    row ∈ rows ∧ KO row + EC row + RN row ≠ 0 ∧
    Index row = pre +:+ pathway_number ∧
    String.length pathway_number = Nat.min 5 (String.length (Index row)).
Proof.
  unfold __init__. cbn [Mapper.available_pathway_numbers].
  rewrite read_available_pathway_numbers_spec, list_elem_of_fmap.
  intros (row & -> & Hrow). apply list_elem_of_In, filter_In in Hrow as [Hrow Hnz].
  apply list_elem_of_In in Hrow. apply negb_true_iff, Z.eqb_neq in Hnz.
  destruct (string_drop_suffix (String.length (Index row) - 5) (Index row)) as [pre Hpre].
  exists row, pre. split; [done|]. split; [done|]. split; [exact Hpre|].
  unfold last_five. rewrite string_drop_length. lia.
Qed.

Lemma available_numbers_are_last_five_characters_witness :
  ∃ row pre,
    row ∈ [ {| Index := "map00010"; KO := 1; EC := 1; RN := 1 |};
            {| Index := "map00020"; KO := 0; EC := 0; RN := 0 |} ] ∧
    KO row + EC row + RN row ≠ 0 ∧
    Index row = pre +:+ "00010" ∧
    String.length "00010" = Nat.min 5 (String.length (Index row)).
Proof.
  refine (available_numbers_are_last_five_characters Example.env
            [ {| Index := "map00010"; KO := 1; EC := 1; RN := 1 |};
              {| Index := "map00020"; KO := 0; EC := 0; RN := 0 |} ] false "00010" _).
  vm_compute. left.
Defined.

End MapperInitProps.
